(** * Multimodal embeddings script (index.js): a shallow embedding

    The script is sequential orchestration code over three external
    collaborators: the Node.js file system, a remote embedding service and a
    Faiss-backed vector store.  The model below keeps the script's own logic
    executable and takes the collaborators as an interface ([Runtime]).

    - the working directory is a tree of files and directories ([Node]);
    - [World] holds that tree, the global [vectorStore] handle and the
      [trace] of externally visible calls made so far;
    - a JavaScript function is a state-and-exception computation [M A]:
      a thrown error stops the computation, the state reached so far stays. *)

From Stdlib Require Import NArith ZArith List String Ascii Lia Bool Zify.
From Stdlib.Strings Require Import Byte.
Import ListNotations.
Local Open Scope string_scope.

(** ** Errors and results *)

Inductive Error : Type :=
| IOError (code : string) (path : string)   (* thrown by fs.*Sync *)
| EmbeddingError                            (* thrown by the embedding service *)
| StoreError                                (* thrown by the vector store *)
| TypeError.                                (* property access on undefined *)

Inductive Result (A : Type) : Type :=
| Ok (a : A)
| Err (e : Error).
Arguments Ok {A} a.
Arguments Err {A} e.

Definition is_ok {A : Type} (r : Result A) : bool :=
  match r with Ok _ => true | Err _ => false end.

Definition Bytes := list byte.

(** ** Base64, as Buffer.toString("base64") and the "base64" write encoding *)

Module Base64.
Local Open Scope N_scope.

Definition alphabet : string :=
  "ABCDEFGHIJKLMNOPQRSTUVWXYZabcdefghijklmnopqrstuvwxyz0123456789+/".

Definition sextet_char (n : N) : ascii :=
  match String.get (N.to_nat n) alphabet with
  | Some c => c
  | None => "A"%char
  end.

Fixpoint index_of (c : ascii) (s : string) : option N :=
  match s with
  | EmptyString => None
  | String d r =>
      if Ascii.eqb c d then Some 0 else option_map N.succ (index_of c r)
  end.

Definition char_sextet (c : ascii) : option N := index_of c alphabet.

Definition byte_of_N (n : N) : byte :=
  match Byte.of_N (n mod 256) with
  | Some b => b
  | None => x00
  end.

(** Modelled from the spec: the Node.js base64 codec is not part of the
    repository.  Encoding is RFC 4648 with the standard alphabet and "="
    padding: three bytes give four characters. *)
Fixpoint encode (bs : Bytes) : string :=
  match bs with
  | [] => EmptyString
  | [a] =>
      let n := Byte.to_N a * 65536 in
      String (sextet_char (n / 262144))
        (String (sextet_char (n / 4096 mod 64)) "==")
  | [a; b] =>
      let n := Byte.to_N a * 65536 + Byte.to_N b * 256 in
      String (sextet_char (n / 262144))
        (String (sextet_char (n / 4096 mod 64))
           (String (sextet_char (n / 64 mod 64)) "="))
  | a :: b :: c :: rest =>
      let n := Byte.to_N a * 65536 + Byte.to_N b * 256 + Byte.to_N c in
      String (sextet_char (n / 262144))
        (String (sextet_char (n / 4096 mod 64))
           (String (sextet_char (n / 64 mod 64))
              (String (sextet_char (n mod 64)) (encode rest))))
  end.

(** The characters of the alphabet, as six-bit values; any other character
    (padding included) carries no data and is passed over. *)
Fixpoint sextets (s : string) : list N :=
  match s with
  | EmptyString => []
  | String c r =>
      match char_sextet c with
      | Some n => n :: sextets r
      | None => sextets r
      end
  end.

Fixpoint bytes_of_sextets (l : list N) : Bytes :=
  match l with
  | a :: b :: c :: d :: rest =>
      let n := ((a * 64 + b) * 64 + c) * 64 + d in
      byte_of_N (n / 65536) :: byte_of_N (n / 256) :: byte_of_N n
        :: bytes_of_sextets rest
  | [a; b; c] =>
      let n := ((a * 64 + b) * 64 + c) * 64 in
      [byte_of_N (n / 65536); byte_of_N (n / 256)]
  | [a; b] =>
      let n := (a * 64 + b) * 4096 in
      [byte_of_N (n / 65536)]
  | _ => []
  end.

(** Modelled from the spec: decoding of the same codec, total on every
    string as Buffer.from(s, "base64") is. *)
Definition decode (s : string) : Bytes := bytes_of_sextets (sextets s).

End Base64.

(** ** The working directory *)

#[warnings="-register-all"]
Inductive Node : Type :=
| File (content : Bytes)
| Dir (entries : list (string * Node)).

Module FS.

(** [s.split("/")]: never empty, one more segment than there are slashes. *)
Fixpoint split_slash (s : string) : list string :=
  match s with
  | EmptyString => [EmptyString]
  | String c r =>
      if Ascii.eqb c "/" then EmptyString :: split_slash r
      else match split_slash r with
           | [] => [String c EmptyString]
           | seg :: segs => String c seg :: segs
           end
  end.

(** Path resolution: empty and "." segments are dropped, ".." steps back
    (and stays put at the top, the working directory being the model's
    root). *)
Fixpoint normalise (acc : list string) (segs : list string) : list string :=
  match segs with
  | [] => rev acc
  | s :: r =>
      if (s =? EmptyString) || (s =? ".") then normalise acc r
      else if s =? ".." then normalise (tl acc) r
      else normalise (s :: acc) r
  end.

Definition segments (p : string) : list string := normalise [] (split_slash p).

Fixpoint find_entry (name : string) (es : list (string * Node)) : option Node :=
  match es with
  | [] => None
  | (k, n) :: r => if k =? name then Some n else find_entry name r
  end.

Fixpoint remove_entry (name : string) (es : list (string * Node))
  : list (string * Node) :=
  match es with
  | [] => []
  | (k, n) :: r => if k =? name then r else (k, n) :: remove_entry name r
  end.

Fixpoint put_entry (name : string) (n : Node) (es : list (string * Node))
  : list (string * Node) :=
  match es with
  | [] => [(name, n)]
  | (k, m) :: r =>
      if k =? name then (k, n) :: r else (k, m) :: put_entry name n r
  end.

Fixpoint get (p : list string) (n : Node) : option Node :=
  match p with
  | [] => Some n
  | s :: r =>
      match n with
      | Dir es =>
          match find_entry s es with
          | Some c => get r c
          | None => None
          end
      | File _ => None
      end
  end.

(** Rewrites the node reached by [p]; [None] when [p] does not resolve or
    [f] refuses. *)
Fixpoint modify (p : list string) (f : Node -> option Node) (n : Node)
  : option Node :=
  match p with
  | [] => f n
  | s :: r =>
      match n with
      | Dir es =>
          match find_entry s es with
          | Some c =>
              match modify r f c with
              | Some c' => Some (Dir (put_entry s c' es))
              | None => None
              end
          | None => None
          end
      | File _ => None
      end
  end.

(** Splits a resolved path into its parent and its last segment. *)
Definition parent_and_name (p : list string) : option (list string * string) :=
  match rev p with
  | [] => None
  | name :: rparent => Some (rev rparent, name)
  end.

Definition exists_ (path : string) (root : Node) : bool :=
  match get (segments path) root with
  | Some _ => true
  | None => false
  end.

Definition readdir (path : string) (root : Node) : Result (list string) :=
  match get (segments path) root with
  | Some (Dir es) => Ok (map fst es)
  | Some (File _) => Err (IOError "ENOTDIR" path)
  | None => Err (IOError "ENOENT" path)
  end.

Definition readFile (path : string) (root : Node) : Result Bytes :=
  match get (segments path) root with
  | Some (File b) => Ok b
  | Some (Dir _) => Err (IOError "EISDIR" path)
  | None => Err (IOError "ENOENT" path)
  end.

(** unlink(2): removes a file entry from its directory; a directory is
    refused. *)
Definition unlink (path : string) (root : Node) : Result Node :=
  match parent_and_name (segments path) with
  | None => Err (IOError "EISDIR" path)
  | Some (parent, name) =>
      match get (segments path) root with
      | Some (File _) =>
          match modify parent
                  (fun d => match d with
                            | Dir es => Some (Dir (remove_entry name es))
                            | File _ => None
                            end) root with
          | Some root' => Ok root'
          | None => Err (IOError "ENOENT" path)
          end
      | Some (Dir _) => Err (IOError "EISDIR" path)
      | None => Err (IOError "ENOENT" path)
      end
  end.

(** open(2) with O_CREAT|O_TRUNC, then write: the parent directory must
    exist; the file is created or replaced. *)
Definition writeFile (path : string) (data : Bytes) (root : Node) : Result Node :=
  match parent_and_name (segments path) with
  | None => Err (IOError "EISDIR" path)
  | Some (parent, name) =>
      match modify parent
              (fun d => match d with
                        | Dir es =>
                            match find_entry name es with
                            | Some (Dir _) => None
                            | _ => Some (Dir (put_entry name (File data) es))
                            end
                        | File _ => None
                        end) root with
      | Some root' => Ok root'
      | None =>
          match get (segments path) root with
          | Some (Dir _) => Err (IOError "EISDIR" path)
          | _ => Err (IOError "ENOENT" path)
          end
      end
  end.

(** mkdir -p followed by the store's own files: [n] becomes the node at
    [p], missing directories on the way are created, a file in the way is
    an error. *)
Fixpoint place (p : list string) (n : Node) (root : Node) : option Node :=
  match p with
  | [] => match root with Dir _ => Some n | File _ => None end
  | s :: r =>
      match root with
      | Dir es =>
          match find_entry s es with
          | Some c =>
              match place r n c with
              | Some c' => Some (Dir (put_entry s c' es))
              | None => None
              end
          | None =>
              match place r n (Dir []) with
              | Some c' => Some (Dir (put_entry s c' es))
              | None => None
              end
          end
      | File _ => None
      end
  end.

(** A name readdir can return: not empty, not "." or "..", no slash. *)
Fixpoint no_slash (s : string) : bool :=
  match s with
  | EmptyString => true
  | String c r => negb (Ascii.eqb c "/") && no_slash r
  end.

Definition valid_name (s : string) : bool :=
  negb (s =? EmptyString) && negb (s =? ".") && negb (s =? "..") && no_slash s.

Definition is_file (n : Node) : bool :=
  match n with File _ => true | Dir _ => false end.

End FS.

(** ** Documents, the store, the events *)

Record Metadata : Type := {
  id : Z;
  mediaType : string;
  path : option string
}.

(** [new Document({ pageContent, metadata })].  langchain's constructor keeps
    a content only when it is not empty; the record keeps the string it is
    given, so it stands for the script's documents of non-empty content.
    The statements that render a stored document take a non-empty file. *)
Record Document : Type := {
  pageContent : string;
  metadata : Metadata
}.

Section Model.

Context {Vector Score : Type}.

(** The store keeps (vector, document) pairs in insertion order. *)
Definition Store : Type := list (Vector * Document).

Inductive Event : Type :=
| EvLog (line : string)
| EvUnlink (path : string)
| EvWriteFile (path : string) (data : Bytes)
| EvEmbedImage (img : Bytes)
| EvEmbedText (text : string)
| EvAddVectors (vs : list Vector) (ds : list Document)
| EvSearch (v : Vector) (k : nat)
| EvLoad (path : string)
| EvSave (path : string).

#[projections(primitive)]
Record World : Type := {
  fs : Node;
  vectorStore : Store;
  trace : list Event
}.

(** The collaborators the script imports.  The embedding service may answer
    differently from one call to the next, so it sees the trace so far. *)
Class Runtime : Type := {
  embedImageQuery : list Event -> Bytes -> Result Vector;
  embedQuery : list Event -> string -> Result Vector;
  faiss_accepts : Store -> list Vector -> list Document -> bool;
  similaritySearchVectorWithScore :
    Store -> Vector -> nat -> Result (list (Document * Score));
  FaissStore_load : Node -> Result Store;
  FaissStore_persist : Store -> Result Node;
  JSON_stringify : Metadata -> string
}.

Context {R : Runtime}.

(** ** Computations *)

Definition M (A : Type) : Type := World -> Result A * World.

Definition ret {A : Type} (a : A) : M A := fun w => (Ok a, w).

Definition bind {A B : Type} (m : M A) (k : A -> M B) : M B :=
  fun w =>
    match m w with
    | (Ok a, w1) => k a w1
    | (Err e, w1) => (Err e, w1)
    end.

Definition throw {A : Type} (e : Error) : M A := fun w => (Err e, w).

Definition emit (e : Event) : M unit :=
  fun w => (Ok tt, {| fs := fs w; vectorStore := vectorStore w;
                      trace := (trace w ++ [e])%list |}).

Definition set_fs (root : Node) : M unit :=
  fun w => (Ok tt, {| fs := root; vectorStore := vectorStore w;
                      trace := trace w |}).

Definition set_vectorStore (st : Store) : M unit :=
  fun w => (Ok tt, {| fs := fs w; vectorStore := st; trace := trace w |}).

Definition lift {A : Type} (r : Result A) : M A := fun w => (r, w).

Definition with_world {A : Type} (k : World -> M A) : M A := fun w => k w w.

End Model.

Declare Scope js_scope.
Delimit Scope js_scope with js.
Notation "x <- m ;; k" := (bind m (fun x => k))
  (at level 100, m at next level, right associativity) : js_scope.
Notation "m ;; k" := (bind m (fun _ => k))
  (at level 100, right associativity) : js_scope.

(** ** The script *)

Section Script.

Context {Vector Score : Type} {R : @Runtime Vector Score}.
Local Open Scope js_scope.

Local Abbreviation M := (@M Vector).

(** *** Node.js and library calls *)

Definition console_log (line : string) : M unit := emit (EvLog line).

Definition existsSync (path : string) : M bool :=
  with_world (fun w => ret (FS.exists_ path (fs w))).

Definition readdirSync (path : string) : M (list string) :=
  with_world (fun w => lift (FS.readdir path (fs w))).

Definition readFileSync (path : string) : M Bytes :=
  with_world (fun w => lift (FS.readFile path (fs w))).

Definition unlinkSync (path : string) : M unit :=
  emit (EvUnlink path) ;;
  with_world (fun w => root <- lift (FS.unlink path (fs w)) ;; set_fs root).

(** [fs.writeFileSync(file, data, "base64")]: the string is decoded, the
    bytes are written. *)
Definition writeFileSync_base64 (file : string) (data : string) : M unit :=
  let bytes := Base64.decode data in
  emit (EvWriteFile file bytes) ;;
  with_world (fun w => root <- lift (FS.writeFile file bytes (fs w)) ;; set_fs root).

(** The double quote character of the template literals. *)
Definition dquote : ascii := ascii_of_nat 34.

(** [path.join(a, b)] for a directory and one of its entries. *)
Definition path_join (a b : string) : string := a ++ "/" ++ b.

Fixpoint forEach {A : Type} (xs : list A) (body : A -> M unit) : M unit :=
  match xs with
  | [] => ret tt
  | x :: rest => body x ;; forEach rest body
  end.

Definition embeddings_embedImageQuery (img : Bytes) : M Vector :=
  with_world (fun w =>
    emit (EvEmbedImage img) ;; lift (embedImageQuery (trace w) img)).

Definition embeddings_embedQuery (text : string) : M Vector :=
  with_world (fun w =>
    emit (EvEmbedText text) ;; lift (embedQuery (trace w) text)).

(** Modelled from the spec: FaissStore.addVectors is library code; the
    pairs are appended in order, unless the store refuses the vectors (a
    dimension mismatch), in which case it throws. *)
Definition vectorStore_addVectors (vs : list Vector) (ds : list Document)
  : M unit :=
  emit (EvAddVectors vs ds) ;;
  with_world (fun w =>
    if faiss_accepts (vectorStore w) vs ds
    then set_vectorStore (vectorStore w ++ combine vs ds)%list
    else throw StoreError).

Definition vectorStore_similaritySearchVectorWithScore (v : Vector) (k : nat)
  : M (list (Document * Score)) :=
  emit (EvSearch v k) ;;
  with_world (fun w =>
    lift (similaritySearchVectorWithScore (vectorStore w) v k)).

(** Modelled from the spec: FaissStore.load reads the persisted store back
    from the directory at the path. *)
Definition FaissStore_load_from (path : string) : M Store :=
  emit (EvLoad path) ;;
  with_world (fun w =>
    match FS.get (FS.segments path) (fs w) with
    | Some n => lift (FaissStore_load n)
    | None => throw (IOError "ENOENT" path)
    end).

(** Modelled from the spec: FaissStore.save creates the directory at the
    path and writes the store's files into it. *)
Definition vectorStore_save (path : string) : M unit :=
  emit (EvSave path) ;;
  with_world (fun w =>
    n <- lift (FaissStore_persist (vectorStore w)) ;;
    match FS.place (FS.segments path) n (fs w) with
    | Some root => set_fs root
    | None => throw (IOError "EEXIST" path)
    end).

(** *** index.js *)

Definition vectorStorePath : string := "vector_store".

Definition clearDirectory (directoryPath : string) : M unit :=
  files <- readdirSync directoryPath ;;
  forEach files (fun file =>
    let filePath := path_join directoryPath file in
    unlinkSync filePath).

Definition addImage (path : string) (id : Z) : M unit :=
  img <- readFileSync path ;;
  vectors <- embeddings_embedImageQuery img ;;
  let document :=
    {| pageContent := Base64.encode img;
       metadata := {| id := id; mediaType := "image"; path := Some path |} |} in
  vectorStore_addVectors [vectors] [document] ;;
  console_log ("Image " ++ path ++ " added.").

Definition addText (text : string) (id : Z) : M unit :=
  vectors <- embeddings_embedQuery text ;;
  let document :=
    {| pageContent := text;
       metadata := {| id := id; mediaType := "text"; path := None |} |} in
  vectorStore_addVectors [vectors] [document] ;;
  console_log ("Text " ++ String dquote text ++ String dquote " added.").

(** [s.split("/").pop()] *)
Definition last_segment (s : string) : string := last (FS.split_slash s) EmptyString.

Definition printResults (results : list (Document * Score)) : M unit :=
  forEach results (fun item =>
    let metadata_ := JSON_stringify (metadata (fst item)) in
    console_log metadata_ ;;
    if mediaType (metadata (fst item)) =? "text" then
      console_log ("Text: " ++ pageContent (fst item))
    else if mediaType (metadata (fst item)) =? "image" then
      match path (metadata (fst item)) with
      | None => throw TypeError
      | Some p =>
          let filename := last_segment p in
          writeFileSync_base64 ("output/" ++ filename) (pageContent (fst item))
      end
    else ret tt).

Definition imageSimilaritySearch (path : string) (results : nat) : M unit :=
  clearDirectory "output" ;;
  console_log "Performing image similarity search." ;;
  imageQuery <- readFileSync path ;;
  imageVectors <- embeddings_embedImageQuery imageQuery ;;
  imageResult <- vectorStore_similaritySearchVectorWithScore imageVectors results ;;
  console_log ("Similarity search results for image query: " ++ path) ;;
  printResults imageResult.

Definition textSimilaritySearch (text : string) (results : nat) : M unit :=
  clearDirectory "output" ;;
  console_log "Performing text similarity search." ;;
  textVectors <- embeddings_embedQuery text ;;
  textResult <- vectorStore_similaritySearchVectorWithScore textVectors results ;;
  console_log ("Similarity search results for text query: " ++ text) ;;
  printResults textResult.

(** [let vectorStore = fs.existsSync(...) ? await FaissStore.load(...)
                                          : new FaissStore(embeddings, {})] *)
Definition initVectorStore : M unit :=
  present <- existsSync vectorStorePath ;;
  if present
  then (st <- FaissStore_load_from vectorStorePath ;; set_vectorStore st)
  else set_vectorStore [].

Definition images : list string :=
  [ "images/dog.jpeg";
    "images/cat.jpg";
    "images/parrot.jpg";
    "images/iphone.jpeg";
    "images/steve.jpeg";
    "images/airpod.jpeg" ].

Definition texts : list string :=
  [ "Dogs are domesticated mammals.";
    "Apple Inc. is an American multinational technology company.";
    "Steve Jobs was the chairman, chief executive officer, and co-founder of Apple Inc." ].

(** [for (let i = 0; i < xs.length; i++, counter++) await body(xs[i], counter)] *)
Fixpoint for_counting {A : Type} (body : A -> Z -> M unit) (xs : list A)
  (counter : Z) : M unit :=
  match xs with
  | [] => ret tt
  | x :: rest => body x counter ;; for_counting body rest (counter + 1)%Z
  end.

Definition addItemsToVectorStore : M unit :=
  present <- existsSync vectorStorePath ;;
  if negb present then
    let imageId := 0%Z in
    for_counting addImage images imageId ;;
    let textId := Z.of_nat (List.length images) in
    for_counting addText texts textId
  else ret tt.

(** The module body, top to bottom. *)
Definition main : M unit :=
  initVectorStore ;;
  addItemsToVectorStore ;;
  textSimilaritySearch "Mammals" 1 ;;
  vectorStore_save vectorStorePath.

(** A process starts on the directory tree it finds, with no handle and no
    calls made. *)
Definition start (root : Node) : @World Vector :=
  {| fs := root; vectorStore := []; trace := [] |}.

End Script.

(** * Vocabulary of the statements *)

(** What [clearDirectory] leaves behind: the entries from the first
    subdirectory on. *)
Fixpoint survivors (es : list (string * Node)) : list (string * Node) :=
  match es with
  | (_, File _) :: r => survivors r
  | _ => es
  end.

(** The names [clearDirectory] calls unlink on: every file before the first
    subdirectory, then that subdirectory. *)
Fixpoint attempted (es : list (string * Node)) : list string :=
  match es with
  | [] => []
  | (k, File _) :: r => k :: attempted r
  | (k, Dir _) :: _ => [k]
  end.

Definition clear_result (dir : string) (es : list (string * Node)) : Result unit :=
  match survivors es with
  | [] => Ok tt
  | (k, _) :: _ => Err (IOError "EISDIR" (dir ++ "/" ++ k))
  end.

(** The catalog as one list: the images, then the texts. *)
Inductive Item : Type :=
| Image (path : string)
| Text (text : string).

Definition catalog : list Item := (map Image images ++ map Text texts)%list.

Definition bytes_at (root : Node) (p : string) : Bytes :=
  match FS.readFile p root with
  | Ok b => b
  | Err _ => []
  end.

(** The document an item is stored as, given its id. *)
Definition documentOf (root : Node) (it : Item) (n : Z) : Document :=
  match it with
  | Image p =>
      {| pageContent := Base64.encode (bytes_at root p);
         metadata := {| id := n; mediaType := "image"; path := Some p |} |}
  | Text t =>
      {| pageContent := t;
         metadata := {| id := n; mediaType := "text"; path := None |} |}
  end.

Fixpoint documentsFrom (root : Node) (items : list Item) (n : Z) : list Document :=
  match items with
  | [] => []
  | it :: rest => documentOf root it n :: documentsFrom root rest (n + 1)%Z
  end.

Definition readable (root : Node) (it : Item) : bool :=
  match it with
  | Image p => is_ok (FS.readFile p root)
  | Text _ => true
  end.

(** The shape of the metadata the script writes. *)
Definition metadata_invariant (d : Document) : Prop :=
  (mediaType (metadata d) = "image" /\ path (metadata d) <> None)
  \/ (mediaType (metadata d) = "text" /\ path (metadata d) = None).

Section Vocabulary.

Context {Vector Score : Type} {R : @Runtime Vector Score}.
Local Abbreviation Event := (@Event Vector).
Local Abbreviation World := (@World Vector).
Local Abbreviation M := (@M Vector).

(** The embedding call an item gives rise to. *)
Definition embedCallOf (root : Node) (it : Item) : Event :=
  match it with
  | Image p => EvEmbedImage (bytes_at root p)
  | Text t => EvEmbedText t
  end.

Definition is_embed (e : Event) : bool :=
  match e with
  | EvEmbedImage _ | EvEmbedText _ => true
  | _ => false
  end.

Definition is_add (e : Event) : bool :=
  match e with
  | EvAddVectors _ _ => true
  | _ => false
  end.

Definition is_save (e : Event) : bool :=
  match e with
  | EvSave _ => true
  | _ => false
  end.

Definition is_search (e : Event) : bool :=
  match e with
  | EvSearch _ _ => true
  | _ => false
  end.

Definition is_unlink (e : Event) : bool :=
  match e with
  | EvUnlink _ => true
  | _ => false
  end.

(** The calls ingestion can make. *)
Definition ingest_event (e : Event) : bool :=
  match e with
  | EvLog _ | EvEmbedImage _ | EvEmbedText _ | EvAddVectors _ _ => true
  | _ => false
  end.

(** The calls rendering can make. *)
Definition render_event (e : Event) : bool :=
  match e with
  | EvLog _ | EvWriteFile _ _ => true
  | _ => false
  end.

Definition addItem (it : Item) (n : Z) : M unit :=
  match it with
  | Image p => addImage p n
  | Text t => addText t n
  end.

(** The state a run of the loop over [xs] ends in, with [k] the number of
    items that went through. *)
Definition ingested (xs : list Item) (c : Z) (w : World) (r : Result unit)
  (w' : World) (k : nat) : Prop :=
  k <= List.length xs
  /\ fs w' = fs w
  /\ (exists vs,
        List.length vs = k
        /\ vectorStore w'
           = (vectorStore w ++ combine vs (firstn k (documentsFrom (fs w) xs c)))%list)
  /\ forallb (readable (fs w)) (firstn k xs) = true
  /\ (exists new extra,
        trace w' = (trace w ++ new)%list
        /\ forallb ingest_event new = true
        /\ filter is_embed new
           = (firstn k (map (embedCallOf (fs w)) xs) ++ extra)%list
        /\ match r with
           | Ok _ => k = List.length xs /\ extra = []
           | Err _ =>
               exists it, nth_error xs k = Some it
                          /\ (extra = [] \/ extra = [embedCallOf (fs w) it])
           end).

Definition is_text (item : Document * Score) : bool :=
  mediaType (metadata (fst item)) =? "text".

(** The last two steps of a query: print the heading, render the results. *)
Definition report (heading : string) (results : list (Document * Score)) : M unit :=
  bind (console_log heading) (fun _ => printResults results).

(** One result rendered: the state after it, or the error it throws. *)
Definition rendered (item : Document * Score) (w : World) : Result unit * World :=
  let d := fst item in
  let line := EvLog (JSON_stringify (metadata d)) in
  if mediaType (metadata d) =? "text" then
    (Ok tt, {| fs := fs w; vectorStore := vectorStore w;
               trace := (trace w ++ [line; EvLog ("Text: " ++ pageContent d)])%list |})
  else if mediaType (metadata d) =? "image" then
    match path (metadata d) with
    | None =>
        (Err TypeError, {| fs := fs w; vectorStore := vectorStore w;
                           trace := (trace w ++ [line])%list |})
    | Some p =>
        let file := "output/" ++ last_segment p in
        let bytes := Base64.decode (pageContent d) in
        let t := (trace w ++ [line; EvWriteFile file bytes])%list in
        match FS.writeFile file bytes (fs w) with
        | Ok root' => (Ok tt, {| fs := root'; vectorStore := vectorStore w; trace := t |})
        | Err e => (Err e, {| fs := fs w; vectorStore := vectorStore w; trace := t |})
        end
    end
  else
    (Ok tt, {| fs := fs w; vectorStore := vectorStore w;
               trace := (trace w ++ [line])%list |}).

(** The calls of a query once the output directory is cleared, by how far
    the query gets: the banner, the embedding call, the search, the heading
    and what rendering does. *)
Inductive query_tail (banner : string) (emb : Event) (k : nat) (heading : string)
  : Result unit -> list Event -> Prop :=
| tail_read (e : Error) :
    query_tail banner emb k heading (Err e) [EvLog banner]
| tail_embed (e : Error) :
    query_tail banner emb k heading (Err e) [EvLog banner; emb]
| tail_search (e : Error) (v : Vector) :
    query_tail banner emb k heading (Err e) [EvLog banner; emb; EvSearch v k]
| tail_render (r : Result unit) (v : Vector) (rs : list Event) :
    forallb render_event rs = true ->
    query_tail banner emb k heading r
      ([EvLog banner; emb; EvSearch v k; EvLog heading] ++ rs)%list.

(** The calls of a whole query: unlink calls first, then the tail, which is
    missing when clearing the directory throws. *)
Definition query_trace (banner : string) (emb : Event) (k : nat) (heading : string)
  (r : Result unit) (new : list Event) : Prop :=
  exists us rest,
    new = (us ++ rest)%list
    /\ forallb is_unlink us = true
    /\ ((exists e, r = Err e /\ rest = [])
        \/ query_tail banner emb k heading r rest).

(** What [printResults] prints for a result that is not an image: the
    metadata, and the text when it is a text. *)
Definition is_image (item : Document * Score) : bool :=
  mediaType (metadata (fst item)) =? "image".

Definition lines_of (item : Document * Score) : list Event :=
  EvLog (JSON_stringify (metadata (fst item)))
  :: (if is_text item then [EvLog ("Text: " ++ pageContent (fst item))] else []).

Definition is_log (e : Event) : bool :=
  match e with
  | EvLog _ => true
  | _ => false
  end.

(** The line an item is reported with once it is in the store. *)
Definition addedLineOf (it : Item) : Event :=
  match it with
  | Image p => EvLog ("Image " ++ p ++ " added.")
  | Text t => EvLog ("Text " ++ String dquote t ++ String dquote " added.")
  end.

(** The unlink calls that clear an output directory of files, and the
    state once they are made and the calls [evs] have followed. *)
Definition unlink_calls (es : list (string * Node)) : list Event :=
  map (fun f => EvUnlink (path_join "output" f)) (map fst es).

Definition cleared (root1 : Node) (w : World) (es : list (string * Node))
  (evs : list Event) : World :=
  {| fs := root1; vectorStore := vectorStore w;
     trace := (trace w ++ unlink_calls es ++ evs)%list |}.

End Vocabulary.

(** ** A stand-in runtime

    Concrete collaborators on which the statements below are exercised:
    a vector is the list of the input's byte values behind a tag for its
    kind, the store ranks exact matches first, then entries of the same
    kind, then the others. *)

Module Demo.

Definition Vec : Type := list N.

Definition embedImage (_ : list (@Event Vec)) (img : Bytes) : Result Vec :=
  Ok (0%N :: map Byte.to_N img).

Definition embedText (_ : list (@Event Vec)) (text : string) : Result Vec :=
  Ok (1%N :: map Byte.to_N (list_byte_of_string text)).

Fixpoint vec_eqb (a b : Vec) : bool :=
  match a, b with
  | [], [] => true
  | x :: a', y :: b' => N.eqb x y && vec_eqb a' b'
  | _, _ => false
  end.

Definition distance (q v : Vec) : N :=
  if vec_eqb q v then 0%N
  else if N.eqb (hd 0%N q) (hd 0%N v) then 1%N
  else 2%N.

Definition ranked (q : Vec) (st : @Store Vec) : list (Document * N) :=
  let scored := map (fun e => (snd e, distance q (fst e))) st in
  (filter (fun e => N.eqb (snd e) 0) scored
   ++ filter (fun e => N.eqb (snd e) 1) scored
   ++ filter (fun e => N.eqb (snd e) 2) scored)%list.

Definition search (st : @Store Vec) (q : Vec) (k : nat)
  : Result (list (Document * N)) :=
  match st with
  | [] => Err StoreError
  | _ => Ok (firstn k (ranked q st))
  end.

Definition persisted : Node :=
  Dir [("faiss.index", File []); ("docstore.json", File [])].

Definition loaded : @Store Vec :=
  [ ([1%N; 67%N],
     {| pageContent := "Cats purr.";
        metadata := {| id := 0%Z; mediaType := "text"; path := None |} |}) ].

Definition runtime : @Runtime Vec N :=
  {| embedImageQuery := embedImage;
     embedQuery := embedText;
     faiss_accepts := fun _ _ _ => true;
     similaritySearchVectorWithScore := search;
     FaissStore_load := fun n =>
       match n with Dir _ => Ok loaded | File _ => Err StoreError end;
     FaissStore_persist := fun _ => Ok persisted;
     JSON_stringify := fun m => mediaType m |}.

(** The same collaborators, with an embedding service that fails on its
    fourth call. *)
Definition flaky : @Runtime Vec N :=
  {| embedImageQuery := fun h img =>
       if Nat.eqb (List.length (filter is_embed h)) 3
       then Err EmbeddingError else embedImage h img;
     embedQuery := fun h text =>
       if Nat.eqb (List.length (filter is_embed h)) 3
       then Err EmbeddingError else embedText h text;
     faiss_accepts := fun _ _ _ => true;
     similaritySearchVectorWithScore := search;
     FaissStore_load := fun n =>
       match n with Dir _ => Ok loaded | File _ => Err StoreError end;
     FaissStore_persist := fun _ => Ok persisted;
     JSON_stringify := fun m => mediaType m |}.

(** A working directory with the six images and an output directory that
    still holds a file of an earlier run. *)
Definition fresh : Node :=
  Dir [ ("images",
         Dir [ ("dog.jpeg", File [x01; x02; x03; x04]);
               ("cat.jpg", File [x05; x06]);
               ("parrot.jpg", File [x07]);
               ("iphone.jpeg", File [x08; x09; x0a]);
               ("steve.jpeg", File [x0b; x0c; x0d; x0e; x0f]);
               ("airpod.jpeg", File []) ]);
        ("output", Dir [ ("old.jpeg", File [xff]) ]) ].

(** The same, with the parrot picture missing. *)
Definition no_parrot : Node :=
  Dir [ ("images",
         Dir [ ("dog.jpeg", File [x01; x02; x03; x04]);
               ("cat.jpg", File [x05; x06]);
               ("iphone.jpeg", File [x08; x09; x0a]);
               ("steve.jpeg", File [x0b; x0c; x0d; x0e; x0f]);
               ("airpod.jpeg", File []) ]);
        ("output", Dir []) ].

(** An output directory that holds a subdirectory between two files. *)
Definition nested_output : Node :=
  Dir [ ("output",
         Dir [ ("a.png", File [x01]);
               ("keep", Dir [ ("b.png", File [x02]) ]);
               ("c.png", File [x03]) ]) ].

(** A directory where a store was saved before. *)
Definition seeded : Node :=
  Dir [ ("vector_store", persisted); ("output", Dir [ ("old.jpeg", File [xff]) ]) ].

(** A directory without an output directory. *)
Definition bare : Node := Dir [].

(** Two search results, a text and an image. *)
Definition text_hit : Document * N :=
  ({| pageContent := "Dogs are domesticated mammals.";
      metadata := {| id := 6%Z; mediaType := "text"; path := None |} |}, 1%N).

Definition image_hit : Document * N :=
  ({| pageContent := "BQY=";
      metadata := {| id := 1%Z; mediaType := "image";
                     path := Some "images/cat.jpg" |} |}, 0%N).

(** Process starts on these directories. *)
Definition boot (root : Node) : @World Vec := start root.

(** The script's functions on the stand-in runtime. *)
Definition ingest : @M Vec unit := @addItemsToVectorStore Vec N runtime.
Definition init : @M Vec unit := @initVectorStore Vec N runtime.
Definition run : @M Vec unit := @main Vec N runtime.
Definition flaky_ingest : @M Vec unit := @addItemsToVectorStore Vec N flaky.
Definition text_query (text : string) (k : nat) : @M Vec unit :=
  @textSimilaritySearch Vec N runtime text k.
Definition image_query (p : string) (k : nat) : @M Vec unit :=
  @imageSimilaritySearch Vec N runtime p k.

(** A result whose media type the script does not know, and an image
    result that lost its path. *)
Definition audio_hit : Document * N :=
  ({| pageContent := "UklGRg==";
      metadata := {| id := 9%Z; mediaType := "audio"; path := Some "sounds/bark.wav" |} |},
   2%N).

Definition pathless_hit : Document * N :=
  ({| pageContent := "BQY=";
      metadata := {| id := 1%Z; mediaType := "image"; path := None |} |}, 0%N).

(** An image result stored from another directory under the name of
    [image_hit]'s file. *)
Definition other_cat_hit : Document * N :=
  ({| pageContent := "Bw==";
      metadata := {| id := 2%Z; mediaType := "image";
                     path := Some "backup/cat.jpg" |} |}, 1%N).

(** A directory whose store cannot be ingested: no images at all. *)
Definition no_images : Node := Dir [ ("output", Dir []) ].

(** A directory with the images and no output directory. *)
Definition no_output : Node :=
  Dir [ ("images",
         Dir [ ("dog.jpeg", File [x01; x02; x03; x04]);
               ("cat.jpg", File [x05; x06]);
               ("parrot.jpg", File [x07]);
               ("iphone.jpeg", File [x08; x09; x0a]);
               ("steve.jpeg", File [x0b; x0c; x0d; x0e; x0f]);
               ("airpod.jpeg", File []) ]) ].

Definition add_image (p : string) (n : Z) : @M Vec unit :=
  @addImage Vec N runtime p n.
Definition print (results : list (Document * N)) : @M Vec unit :=
  @printResults Vec N runtime results.

(** The same collaborators, with an embedding service that gives every
    image the same vector. *)
Definition colliding : @Runtime Vec N :=
  {| embedImageQuery := fun _ _ => Ok [0%N];
     embedQuery := embedText;
     faiss_accepts := fun _ _ _ => true;
     similaritySearchVectorWithScore := search;
     FaissStore_load := fun n =>
       match n with Dir _ => Ok loaded | File _ => Err StoreError end;
     FaissStore_persist := fun _ => Ok persisted;
     JSON_stringify := fun m => mediaType m |}.

Definition colliding_ingest : @M Vec unit := @addItemsToVectorStore Vec N colliding.
Definition colliding_image_query (p : string) (k : nat) : @M Vec unit :=
  @imageSimilaritySearch Vec N colliding p k.

(** A directory with a saved store, one image and an output directory that
    still holds a file. *)
Definition texts_only : Node :=
  Dir [ ("vector_store", persisted);
        ("images", Dir [ ("cat.jpg", File [x05; x06]) ]);
        ("output", Dir [ ("old.jpeg", File [xff]) ]) ].

End Demo.
(** * Properties *)

(** Unfolds the operations of [M] and reduces the projections of the
    worlds they build. *)
Ltac mrun :=
  unfold bind, ret, throw, emit, set_fs, set_vectorStore, lift, with_world;
  cbn [fst snd fs vectorStore trace].

(** ** Sanity checks on concrete inputs *)

Example encode_Man : Base64.encode ["M"%byte; "a"%byte; "n"%byte] = "TWFu".
Proof. reflexivity. Qed.

Example encode_Ma : Base64.encode ["M"%byte; "a"%byte] = "TWE=".
Proof. reflexivity. Qed.

Example encode_M : Base64.encode ["M"%byte] = "TQ==".
Proof. reflexivity. Qed.

Example decode_padded : Base64.decode "TWE=" = ["M"%byte; "a"%byte].
Proof. reflexivity. Qed.

Example split_two : FS.split_slash "images/dog.jpeg" = ["images"; "dog.jpeg"].
Proof. reflexivity. Qed.

Example split_trailing : FS.split_slash "images/" = ["images"; EmptyString].
Proof. reflexivity. Qed.

Example split_none : FS.split_slash "dog.jpeg" = ["dog.jpeg"].
Proof. reflexivity. Qed.

Example segments_dots : FS.segments "./output/../images//cat.jpg" = ["images"; "cat.jpg"].
Proof. reflexivity. Qed.

Example last_segment_dog : last_segment "images/dog.jpeg" = "dog.jpeg".
Proof. reflexivity. Qed.

Example unlink_subdirectory :
  FS.unlink "output/keep" Demo.nested_output = Err (IOError "EISDIR" "output/keep").
Proof. reflexivity. Qed.

Example write_without_directory :
  FS.writeFile "output/cat.jpg" [x05] Demo.bare = Err (IOError "ENOENT" "output/cat.jpg").
Proof. reflexivity. Qed.

Example mammals_top_hit :
  filter (fun e => match e with EvLog _ => true | _ => false end)
    (skipn 28 (trace (snd (Demo.run (Demo.boot Demo.fresh)))))
  = [ EvLog "Performing text similarity search.";
      EvLog "Similarity search results for text query: Mammals";
      EvLog "text";
      EvLog "Text: Dogs are domesticated mammals." ].
Proof. vm_compute. reflexivity. Qed.

Example flaky_ingestion_stops :
  fst (Demo.flaky_ingest (Demo.boot Demo.fresh)) = Err EmbeddingError
  /\ List.length (vectorStore (snd (Demo.flaky_ingest (Demo.boot Demo.fresh)))) = 3
  /\ List.length (filter is_embed
                    (trace (snd (Demo.flaky_ingest (Demo.boot Demo.fresh))))) = 4.
Proof. vm_compute. repeat split. Qed.

(** ** Base64: decoding undoes encoding *)

Module Base64Facts.
Import Base64.
Local Open Scope N_scope.

Lemma char_sextet_char (n : N) :
  n < 64 -> char_sextet (sextet_char n) = Some n.
Proof.
  intros H.
  assert (E : n = N.of_nat (N.to_nat n)) by lia.
  assert (L : (N.to_nat n < 64)%nat) by lia.
  rewrite E. generalize dependent (N.to_nat n). clear. intros m _ L.
  do 64 (destruct m as [|m]; [reflexivity|]). lia.
Qed.

Lemma sextets_char (n : N) (s : string) :
  n < 64 -> sextets (String (sextet_char n) s) = n :: sextets s.
Proof. intros H. simpl. now rewrite char_sextet_char. Qed.

Lemma byte_of_N_eq (n : N) (b : byte) :
  n mod 256 = Byte.to_N b -> byte_of_N n = b.
Proof. unfold byte_of_N. intros ->. now rewrite Byte.of_to_N. Qed.

Ltac euclid := zify; Z.to_euclidean_division_equations; lia.

Lemma group3 (a b c : byte) (l : list N) :
  let n := Byte.to_N a * 65536 + Byte.to_N b * 256 + Byte.to_N c in
  bytes_of_sextets
    (n / 262144 :: n / 4096 mod 64 :: n / 64 mod 64 :: n mod 64 :: l)
  = a :: b :: c :: bytes_of_sextets l.
Proof.
  intros n. subst n.
  pose proof (Byte.to_N_bounded a). pose proof (Byte.to_N_bounded b).
  pose proof (Byte.to_N_bounded c).
  cbn [bytes_of_sextets].
  f_equal; [|f_equal; [|f_equal]]; apply byte_of_N_eq; euclid.
Qed.

Lemma group2 (a b : byte) :
  let n := Byte.to_N a * 65536 + Byte.to_N b * 256 in
  bytes_of_sextets [n / 262144; n / 4096 mod 64; n / 64 mod 64] = [a; b].
Proof.
  intros n. subst n.
  pose proof (Byte.to_N_bounded a). pose proof (Byte.to_N_bounded b).
  cbn [bytes_of_sextets].
  f_equal; [|f_equal]; apply byte_of_N_eq; euclid.
Qed.

Lemma group1 (a : byte) :
  let n := Byte.to_N a * 65536 in
  bytes_of_sextets [n / 262144; n / 4096 mod 64] = [a].
Proof.
  intros n. subst n. pose proof (Byte.to_N_bounded a).
  cbn [bytes_of_sextets].
  f_equal; apply byte_of_N_eq; euclid.
Qed.

Lemma bytes_ind3 (P : Bytes -> Prop) :
  P [] -> (forall a, P [a]) -> (forall a b, P [a; b]) ->
  (forall a b c rest, P rest -> P (a :: b :: c :: rest)) ->
  forall bs, P bs.
Proof.
  intros H0 H1 H2 H3.
  assert (A : forall bs, P bs /\ (forall a, P (a :: bs))
                         /\ (forall a b, P (a :: b :: bs))).
  { induction bs as [|x bs (IH0 & IH1 & IH2)].
    - repeat split; auto.
    - repeat split; auto. }
  intros bs. apply A.
Qed.

Lemma decode_encode (bs : Bytes) : decode (encode bs) = bs.
Proof.
  unfold decode.
  induction bs as [|a|a b|a b c rest IH] using bytes_ind3.
  - reflexivity.
  - pose proof (Byte.to_N_bounded a).
    cbn [encode]. rewrite !sextets_char by euclid.
    change (sextets "==") with (@nil N). apply group1.
  - pose proof (Byte.to_N_bounded a). pose proof (Byte.to_N_bounded b).
    cbn [encode]. rewrite !sextets_char by euclid.
    change (sextets "=") with (@nil N). apply group2.
  - pose proof (Byte.to_N_bounded a). pose proof (Byte.to_N_bounded b).
    pose proof (Byte.to_N_bounded c).
    cbn [encode]. rewrite !sextets_char by euclid.
    rewrite group3. now rewrite IH.
Qed.

End Base64Facts.

(** ** The directory tree *)

Module FSFacts.
Import FS.

Lemma split_slash_nonempty (s : string) : split_slash s <> [].
Proof.
  induction s as [|c r IH]; simpl; [discriminate|].
  destruct (Ascii.eqb c "/"); [discriminate|].
  destruct (split_slash r); discriminate.
Qed.

Lemma split_no_slash (s : string) : no_slash s = true -> split_slash s = [s].
Proof.
  induction s as [|c r IH]; simpl; [reflexivity|].
  destruct (Ascii.eqb c "/"); simpl; [discriminate|].
  intros H. now rewrite IH.
Qed.

(** Splitting distributes over a slash between two strings. *)
Lemma split_slash_join (a b : string) :
  split_slash (a ++ String "/" b) = (split_slash a ++ split_slash b)%list.
Proof.
  induction a as [|c r IH]; simpl; [reflexivity|].
  destruct (Ascii.eqb c "/"); simpl; [now rewrite IH|].
  rewrite IH. destruct (split_slash r) eqn:E; [|reflexivity].
  now apply split_slash_nonempty in E.
Qed.

Lemma normalise_snoc (name : string) (segs acc : list string) :
  valid_name name = true ->
  normalise acc (segs ++ [name]) = (normalise acc segs ++ [name])%list.
Proof.
  intros V. unfold valid_name in V.
  apply andb_prop in V as [V _]. apply andb_prop in V as [V V3].
  apply andb_prop in V as [V1 V2].
  apply negb_true_iff in V1, V2, V3.
  revert acc. induction segs as [|s r IH]; intros acc; simpl.
  - now rewrite V1, V2, V3.
  - destruct ((s =? EmptyString) || (s =? ".")); [apply IH|].
    destruct (s =? ".."); apply IH.
Qed.

Lemma valid_name_no_slash (name : string) :
  valid_name name = true -> no_slash name = true.
Proof. unfold valid_name. intros V. now apply andb_prop in V as [_ V]. Qed.

(** A directory entry is addressed by the directory's path and its name. *)
Lemma segments_join (dir name : string) :
  valid_name name = true ->
  segments (dir ++ "/" ++ name) = (segments dir ++ [name])%list.
Proof.
  intros V. unfold segments. cbn [append].
  rewrite split_slash_join, (split_no_slash name) by now apply valid_name_no_slash.
  now apply normalise_snoc.
Qed.

Lemma parent_and_name_snoc (p : list string) (name : string) :
  parent_and_name (p ++ [name]) = Some (p, name).
Proof. unfold parent_and_name. now rewrite rev_unit, rev_involutive. Qed.

Lemma find_put_same (s : string) (n : Node) (es : list (string * Node)) :
  find_entry s (put_entry s n es) = Some n.
Proof.
  induction es as [|[k m] r IH]; simpl.
  - now rewrite String.eqb_refl.
  - destruct (k =? s) eqn:E; simpl; now rewrite E.
Qed.

Lemma find_put_other (s t : string) (n : Node) (es : list (string * Node)) :
  s <> t -> find_entry t (put_entry s n es) = find_entry t es.
Proof.
  intros D. induction es as [|[k m] r IH]; simpl.
  - destruct (s =? t) eqn:E; [|reflexivity]. now apply String.eqb_eq in E.
  - destruct (k =? s) eqn:E; simpl.
    + apply String.eqb_eq in E. subst k.
      destruct (s =? t) eqn:E'; [|reflexivity]. now apply String.eqb_eq in E'.
    + now rewrite IH.
Qed.

Lemma put_put (s : string) (n m : Node) (es : list (string * Node)) :
  put_entry s m (put_entry s n es) = put_entry s m es.
Proof.
  induction es as [|[k c] r IH]; simpl.
  - now rewrite String.eqb_refl.
  - destruct (k =? s) eqn:E; simpl; rewrite E; [reflexivity|now rewrite IH].
Qed.

Lemma put_found (s : string) (n : Node) (es : list (string * Node)) :
  find_entry s es = Some n -> put_entry s n es = es.
Proof.
  induction es as [|[k c] r IH]; simpl; [discriminate|].
  destruct (k =? s) eqn:E.
  - now intros [= ->].
  - intros H. now rewrite IH.
Qed.

Lemma get_app (p q : list string) (n : Node) :
  get (p ++ q) n = match get p n with Some m => get q m | None => None end.
Proof.
  revert n. induction p as [|s r IH]; intros n; simpl; [reflexivity|].
  destruct n as [b|es]; [reflexivity|].
  destruct (find_entry s es); [apply IH|reflexivity].
Qed.

(** Rewriting the node at [p] succeeds when [p] resolves and [f] accepts;
    the new node is then found at [p]. *)
Lemma modify_get (p : list string) (f : Node -> option Node) (n m m' : Node) :
  get p n = Some m -> f m = Some m' ->
  exists n', modify p f n = Some n' /\ get p n' = Some m'.
Proof.
  revert n. induction p as [|s r IH]; intros n; simpl.
  - intros [= ->] F. eauto.
  - destruct n as [b|es]; [discriminate|].
    destruct (find_entry s es) as [c|] eqn:E; [|discriminate].
    intros G F. destruct (IH c G F) as (c' & -> & G').
    eexists. split; [reflexivity|]. simpl. now rewrite find_put_same.
Qed.

Lemma modify_fail (p : list string) (f : Node -> option Node) (n m : Node) :
  get p n = Some m -> f m = None -> modify p f n = None.
Proof.
  revert n. induction p as [|s r IH]; intros n; simpl.
  - now intros [= ->] F.
  - destruct n as [b|es]; [discriminate|].
    destruct (find_entry s es) as [c|] eqn:E; [|discriminate].
    intros G F. now rewrite (IH c G F).
Qed.

Lemma modify_ext (p : list string) (f g : Node -> option Node) (n m : Node) :
  get p n = Some m -> f m = g m -> modify p f n = modify p g n.
Proof.
  revert n. induction p as [|s r IH]; intros n; simpl.
  - now intros [= ->] F.
  - destruct n as [b|es]; [discriminate|].
    destruct (find_entry s es) as [c|] eqn:E; [|discriminate].
    intros G F. now rewrite (IH c G F).
Qed.

(** Putting back what is there changes nothing. *)
Lemma modify_same (p : list string) (n m : Node) :
  get p n = Some m -> modify p (fun _ => Some m) n = Some n.
Proof.
  revert n. induction p as [|s r IH]; intros n; simpl.
  - now intros [= ->].
  - destruct n as [b|es]; [discriminate|].
    destruct (find_entry s es) as [c|] eqn:E; [|discriminate].
    intros G. rewrite (IH c G). now rewrite put_found.
Qed.

(** Two rewrites of the same place: the second one wins. *)
Lemma modify_twice (p : list string) (x y n n' : Node) :
  modify p (fun _ => Some x) n = Some n' ->
  modify p (fun _ => Some y) n' = modify p (fun _ => Some y) n.
Proof.
  revert n n'. induction p as [|s r IH]; intros n n'; simpl.
  - intros _. reflexivity.
  - destruct n as [b|es]; [discriminate|].
    destruct (find_entry s es) as [c|] eqn:E; [|discriminate].
    destruct (modify r (fun _ => Some x) c) as [c'|] eqn:Mx; [|discriminate].
    intros [= <-]. simpl. rewrite find_put_same.
    rewrite (IH c c' Mx).
    destruct (modify r (fun _ => Some y) c); [|reflexivity].
    now rewrite put_put.
Qed.

(** A rewrite below one entry of the root leaves the other entries alone. *)
Lemma get_modify_other (s t : string) (r q : list string)
  (f : Node -> option Node) (n n' : Node) :
  modify (s :: r) f n = Some n' -> s <> t -> get (t :: q) n' = get (t :: q) n.
Proof.
  simpl. destruct n as [b|es]; [discriminate|].
  destruct (find_entry s es) as [c|]; [|discriminate].
  destruct (modify r f c) as [c'|]; [|discriminate].
  intros [= <-] D. now rewrite find_put_other.
Qed.

Lemma modify_inv (p : list string) (f : Node -> option Node) (n n' : Node) :
  modify p f n = Some n' ->
  exists m m', get p n = Some m /\ f m = Some m' /\ get p n' = Some m'.
Proof.
  revert n n'. induction p as [|s r IH]; intros n n'; simpl.
  - intros F. eauto.
  - destruct n as [b|es]; [discriminate|].
    destruct (find_entry s es) as [c|] eqn:E; [|discriminate].
    destruct (modify r f c) as [c'|] eqn:M; [|discriminate].
    intros [= <-]. destruct (IH c c' M) as (m & m' & G & F & G').
    exists m, m'. simpl. now rewrite find_put_same.
Qed.

Lemma parent_and_name_inv (p parent : list string) (name : string) :
  parent_and_name p = Some (parent, name) -> p = (parent ++ [name])%list.
Proof.
  unfold parent_and_name. destruct (rev p) as [|x l] eqn:E; [discriminate|].
  intros [= <- <-]. rewrite <- (rev_involutive p), E. reflexivity.
Qed.

(** What was written is what is read back. *)
Lemma read_after_write (path : string) (data : Bytes) (root root' : Node) :
  writeFile path data root = Ok root' -> readFile path root' = Ok data.
Proof.
  unfold writeFile, readFile.
  destruct (parent_and_name (segments path)) as [[parent name]|] eqn:PN;
    [|discriminate].
  apply parent_and_name_inv in PN.
  destruct (modify parent _ root) as [r1|] eqn:M.
  - intros [= <-]. apply modify_inv in M as (m & m' & _ & F & G).
    rewrite PN, get_app, G.
    destruct m as [b|es]; [discriminate|].
    destruct (find_entry name es) as [[b|sub]|]; try discriminate;
      injection F as <-; simpl; now rewrite find_put_same.
  - destruct (get (segments path) root) as [[b|sub]|]; discriminate.
Qed.

(** Writing a file into a directory that has no subdirectory of that name
    succeeds. *)
Lemma writeFile_ok (dir name : string) (data : Bytes) (root : Node)
  (es : list (string * Node)) :
  get (segments dir) root = Some (Dir es) ->
  valid_name name = true ->
  (forall sub, find_entry name es <> Some (Dir sub)) ->
  exists root', writeFile (dir ++ "/" ++ name) data root = Ok root'.
Proof.
  intros G V N. unfold writeFile.
  rewrite segments_join, parent_and_name_snoc by assumption.
  match goal with
  | |- context [modify _ ?f root] =>
      destruct (modify_get (segments dir) f root (Dir es)
                  (Dir (put_entry name (File data) es)) G) as (root' & -> & _)
  end.
  - destruct (find_entry name es) as [[b|sub]|] eqn:E; try reflexivity.
    now destruct (N sub).
  - eauto.
Qed.

(** A string has no slash, or splits at its last slash. *)
Lemma last_slash (s : string) :
  no_slash s = true
  \/ exists pre suf, s = pre ++ String "/" suf /\ no_slash suf = true.
Proof.
  induction s as [|c r [IH|(pre & suf & -> & IH)]].
  - now left.
  - simpl. destruct (Ascii.eqb c "/") eqn:E.
    + right. apply Ascii.eqb_eq in E. subst c. exists EmptyString, r. now split.
    + left. exact IH.
  - right. exists (String c pre), suf. now split.
Qed.

End FSFacts.

(** ** Clearing a directory *)

Section ClearFacts.

Context {Vector : Type}.
Local Abbreviation World := (@World Vector).

Lemma unlink_file (dir k : string) (b : Bytes) (r : list (string * Node))
  (root : Node) :
  FS.get (FS.segments dir) root = Some (Dir ((k, File b) :: r)) ->
  FS.valid_name k = true ->
  exists root',
    FS.unlink (dir ++ "/" ++ k) root = Ok root'
    /\ FS.modify (FS.segments dir) (fun _ => Some (Dir r)) root = Some root'
    /\ FS.get (FS.segments dir) root' = Some (Dir r).
Proof.
  intros G V. unfold FS.unlink.
  rewrite FSFacts.segments_join, FSFacts.parent_and_name_snoc by assumption.
  rewrite FSFacts.get_app, G. simpl. rewrite String.eqb_refl.
  destruct (FSFacts.modify_get _ (fun _ => Some (Dir r)) _ _ _ G eq_refl)
    as (root' & Hm & Hg).
  exists root'. split; [|split]; try assumption.
  erewrite FSFacts.modify_ext, Hm; [reflexivity|eassumption|].
  simpl. now rewrite String.eqb_refl.
Qed.

Lemma unlink_dir (dir k : string) (sub r : list (string * Node)) (root : Node) :
  FS.get (FS.segments dir) root = Some (Dir ((k, Dir sub) :: r)) ->
  FS.valid_name k = true ->
  FS.unlink (dir ++ "/" ++ k) root = Err (IOError "EISDIR" (dir ++ "/" ++ k)).
Proof.
  intros G V. unfold FS.unlink.
  rewrite FSFacts.segments_join, FSFacts.parent_and_name_snoc by assumption.
  rewrite FSFacts.get_app, G. simpl. now rewrite String.eqb_refl.
Qed.

Lemma unlinkSync_eq (p : string) (w : World) :
  unlinkSync p w
  = match FS.unlink p (fs w) with
    | Ok root' =>
        (Ok tt, {| fs := root'; vectorStore := vectorStore w;
                   trace := (trace w ++ [EvUnlink p])%list |})
    | Err e =>
        (Err e, {| fs := fs w; vectorStore := vectorStore w;
                   trace := (trace w ++ [EvUnlink p])%list |})
    end.
Proof. unfold unlinkSync. mrun. now destruct (FS.unlink p (fs w)). Qed.

Lemma clear_loop (dir : string) (es : list (string * Node)) :
  forall w : World,
  FS.get (FS.segments dir) (fs w) = Some (Dir es) ->
  forallb FS.valid_name (map fst es) = true ->
  exists root',
    FS.modify (FS.segments dir) (fun _ => Some (Dir (survivors es))) (fs w)
      = Some root'
    /\ forEach (map fst es) (fun file => unlinkSync (path_join dir file)) w
       = (clear_result dir es,
          {| fs := root'; vectorStore := vectorStore w;
             trace := (trace w
                       ++ map (fun k => EvUnlink (dir ++ "/" ++ k)) (attempted es))%list |}).
Proof.
  induction es as [|[k n] r IH]; intros w G V.
  - exists (fs w). simpl. split.
    + now apply FSFacts.modify_same.
    + unfold ret. now rewrite app_nil_r.
  - simpl in V. apply andb_prop in V as [Vk Vr].
    destruct n as [b|sub].
    + destruct (unlink_file dir k b r (fs w) G Vk) as (root1 & Hu & Hm & Hg).
      set (w1 := {| fs := root1; vectorStore := vectorStore w;
                    trace := (trace w ++ [EvUnlink (dir ++ "/" ++ k)])%list |}).
      destruct (IH w1 Hg Vr) as (root' & Hm' & Hrun).
      exists root'. split.
      * cbn [survivors]. rewrite <- Hm'. symmetry.
        eapply FSFacts.modify_twice. exact Hm.
      * cbn [map fst forEach]. unfold bind at 1.
        rewrite unlinkSync_eq.
        change (path_join dir k) with (dir ++ "/" ++ k). rewrite Hu.
        fold w1. rewrite Hrun.
        unfold clear_result. cbn [survivors attempted map w1 fs vectorStore trace].
        now rewrite <- app_assoc.
    + exists (fs w). split.
      * cbn [survivors]. now apply FSFacts.modify_same.
      * cbn [map fst forEach]. unfold bind at 1.
        rewrite unlinkSync_eq.
        change (path_join dir k) with (dir ++ "/" ++ k).
        rewrite (unlink_dir dir k sub r (fs w) G Vk).
        reflexivity.
Qed.

(** The whole of [clearDirectory] on a directory that exists. *)
Lemma clearDirectory_run (dir : string) (es : list (string * Node)) (w : World) :
  FS.get (FS.segments dir) (fs w) = Some (Dir es) ->
  forallb FS.valid_name (map fst es) = true ->
  exists root',
    FS.modify (FS.segments dir) (fun _ => Some (Dir (survivors es))) (fs w)
      = Some root'
    /\ clearDirectory dir w
       = (clear_result dir es,
          {| fs := root'; vectorStore := vectorStore w;
             trace := (trace w
                       ++ map (fun k => EvUnlink (dir ++ "/" ++ k)) (attempted es))%list |}).
Proof.
  intros G V. destruct (clear_loop dir es w G V) as (root' & Hm & Hrun).
  exists root'. split; [assumption|].
  unfold clearDirectory, readdirSync. unfold bind at 1. mrun.
  unfold FS.readdir. rewrite G. exact Hrun.
Qed.

(** On a path that is not a directory, [clearDirectory] throws at once. *)
Lemma clearDirectory_missing (dir : string) (w : World) :
  (forall es, FS.get (FS.segments dir) (fs w) <> Some (Dir es)) ->
  exists e, clearDirectory dir w = (Err e, w).
Proof.
  intros G. unfold clearDirectory, readdirSync. unfold bind at 1. mrun.
  unfold FS.readdir.
  destruct (FS.get (FS.segments dir) (fs w)) as [[b|es]|] eqn:E; eauto.
  now destruct (G es).
Qed.

Lemma survivors_files (es : list (string * Node)) :
  forallb (fun e => FS.is_file (snd e)) es = true -> survivors es = [].
Proof.
  induction es as [|[k [b|sub]] r IH]; cbn; [reflexivity| |discriminate].
  exact IH.
Qed.

Lemma survivors_dir (es : list (string * Node)) :
  existsb (fun e => negb (FS.is_file (snd e))) es = true ->
  exists k sub rest, survivors es = (k, Dir sub) :: rest.
Proof.
  induction es as [|[k [b|sub]] r IH]; cbn; [discriminate| |eauto].
  exact IH.
Qed.

Lemma modify_const_get (p : list string) (x n n' : Node) :
  FS.modify p (fun _ => Some x) n = Some n' -> FS.get p n' = Some x.
Proof.
  intros H. apply FSFacts.modify_inv in H as (m & m' & _ & F & G).
  now injection F as <-.
Qed.

(** Whatever the directory holds, [clearDirectory] only ever calls unlink
    and does not touch the store. *)
Lemma forEach_unlink_trace (dir : string) (names : list string) :
  forall (w : World) (r : Result unit) (w' : World),
  forEach names (fun file => unlinkSync (path_join dir file)) w = (r, w') ->
  vectorStore w' = vectorStore w
  /\ exists us, trace w' = (trace w ++ us)%list /\ forallb is_unlink us = true.
Proof.
  induction names as [|k names IH]; intros w r w'.
  - intros [= <- <-]. split; [reflexivity|]. exists []. now rewrite app_nil_r.
  - cbn [forEach]. unfold bind at 1. rewrite unlinkSync_eq.
    destruct (FS.unlink (path_join dir k) (fs w)) as [root'|e].
    + intros H. apply IH in H as (Hst & us & Htr & Hev). cbn [vectorStore trace] in *.
      split; [assumption|]. exists (EvUnlink (path_join dir k) :: us).
      rewrite Htr, <- app_assoc. now split.
    + intros [= <- <-]. split; [reflexivity|].
      now exists [EvUnlink (path_join dir k)].
Qed.

Lemma clearDirectory_trace (dir : string) (w : World) (r : Result unit) (w' : World) :
  clearDirectory dir w = (r, w') ->
  vectorStore w' = vectorStore w
  /\ exists us, trace w' = (trace w ++ us)%list /\ forallb is_unlink us = true.
Proof.
  unfold clearDirectory, readdirSync. unfold bind at 1. mrun.
  destruct (FS.readdir dir (fs w)) as [names|e].
  - apply forEach_unlink_trace.
  - intros [= <- <-]. split; [reflexivity|]. exists []. now rewrite app_nil_r.
Qed.

End ClearFacts.

(** ** Lists *)

Section ListFacts.

Context {A B : Type}.

Lemma map_snd_combine_same (xs : list A) (ys : list B) :
  List.length xs = List.length ys -> map snd (combine xs ys) = ys.
Proof.
  revert ys. induction xs as [|x xs IH]; intros [|y ys]; cbn; try discriminate.
  - reflexivity.
  - intros [= H]. now rewrite IH.
Qed.

Lemma nth_error_combine_snd (xs : list A) (ys : list B) (i : nat) (y : B) :
  List.length xs = List.length ys -> nth_error ys i = Some y ->
  exists x, nth_error (combine xs ys) i = Some (x, y).
Proof.
  revert ys i. induction xs as [|x xs IH]; intros [|y' ys] i; cbn;
    try discriminate.
  - destruct i; discriminate.
  - intros [= H]. destruct i as [|i]; cbn.
    + intros [= ->]. eauto.
    + now apply IH.
Qed.

Lemma NoDup_firstn (k : nat) (l : list A) : NoDup l -> NoDup (firstn k l).
Proof.
  intros H. rewrite <- (firstn_skipn k l) in H.
  now apply NoDup_app_remove_r in H.
Qed.

Lemma firstn_succ_nth (k : nat) (l : list A) (x : A) :
  nth_error l k = Some x -> firstn (S k) l = (firstn k l ++ [x])%list.
Proof.
  revert k. induction l as [|y l IH]; intros [|k]; cbn; try discriminate.
  - now intros [= ->].
  - intros H. now rewrite <- (IH k H).
Qed.

Lemma Forall_combine_firstn (P : B -> Prop) (xs : list A) (ys : list B) (k : nat) :
  Forall P ys -> Forall (fun e => P (snd e)) (combine xs (firstn k ys)).
Proof.
  intros H. apply Forall_forall. intros [x y] Hin.
  apply in_combine_r in Hin. cbn.
  rewrite Forall_forall in H. apply H.
  rewrite <- (firstn_skipn k ys). apply in_or_app. now left.
Qed.

Lemma nth_error_combine_inv (xs : list A) (ys : list B) (i : nat) (x : A) (y : B) :
  nth_error (combine xs ys) i = Some (x, y) ->
  nth_error xs i = Some x /\ nth_error ys i = Some y.
Proof.
  revert ys i. induction xs as [|x' xs IH]; intros [|y' ys] [|i]; cbn;
    try discriminate.
  - now intros [= -> ->].
  - apply IH.
Qed.

End ListFacts.

(** ** Ingestion *)


Section IngestFacts.

Context {Vector Score : Type} {R : @Runtime Vector Score}.
Local Abbreviation World := (@World Vector).
Local Abbreviation M := (@M Vector).

Lemma addImage_eq (p : string) (i : Z) (w : World) :
  addImage p i w
  = match FS.readFile p (fs w) with
    | Err e => (Err e, w)
    | Ok img =>
        let doc :=
          {| pageContent := Base64.encode img;
             metadata := {| id := i; mediaType := "image"; path := Some p |} |} in
        match embedImageQuery (trace w) img with
        | Err e =>
            (Err e, {| fs := fs w; vectorStore := vectorStore w;
                       trace := (trace w ++ [EvEmbedImage img])%list |})
        | Ok v =>
            if faiss_accepts (vectorStore w) [v] [doc]
            then (Ok tt,
                  {| fs := fs w;
                     vectorStore := (vectorStore w ++ [(v, doc)])%list;
                     trace := (trace w ++ [EvEmbedImage img; EvAddVectors [v] [doc];
                                           EvLog ("Image " ++ p ++ " added.")])%list |})
            else (Err StoreError,
                  {| fs := fs w; vectorStore := vectorStore w;
                     trace := (trace w ++ [EvEmbedImage img;
                                           EvAddVectors [v] [doc]])%list |})
        end
    end.
Proof.
  unfold addImage, readFileSync, embeddings_embedImageQuery,
    vectorStore_addVectors, console_log.
  mrun. destruct (FS.readFile p (fs w)) as [img|e]; [|reflexivity].
  cbn zeta. destruct (embedImageQuery (trace w) img) as [v|e]; [|reflexivity].
  destruct (faiss_accepts _ _ _); cbn [combine fs vectorStore trace];
    now rewrite <- !app_assoc.
Qed.

Lemma addText_eq (t : string) (i : Z) (w : World) :
  addText t i w
  = let doc :=
      {| pageContent := t;
         metadata := {| id := i; mediaType := "text"; path := None |} |} in
    match embedQuery (trace w) t with
    | Err e =>
        (Err e, {| fs := fs w; vectorStore := vectorStore w;
                   trace := (trace w ++ [EvEmbedText t])%list |})
    | Ok v =>
        if faiss_accepts (vectorStore w) [v] [doc]
        then (Ok tt,
              {| fs := fs w;
                 vectorStore := (vectorStore w ++ [(v, doc)])%list;
                 trace := (trace w ++ [EvEmbedText t; EvAddVectors [v] [doc];
                                       EvLog ("Text " ++ String dquote t
                                              ++ String dquote " added.")])%list |})
        else (Err StoreError,
              {| fs := fs w; vectorStore := vectorStore w;
                 trace := (trace w ++ [EvEmbedText t; EvAddVectors [v] [doc]])%list |})
    end.
Proof.
  unfold addText, embeddings_embedQuery, vectorStore_addVectors, console_log.
  mrun. cbn zeta. destruct (embedQuery (trace w) t) as [v|e]; [|reflexivity].
  destruct (faiss_accepts _ _ _); cbn [combine fs vectorStore trace];
    now rewrite <- !app_assoc.
Qed.

(** One item: what it adds when it succeeds, what it leaves when it throws. *)
Lemma addItem_run (it : Item) (c : Z) (w : World) (r : Result unit) (w' : World) :
  addItem it c w = (r, w') ->
  fs w' = fs w
  /\ exists new,
       trace w' = (trace w ++ new)%list
       /\ forallb ingest_event new = true
       /\ match r with
          | Ok _ =>
              readable (fs w) it = true
              /\ (exists v, vectorStore w'
                            = (vectorStore w ++ [(v, documentOf (fs w) it c)])%list)
              /\ filter is_embed new = [embedCallOf (fs w) it]
          | Err _ =>
              vectorStore w' = vectorStore w
              /\ (filter is_embed new = []
                  \/ filter is_embed new = [embedCallOf (fs w) it])
          end.
Proof.
  destruct it as [p|t]; cbn [addItem].
  - rewrite addImage_eq. unfold readable, documentOf, embedCallOf, bytes_at.
    destruct (FS.readFile p (fs w)) as [img|e].
    + cbn zeta. destruct (embedImageQuery (trace w) img) as [v|e].
      * destruct (faiss_accepts _ _ _); intros [= <- <-]; cbn [fs vectorStore trace];
          (split; [reflexivity|]); eexists; (split; [reflexivity|]);
          (split; [reflexivity|]); cbn; eauto.
      * intros [= <- <-]; cbn [fs vectorStore trace].
        split; [reflexivity|]. eexists. split; [reflexivity|].
        split; [reflexivity|]. cbn. eauto.
    + intros [= <- <-]. split; [reflexivity|]. exists []. rewrite app_nil_r.
      cbn. eauto.
  - rewrite addText_eq. unfold readable, documentOf, embedCallOf.
    cbn zeta. destruct (embedQuery (trace w) t) as [v|e].
    + destruct (faiss_accepts _ _ _); intros [= <- <-]; cbn [fs vectorStore trace];
        (split; [reflexivity|]); eexists; (split; [reflexivity|]);
        (split; [reflexivity|]); cbn; eauto.
    + intros [= <- <-]; cbn [fs vectorStore trace].
      split; [reflexivity|]. eexists. split; [reflexivity|].
      split; [reflexivity|]. cbn. eauto.
Qed.

Lemma ingest_run (xs : list Item) :
  forall (c : Z) (w : World) (r : Result unit) (w' : World),
  for_counting addItem xs c w = (r, w') -> exists k, ingested xs c w r w' k.
Proof.
  induction xs as [|x xs IH]; intros c w r w'.
  - cbn [for_counting]. intros [= <- <-]. exists 0. unfold ingested.
    cbn [List.length firstn documentsFrom combine forallb map].
    repeat split; try reflexivity.
    + exists []. now rewrite app_nil_r.
    + exists [], []. now rewrite app_nil_r.
  - cbn [for_counting]. unfold bind.
    destruct (addItem x c w) as [r1 w1] eqn:E1.
    apply addItem_run in E1 as (Hfs & new1 & Htr & Hev & Hcase).
    destruct r1 as [u|e].
    + destruct Hcase as (Hread & (v & Hst) & Hemb). intros Hrest.
      apply IH in Hrest
        as (k & Hk & Hfs' & (vs & Hlen & Hst') & Hreadk
              & (new & extra & Htr' & Hev' & Hemb' & Hr)).
      rewrite Hfs in *. exists (S k). unfold ingested.
      cbn [List.length firstn documentsFrom combine forallb map].
      repeat split.
      * lia.
      * assumption.
      * exists (v :: vs). split; [cbn; lia|].
        rewrite Hst', Hst. cbn [combine]. now rewrite <- app_assoc.
      * now rewrite Hread, Hreadk.
      * exists (new1 ++ new)%list, extra. repeat split.
        -- now rewrite Htr', Htr, app_assoc.
        -- now rewrite forallb_app, Hev, Hev'.
        -- now rewrite filter_app, Hemb, Hemb'.
        -- destruct r as [u'|e']; [destruct Hr; split; [lia|assumption]|].
           exact Hr.
    + destruct Hcase as (Hst & Hemb). intros [= <- <-]. exists 0. unfold ingested.
      cbn [List.length firstn documentsFrom combine forallb map].
      repeat split.
      * lia.
      * assumption.
      * exists []. split; [reflexivity|]. now rewrite app_nil_r.
      * exists new1, (filter is_embed new1). repeat split; try assumption.
        exists x. split; [reflexivity|]. exact Hemb.
Qed.

Lemma for_counting_app {A : Type} (body : A -> Z -> M unit) (xs ys : list A) :
  forall (c : Z) (w : World),
  for_counting body (xs ++ ys) c w
  = bind (for_counting body xs c)
      (fun _ => for_counting body ys (c + Z.of_nat (List.length xs))%Z) w.
Proof.
  induction xs as [|x xs IH]; intros c w.
  - cbn [app for_counting List.length]. unfold bind, ret.
    now replace (c + Z.of_nat 0)%Z with c by lia.
  - cbn [app for_counting List.length]. unfold bind.
    destruct (body x c w) as [[u|e] w1]; [|reflexivity].
    rewrite IH. unfold bind.
    now replace (c + 1 + Z.of_nat (List.length xs))%Z
      with (c + Z.of_nat (S (List.length xs)))%Z by lia.
Qed.

Lemma for_counting_map {A : Type} (f : A -> Item) (body : A -> Z -> M unit)
  (xs : list A) :
  (forall a n, addItem (f a) n = body a n) ->
  forall (c : Z) (w : World),
  for_counting addItem (map f xs) c w = for_counting body xs c w.
Proof.
  intros H. induction xs as [|x xs IH]; intros c w; [reflexivity|].
  cbn [map for_counting]. unfold bind. rewrite H.
  destruct (body x c w) as [[u|e] w1]; [apply IH|reflexivity].
Qed.

(** With no store on disk, [addItemsToVectorStore] is the loop over the
    catalog, counting from 0. *)
Lemma addItems_absent (w : World) :
  FS.exists_ vectorStorePath (fs w) = false ->
  addItemsToVectorStore w = for_counting addItem catalog 0 w.
Proof.
  intros E. unfold addItemsToVectorStore, existsSync.
  unfold bind at 1. unfold with_world, ret. rewrite E. cbn [negb].
  unfold catalog. rewrite for_counting_app. cbn zeta. unfold bind.
  rewrite (for_counting_map Image addImage) by reflexivity.
  destruct (for_counting addImage images 0 w) as [[u|e] w1]; [|reflexivity].
  rewrite (for_counting_map Text addText) by reflexivity.
  now rewrite length_map.
Qed.

(** With a store on disk, it does nothing at all. *)
Lemma addItems_present (w : World) :
  FS.exists_ vectorStorePath (fs w) = true ->
  addItemsToVectorStore w = (Ok tt, w).
Proof.
  intros E. unfold addItemsToVectorStore, existsSync.
  unfold bind, with_world, ret. now rewrite E.
Qed.

End IngestFacts.

(** ** Rendering and queries *)

Section QueryFacts.

Context {Vector Score : Type} {R : @Runtime Vector Score}.
Local Abbreviation World := (@World Vector).
Local Abbreviation M := (@M Vector).

Lemma printResults_cons (item : Document * Score)
  (rest : list (Document * Score)) (w : World) :
  printResults (item :: rest) w
  = match rendered item w with
    | (Ok _, w1) => printResults rest w1
    | (Err e, w1) => (Err e, w1)
    end.
Proof.
  unfold printResults. cbn [forEach]. unfold bind at 1.
  match goal with
  | |- match ?x with _ => _ end = _ =>
      enough (E : x = rendered item w) by now rewrite E
  end.
  unfold rendered, console_log, writeFileSync_base64. mrun. cbn zeta.
  destruct (mediaType (metadata (fst item)) =? "text").
  - cbn [fs vectorStore trace]. now rewrite <- app_assoc.
  - destruct (mediaType (metadata (fst item)) =? "image"); [|reflexivity].
    destruct (path (metadata (fst item))) as [p|]; [|reflexivity].
    cbn [fs vectorStore trace]. rewrite <- app_assoc. cbn [app].
    now destruct (FS.writeFile _ _ (fs w)).
Qed.

Lemma rendered_trace (item : Document * Score) (w : World) :
  vectorStore (snd (rendered item w)) = vectorStore w
  /\ exists new,
       trace (snd (rendered item w)) = (trace w ++ new)%list
       /\ forallb render_event new = true.
Proof.
  unfold rendered. cbn zeta.
  destruct (mediaType (metadata (fst item)) =? "text");
    [cbn; eauto|].
  destruct (mediaType (metadata (fst item)) =? "image"); [|cbn; eauto].
  destruct (path (metadata (fst item))) as [p|]; [|cbn; eauto].
  destruct (FS.writeFile _ _ (fs w)); cbn; eauto.
Qed.

Lemma printResults_trace (results : list (Document * Score)) :
  forall (w : World) (r : Result unit) (w' : World),
  printResults results w = (r, w') ->
  vectorStore w' = vectorStore w
  /\ exists new,
       trace w' = (trace w ++ new)%list /\ forallb render_event new = true.
Proof.
  induction results as [|item rest IH]; intros w r w'.
  - intros [= <- <-]. split; [reflexivity|]. exists []. now rewrite app_nil_r.
  - rewrite printResults_cons.
    destruct (rendered_trace item w) as (Hst & new1 & Htr & Hev).
    destruct (rendered item w) as [[u|e] w1]; cbn [snd] in *.
    + intros H. apply IH in H as (Hst' & new & Htr' & Hev').
      split; [congruence|]. exists (new1 ++ new)%list.
      rewrite Htr', Htr, app_assoc, forallb_app, Hev, Hev'. now split.
    + intros [= <- <-]. split; [assumption|]. now exists new1.
Qed.

(** Results that are all texts are printed, nothing is written. *)
Lemma printResults_texts (results : list (Document * Score)) :
  forallb is_text results = true ->
  forall w : World,
  exists new,
    printResults results w
    = (Ok tt, {| fs := fs w; vectorStore := vectorStore w;
                 trace := (trace w ++ new)%list |})
    /\ forallb render_event new = true.
Proof.
  induction results as [|item rest IH]; intros T w.
  - exists []. now rewrite app_nil_r.
  - cbn [forallb] in T. apply andb_prop in T as [Ti Tr].
    rewrite printResults_cons. unfold rendered. cbn zeta.
    unfold is_text in Ti. rewrite Ti.
    destruct (IH Tr {| fs := fs w; vectorStore := vectorStore w;
                       trace := (trace w ++ [EvLog (JSON_stringify (metadata (fst item)));
                                             EvLog ("Text: " ++ pageContent (fst item))])%list |})
      as (new & -> & Hev).
    cbn [fs vectorStore trace]. eexists. rewrite <- app_assoc.
    split; [reflexivity|]. exact Hev.
Qed.

Lemma search_report_eq (v : Vector) (k : nat) (heading : string) (w : World) :
  bind (vectorStore_similaritySearchVectorWithScore v k)
    (fun res => report heading res) w
  = match similaritySearchVectorWithScore (vectorStore w) v k with
    | Err e =>
        (Err e, {| fs := fs w; vectorStore := vectorStore w;
                   trace := (trace w ++ [EvSearch v k])%list |})
    | Ok res =>
        printResults res
          {| fs := fs w; vectorStore := vectorStore w;
             trace := (trace w ++ [EvSearch v k; EvLog heading])%list |}
    end.
Proof.
  unfold vectorStore_similaritySearchVectorWithScore, report, console_log.
  mrun. destruct (similaritySearchVectorWithScore _ _ _); [|reflexivity].
  now rewrite <- app_assoc.
Qed.

Lemma textSimilaritySearch_eq (text : string) (k : nat) (w : World) :
  textSimilaritySearch text k w
  = match clearDirectory "output" w with
    | (Err e, w1) => (Err e, w1)
    | (Ok _, w1) =>
        let banner := EvLog "Performing text similarity search." in
        let w2 := {| fs := fs w1; vectorStore := vectorStore w1;
                     trace := (trace w1 ++ [banner; EvEmbedText text])%list |} in
        match embedQuery (trace w1 ++ [banner]) text with
        | Err e => (Err e, w2)
        | Ok v =>
            bind (vectorStore_similaritySearchVectorWithScore v k)
              (fun res =>
                 report ("Similarity search results for text query: " ++ text) res)
              w2
        end
    end.
Proof.
  unfold textSimilaritySearch. unfold bind at 1.
  destruct (clearDirectory "output" w) as [[u|e] w1]; [|reflexivity].
  unfold bind at 1. unfold console_log at 1. unfold emit at 1.
  unfold bind at 1. unfold embeddings_embedQuery. mrun.
  destruct (embedQuery _ text) as [v|e]; rewrite <- app_assoc; reflexivity.
Qed.

Lemma imageSimilaritySearch_eq (p : string) (k : nat) (w : World) :
  imageSimilaritySearch p k w
  = match clearDirectory "output" w with
    | (Err e, w1) => (Err e, w1)
    | (Ok _, w1) =>
        let banner := EvLog "Performing image similarity search." in
        match FS.readFile p (fs w1) with
        | Err e =>
            (Err e, {| fs := fs w1; vectorStore := vectorStore w1;
                       trace := (trace w1 ++ [banner])%list |})
        | Ok img =>
            let w2 := {| fs := fs w1; vectorStore := vectorStore w1;
                         trace := (trace w1 ++ [banner; EvEmbedImage img])%list |} in
            match embedImageQuery (trace w1 ++ [banner]) img with
            | Err e => (Err e, w2)
            | Ok v =>
                bind (vectorStore_similaritySearchVectorWithScore v k)
                  (fun res =>
                     report ("Similarity search results for image query: " ++ p) res)
                  w2
            end
        end
    end.
Proof.
  unfold imageSimilaritySearch. unfold bind at 1.
  destruct (clearDirectory "output" w) as [[u|e] w1]; [|reflexivity].
  unfold bind at 1. unfold console_log at 1. unfold emit at 1.
  unfold bind at 1. unfold readFileSync at 1. unfold with_world at 1.
  unfold lift at 1. cbn [fs vectorStore trace].
  destruct (FS.readFile p (fs w1)) as [img|e]; [|reflexivity].
  unfold bind at 1. unfold embeddings_embedImageQuery. mrun.
  destruct (embedImageQuery _ img) as [v|e]; rewrite <- app_assoc; reflexivity.
Qed.

(** The store and the calls of the last part of a query. *)
Lemma search_report_trace (v : Vector) (k : nat) (heading : string)
  (w : World) (r : Result unit) (w' : World) :
  bind (vectorStore_similaritySearchVectorWithScore v k)
    (fun res => report heading res) w = (r, w') ->
  vectorStore w' = vectorStore w
  /\ ((exists e, r = Err e /\ trace w' = (trace w ++ [EvSearch v k])%list)
      \/ exists rs, trace w' = (trace w ++ [EvSearch v k; EvLog heading] ++ rs)%list
                    /\ forallb render_event rs = true).
Proof.
  rewrite search_report_eq.
  destruct (similaritySearchVectorWithScore _ _ _) as [res|e].
  - intros H. apply printResults_trace in H as (Hst & rs & Htr & Hev).
    cbn [vectorStore trace] in *. split; [assumption|]. right. exists rs.
    rewrite Htr, <- app_assoc. now split.
  - intros [= <- <-]. split; [reflexivity|]. left. eauto.
Qed.

Lemma textSimilaritySearch_trace (text : string) (k : nat)
  (w : World) (r : Result unit) (w' : World) :
  textSimilaritySearch text k w = (r, w') ->
  vectorStore w' = vectorStore w
  /\ exists new,
       trace w' = (trace w ++ new)%list
       /\ query_trace "Performing text similarity search." (EvEmbedText text) k
            ("Similarity search results for text query: " ++ text) r new.
Proof.
  rewrite textSimilaritySearch_eq.
  destruct (clearDirectory "output" w) as [[u|e] w1] eqn:C;
    apply clearDirectory_trace in C as (Hst & us & Htr & Hus).
  - cbn zeta. destruct (embedQuery _ text) as [v|e].
    + intros H. apply search_report_trace in H as (Hst' & Hcase).
      cbn [vectorStore trace] in *. split; [congruence|].
      destruct Hcase as [(e & -> & Ht)|(rs & Ht & Hrs)]; rewrite Ht, Htr;
        eexists; (split; [rewrite <- !app_assoc; reflexivity|]);
        exists us; eexists; (split; [reflexivity|]); (split; [assumption|]);
        right; cbn [app].
      * apply tail_search.
      * now apply (tail_render _ _ _ _ _ v rs).
    + intros [= <- <-]. cbn [vectorStore trace]. split; [assumption|].
      rewrite Htr. eexists. split; [rewrite <- !app_assoc; reflexivity|].
      exists us. eexists. split; [reflexivity|]. split; [assumption|].
      right. apply tail_embed.
  - intros [= <- <-]. split; [assumption|]. exists us. split; [assumption|].
    exists us, []. rewrite app_nil_r. split; [reflexivity|]. split; [assumption|].
    left. eauto.
Qed.

Lemma imageSimilaritySearch_trace (p : string) (k : nat)
  (w : World) (r : Result unit) (w' : World) :
  imageSimilaritySearch p k w = (r, w') ->
  vectorStore w' = vectorStore w
  /\ exists new img,
       trace w' = (trace w ++ new)%list
       /\ query_trace "Performing image similarity search." (EvEmbedImage img) k
            ("Similarity search results for image query: " ++ p) r new.
Proof.
  rewrite imageSimilaritySearch_eq.
  destruct (clearDirectory "output" w) as [[u|e] w1] eqn:C;
    apply clearDirectory_trace in C as (Hst & us & Htr & Hus).
  - cbn zeta. destruct (FS.readFile p (fs w1)) as [img|e].
    + destruct (embedImageQuery _ img) as [v|e].
      * intros H. apply search_report_trace in H as (Hst' & Hcase).
        cbn [vectorStore trace] in *. split; [congruence|].
        destruct Hcase as [(e & -> & Ht)|(rs & Ht & Hrs)]; rewrite Ht, Htr;
          eexists; exists img; (split; [rewrite <- !app_assoc; reflexivity|]);
          exists us; eexists; (split; [reflexivity|]); (split; [assumption|]);
          right; cbn [app].
        -- apply tail_search.
        -- now apply (tail_render _ _ _ _ _ v rs).
      * intros [= <- <-]. cbn [vectorStore trace]. split; [assumption|].
        rewrite Htr. eexists. exists img.
        split; [rewrite <- !app_assoc; reflexivity|].
        exists us. eexists. split; [reflexivity|]. split; [assumption|].
        right. apply tail_embed.
    + intros [= <- <-]. cbn [vectorStore trace]. split; [assumption|].
      rewrite Htr. eexists. exists [].
      split; [rewrite <- !app_assoc; reflexivity|].
      exists us. eexists. split; [reflexivity|]. split; [assumption|].
      right. apply tail_read.
  - intros [= <- <-]. split; [assumption|]. exists us, []. split; [assumption|].
    exists us, []. rewrite app_nil_r. split; [reflexivity|]. split; [assumption|].
    left. eauto.
Qed.

End QueryFacts.

(** ** The module body *)

Section MainFacts.

Context {Vector Score : Type} {R : @Runtime Vector Score}.
Local Abbreviation World := (@World Vector).
Local Abbreviation M := (@M Vector).
Local Abbreviation Event := (@Event Vector).

Lemma bind_ok {A B : Type} (m : M A) (k : A -> M B) (w : World) (b : B) (w' : World) :
  bind m k w = (Ok b, w') ->
  exists a w1, m w = (Ok a, w1) /\ k a w1 = (Ok b, w').
Proof.
  unfold bind. destruct (m w) as [[a|e] w1]; [eauto|discriminate].
Qed.

Lemma filter_none (P Q : Event -> bool) (l : list Event) :
  forallb P l = true -> (forall e, P e = true -> Q e = false) -> filter Q l = [].
Proof.
  intros H D. induction l as [|e l IH]; [reflexivity|].
  cbn in *. apply andb_prop in H as [He Hl]. now rewrite (D e He), IH.
Qed.

Lemma initVectorStore_eq (w : World) :
  initVectorStore w
  = if FS.exists_ vectorStorePath (fs w) then
      let t := (trace w ++ [EvLoad vectorStorePath])%list in
      match FS.get (FS.segments vectorStorePath) (fs w) with
      | Some n =>
          match FaissStore_load n with
          | Ok st => (Ok tt, {| fs := fs w; vectorStore := st; trace := t |})
          | Err e => (Err e, {| fs := fs w; vectorStore := vectorStore w; trace := t |})
          end
      | None =>
          (Err (IOError "ENOENT" vectorStorePath),
           {| fs := fs w; vectorStore := vectorStore w; trace := t |})
      end
    else (Ok tt, {| fs := fs w; vectorStore := []; trace := trace w |}).
Proof.
  unfold initVectorStore, existsSync, FaissStore_load_from. mrun.
  destruct (FS.exists_ vectorStorePath (fs w)); [|reflexivity].
  cbn zeta. destruct (FS.get _ (fs w)) as [n|]; [|reflexivity].
  now destruct (FaissStore_load n).
Qed.

Lemma vectorStore_save_eq (p : string) (w : World) :
  vectorStore_save p w
  = let w1 := {| fs := fs w; vectorStore := vectorStore w;
                 trace := (trace w ++ [EvSave p])%list |} in
    match FaissStore_persist (vectorStore w) with
    | Err e => (Err e, w1)
    | Ok n =>
        match FS.place (FS.segments p) n (fs w) with
        | Some root =>
            (Ok tt, {| fs := root; vectorStore := vectorStore w;
                       trace := (trace w ++ [EvSave p])%list |})
        | None => (Err (IOError "EEXIST" p), w1)
        end
    end.
Proof.
  unfold vectorStore_save. mrun. cbn zeta.
  destruct (FaissStore_persist (vectorStore w)) as [n|e]; [|reflexivity].
  now destruct (FS.place _ n (fs w)).
Qed.

(** After a save, something exists at the store path. *)
Lemma place_exists (n root root' : Node) :
  FS.place (FS.segments vectorStorePath) n root = Some root' ->
  FS.exists_ vectorStorePath root' = true.
Proof.
  unfold FS.exists_.
  change (FS.segments vectorStorePath) with ["vector_store"].
  cbn [FS.place FS.get]. destruct root as [b|es]; [discriminate|].
  destruct (FS.find_entry "vector_store" es) as [c|].
  - destruct c as [b|sub]; [discriminate|]. intros [= <-].
    now rewrite FSFacts.find_put_same.
  - intros [= <-]. now rewrite FSFacts.find_put_same.
Qed.

Lemma query_tail_ok (banner : string) (emb : Event) (k : nat) (heading : string)
  (u : unit) (rest : list Event) :
  query_tail banner emb k heading (Ok u) rest ->
  exists v rs,
    rest = ([EvLog banner; emb; EvSearch v k; EvLog heading] ++ rs)%list
    /\ forallb render_event rs = true.
Proof. intros H. inversion H; subst. eauto. Qed.

(** A query embeds at most once, its own input, and adds nothing. *)
Lemma query_trace_calls (banner : string) (emb : Event) (k : nat) (heading : string)
  (r : Result unit) (new : list Event) :
  is_embed emb = true -> is_add emb = false -> is_save emb = false ->
  query_trace banner emb k heading r new ->
  filter is_add new = []
  /\ filter is_save new = []
  /\ (filter is_embed new = [] \/ filter is_embed new = [emb]).
Proof.
  intros He Ha Hs (us & rest & -> & Hus & Hrest).
  rewrite !filter_app.
  rewrite (filter_none is_unlink is_add us Hus) by now intros [].
  rewrite (filter_none is_unlink is_save us Hus) by now intros [].
  rewrite (filter_none is_unlink is_embed us Hus) by now intros [].
  cbn [app].
  destruct Hrest as [(e & _ & ->)|T]; [cbn; auto|].
  destruct T as [e|e|e v|r' v rs Hrs]; cbn [filter is_add is_save is_embed app];
    rewrite ?He, ?Ha, ?Hs; auto.
  rewrite (filter_none render_event is_add rs Hrs) by now intros [].
  rewrite (filter_none render_event is_save rs Hrs) by now intros [].
  rewrite (filter_none render_event is_embed rs Hrs) by now intros [].
  auto.
Qed.

End MainFacts.

(** * Properties of the specification *)

Section Specification.

Context {Vector Score : Type} {R : @Runtime Vector Score}.
Local Abbreviation World := (@World Vector).
Local Abbreviation M := (@M Vector).
Local Abbreviation Event := (@Event Vector).

(** A successful ingestion on a directory without a store: nine pairs, one
    per catalog item, in catalog order. *)
Lemma ingest_all (w w' : World) :
  FS.exists_ vectorStorePath (fs w) = false ->
  addItemsToVectorStore w = (Ok tt, w') ->
  fs w' = fs w
  /\ forallb (readable (fs w)) catalog = true
  /\ (exists v0 v1 v2 v3 v4 v5 v6 v7 v8,
        vectorStore w'
        = (vectorStore w
           ++ combine [v0; v1; v2; v3; v4; v5; v6; v7; v8]
                (documentsFrom (fs w) catalog 0))%list)
  /\ (exists new,
        trace w' = (trace w ++ new)%list
        /\ forallb ingest_event new = true
        /\ filter is_embed new = map (embedCallOf (fs w)) catalog).
Proof.
  intros E H. rewrite addItems_absent in H by assumption.
  apply ingest_run in H
    as (k & Hk & Hfs & (vs & Hlen & Hst) & Hread & (new & extra & Htr & Hev & Hemb & Hr)).
  destruct Hr as [-> ->]. change (List.length catalog) with 9 in *.
  split; [assumption|]. split; [assumption|]. split.
  - do 9 (destruct vs as [|? vs]; [discriminate|]).
    destruct vs; [|discriminate]. do 9 eexists. exact Hst.
  - exists new. split; [assumption|]. split; [assumption|].
    rewrite Hemb. now rewrite app_nil_r.
Qed.

(** C1. With no persisted store at the configured path, ingestion goes
    through the catalog in order, six images then three texts, and numbers
    the documents it adds with one running counter from 0: the i-th image
    gets id i, the j-th text gets id 6+j.  The ids handed out are the first
    k of 0..8, each used once, where k is the number of items added; a run
    that completes has added all nine, with ids exactly 0..8. *)
Theorem C1_sequential_ids (w : World) (r : Result unit) (w' : World) :
  FS.exists_ vectorStorePath (fs w) = false ->
  addItemsToVectorStore w = (r, w') ->
  exists k added,
    k <= 9
    /\ (r = Ok tt -> k = 9)
    /\ vectorStore w' = (vectorStore w ++ added)%list
    /\ map (fun e => id (metadata (snd e))) added
       = firstn k [0; 1; 2; 3; 4; 5; 6; 7; 8]%Z
    /\ NoDup (map (fun e => id (metadata (snd e))) added)
    /\ (forall i p, i < k -> nth_error images i = Some p ->
          exists v,
            nth_error added i
            = Some (v, {| pageContent := Base64.encode (bytes_at (fs w) p);
                          metadata := {| id := Z.of_nat i; mediaType := "image";
                                         path := Some p |} |}))
    /\ (forall j t, 6 + j < k -> nth_error texts j = Some t ->
          exists v,
            nth_error added (6 + j)
            = Some (v, {| pageContent := t;
                          metadata := {| id := Z.of_nat (6 + j); mediaType := "text";
                                         path := None |} |})).
Proof.
  intros E H. rewrite addItems_absent in H by assumption.
  apply ingest_run in H
    as (k & Hk & _ & (vs & Hlen & Hst) & _ & (new & extra & _ & _ & _ & Hr)).
  change (List.length catalog) with 9 in *.
  set (docs := documentsFrom (fs w) catalog 0) in *.
  assert (Hd : List.length (firstn k docs) = k).
  { rewrite length_firstn. change (List.length docs) with 9. lia. }
  assert (Hnth : forall i d, i < k -> nth_error docs i = Some d ->
                   exists v, nth_error (combine vs (firstn k docs)) i = Some (v, d)).
  { intros i d Hi Hn. apply nth_error_combine_snd; [congruence|].
    now rewrite nth_error_firstn, (proj2 (Nat.ltb_lt i k) Hi). }
  exists k, (combine vs (firstn k docs)).
  split; [exact Hk|]. split.
  { intros ->. now destruct Hr. }
  split; [exact Hst|].
  assert (Hids : map (fun e => id (metadata (snd e))) (combine vs (firstn k docs))
                 = firstn k [0; 1; 2; 3; 4; 5; 6; 7; 8]%Z).
  { rewrite <- (map_map snd (fun d => id (metadata d))).
    rewrite map_snd_combine_same by congruence.
    now rewrite <- firstn_map. }
  split; [exact Hids|]. split.
  { rewrite Hids. apply NoDup_firstn.
    repeat constructor; cbn; intuition discriminate. }
  split.
  - intros i p Hi Hn. apply Hnth; [assumption|].
    do 6 (destruct i as [|i]; [injection Hn as <-; reflexivity|]).
    destruct i; discriminate.
  - intros j t Hj Hn. apply Hnth; [assumption|].
    do 3 (destruct j as [|j]; [injection Hn as <-; reflexivity|]).
    destruct j; discriminate.
Qed.

Lemma documentsFrom_invariant (root : Node) (xs : list Item) :
  forall c, Forall metadata_invariant (documentsFrom root xs c).
Proof.
  induction xs as [|it xs IH]; intros c; cbn [documentsFrom]; constructor.
  - unfold metadata_invariant. destruct it; [left|right]; cbn; split; congruence.
  - apply IH.
Qed.

(** C3. Every document the script creates and stores has mediaType "image"
    together with a path, or mediaType "text" and no path: this holds for
    what [addImage] adds, for what [addText] adds, and for everything a run
    of [addItemsToVectorStore] adds, whatever its outcome. *)
Theorem C3_metadata_invariant (w : World) :
  (forall p i, exists added,
      vectorStore (snd (addImage p i w)) = (vectorStore w ++ added)%list
      /\ Forall (fun e => metadata_invariant (snd e)) added)
  /\ (forall t i, exists added,
        vectorStore (snd (addText t i w)) = (vectorStore w ++ added)%list
        /\ Forall (fun e => metadata_invariant (snd e)) added)
  /\ (exists added,
        vectorStore (snd (addItemsToVectorStore w)) = (vectorStore w ++ added)%list
        /\ Forall (fun e => metadata_invariant (snd e)) added).
Proof.
  split; [|split].
  - intros p i. rewrite addImage_eq.
    destruct (FS.readFile p (fs w)) as [img|e];
      [|exists []; now rewrite app_nil_r].
    cbn zeta. destruct (embedImageQuery (trace w) img) as [v|e];
      [|exists []; cbn; now rewrite app_nil_r].
    destruct (faiss_accepts _ _ _); [|exists []; cbn; now rewrite app_nil_r].
    eexists. split; [reflexivity|]. constructor; [|constructor]. left. cbn.
    split; congruence.
  - intros t i. rewrite addText_eq.
    cbn zeta. destruct (embedQuery (trace w) t) as [v|e];
      [|exists []; cbn; now rewrite app_nil_r].
    destruct (faiss_accepts _ _ _); [|exists []; cbn; now rewrite app_nil_r].
    eexists. split; [reflexivity|]. constructor; [|constructor]. right. cbn.
    split; congruence.
  - destruct (FS.exists_ vectorStorePath (fs w)) eqn:E.
    + rewrite addItems_present by assumption. exists []. now rewrite app_nil_r.
    + destruct (addItemsToVectorStore w) as [r w'] eqn:H.
      rewrite addItems_absent in H by assumption.
      apply ingest_run in H as (k & _ & _ & (vs & _ & Hst) & _).
      eexists. split; [exact Hst|].
      apply Forall_combine_firstn, documentsFrom_invariant.
Qed.

(** C7. With no persisted store, a failed file read or embedding call makes
    [addImage] or [addText] throw without adding anything, and the item at
    which that happens ends the ingestion: the ingestion returns that very
    error in that very state, so no later item is read, embedded or added
    and the failed item is not tried again.  In the state an ingestion
    fails in, the store holds what it held plus the documents of the items
    before the failing one, and the embedding calls made are those of the
    first k or k+1 catalog items, once each, in order. *)
Theorem C7_abort_no_rollback (w : World) :
  FS.exists_ vectorStorePath (fs w) = false ->
  (forall p c (w0 : World) e,
      FS.readFile p (fs w0) = Err e -> addImage p c w0 = (Err e, w0))
  /\ (forall p c (w0 : World) img e,
        FS.readFile p (fs w0) = Ok img ->
        embedImageQuery (trace w0) img = Err e ->
        addImage p c w0
        = (Err e, {| fs := fs w0; vectorStore := vectorStore w0;
                     trace := (trace w0 ++ [EvEmbedImage img])%list |}))
  /\ (forall t c (w0 : World) e,
        embedQuery (trace w0) t = Err e ->
        addText t c w0
        = (Err e, {| fs := fs w0; vectorStore := vectorStore w0;
                     trace := (trace w0 ++ [EvEmbedText t])%list |}))
  /\ (forall pre it post wk e wf,
        catalog = (pre ++ it :: post)%list ->
        for_counting addItem pre 0 w = (Ok tt, wk) ->
        addItem it (Z.of_nat (List.length pre)) wk = (Err e, wf) ->
        addItemsToVectorStore w = (Err e, wf))
  /\ (forall e wf,
        addItemsToVectorStore w = (Err e, wf) ->
        exists k it vs new,
          nth_error catalog k = Some it
          /\ List.length vs = k
          /\ vectorStore wf
             = (vectorStore w
                ++ combine vs (firstn k (documentsFrom (fs w) catalog 0)))%list
          /\ trace wf = (trace w ++ new)%list
          /\ (filter is_embed new = firstn k (map (embedCallOf (fs w)) catalog)
              \/ filter is_embed new
                 = firstn (S k) (map (embedCallOf (fs w)) catalog))).
Proof.
  intros E. repeat split.
  - intros p c w0 e H. rewrite addImage_eq. now rewrite H.
  - intros p c w0 img e H He. rewrite addImage_eq, H. cbn zeta. now rewrite He.
  - intros t c w0 e He. rewrite addText_eq. cbn zeta. now rewrite He.
  - intros pre it post wk e wf Hc Hpre Hit.
    rewrite addItems_absent, Hc, for_counting_app by assumption.
    unfold bind. rewrite Hpre. cbn [for_counting]. unfold bind.
    change (0 + Z.of_nat (List.length pre))%Z with (Z.of_nat (List.length pre)).
    now rewrite Hit.
  - intros e wf H. rewrite addItems_absent in H by assumption.
    apply ingest_run in H
      as (k & _ & _ & (vs & Hlen & Hst) & _ & (new & extra & Htr & _ & Hemb & Hr)).
    destruct Hr as (it & Hk & Hextra).
    exists k, it, vs, new. repeat split; try assumption.
    destruct Hextra as [-> | ->].
    + left. now rewrite app_nil_r in Hemb.
    + right. rewrite Hemb. symmetry. apply firstn_succ_nth.
      now apply map_nth_error.
Qed.

(** A run on a directory that holds a store adds nothing and embeds at most
    the query text. *)
Lemma main_present_calls (root : Node) (r : Result unit) (w' : World) :
  FS.exists_ vectorStorePath root = true ->
  main (start root) = (r, w') ->
  filter is_add (trace w') = []
  /\ (filter is_embed (trace w') = []
      \/ filter is_embed (trace w') = [EvEmbedText "Mammals"]).
Proof.
  intros E. unfold main. unfold bind at 1. rewrite initVectorStore_eq.
  cbn [start fs vectorStore trace app]. rewrite E. cbn zeta.
  destruct (FS.get _ root) as [n|]; [|intros [= <- <-]; cbn; auto].
  destruct (FaissStore_load n) as [st|e]; [|intros [= <- <-]; cbn; auto].
  unfold bind at 1. rewrite addItems_present by exact E.
  unfold bind at 1.
  destruct (textSimilaritySearch "Mammals" 1 _) as [[u|e] w2] eqn:Q;
    apply textSimilaritySearch_trace in Q as (_ & new & Htr & Hq);
    apply query_trace_calls in Hq as (Ha & _ & He); try reflexivity;
    cbn [trace] in Htr.
  - rewrite vectorStore_save_eq. cbn zeta.
    assert (T : forall w3 : World,
              trace w3 = (trace w2 ++ [EvSave vectorStorePath])%list ->
              filter is_add (trace w3) = []
              /\ (filter is_embed (trace w3) = []
                  \/ filter is_embed (trace w3) = [EvEmbedText "Mammals"])).
    { intros w3 ->. rewrite Htr, !filter_app, Ha. cbn [filter is_add is_embed app].
      split; [reflexivity|]. rewrite app_nil_r. exact He. }
    destruct (FaissStore_persist (vectorStore w2)) as [m|e];
      [destruct (FS.place _ m (fs w2))|]; intros [= <- <-]; now apply T.
  - intros [= <- <-]. rewrite Htr, !filter_app, Ha. cbn [filter is_add is_embed app].
    split; [reflexivity|]. exact He.
Qed.

(** A run that completes leaves a store at the store path. *)
Lemma main_ok_saved (w0 w' : World) :
  main w0 = (Ok tt, w') -> FS.exists_ vectorStorePath (fs w') = true.
Proof.
  unfold main. intros H.
  apply bind_ok in H as (u1 & w1 & _ & H).
  apply bind_ok in H as (u2 & w2 & _ & H).
  apply bind_ok in H as (u3 & w3 & _ & H).
  rewrite vectorStore_save_eq in H. cbn zeta in H.
  destruct (FaissStore_persist (vectorStore w3)) as [n|e]; [|discriminate].
  destruct (FS.place _ n (fs w3)) as [root'|] eqn:P; [|discriminate].
  injection H as <-. cbn [fs]. now apply place_exists in P.
Qed.

(** C2. When the store path exists at startup (as it does in the state a
    completed run leaves behind), the handle is the store loaded from that
    path and the ingestion step changes nothing: no embedding call, no add.
    A whole run started on such a directory makes no add call and at most
    one embedding call, the one for the query text. *)
Theorem C2_idempotent_ingestion (w : World) :
  FS.exists_ vectorStorePath (fs w) = true
  \/ (exists w0, main w0 = (Ok tt, w)) ->
  FS.exists_ vectorStorePath (fs w) = true
  /\ addItemsToVectorStore w = (Ok tt, w)
  /\ (forall w1, initVectorStore w = (Ok tt, w1) ->
        (exists n, FS.get (FS.segments vectorStorePath) (fs w) = Some n
                   /\ FaissStore_load n = Ok (vectorStore w1))
        /\ trace w1 = (trace w ++ [EvLoad vectorStorePath])%list
        /\ addItemsToVectorStore w1 = (Ok tt, w1))
  /\ (forall r2 w2, main (start (fs w)) = (r2, w2) ->
        filter is_add (trace w2) = []
        /\ (filter is_embed (trace w2) = []
            \/ filter is_embed (trace w2) = [EvEmbedText "Mammals"])).
Proof.
  intros H.
  assert (E : FS.exists_ vectorStorePath (fs w) = true).
  { destruct H as [E|(w0 & H)]; [exact E|]. now apply main_ok_saved in H. }
  split; [exact E|]. split; [now apply addItems_present|]. split.
  - intros w1. rewrite initVectorStore_eq, E. cbn zeta.
    destruct (FS.get _ (fs w)) as [n|]; [|discriminate].
    destruct (FaissStore_load n) as [st|e] eqn:L; [|discriminate].
    intros [= <-]. cbn [vectorStore trace]. split; [eauto|]. split; [reflexivity|].
    now apply addItems_present.
  - intros r2 w2. now apply main_present_calls.
Qed.

(** C6. A run that completes has gone, in this order, through the store
    initialisation, one ingestion-or-skip step, one text query for
    "Mammals" with K = 1, and one save to the store path.  Its trace is the
    set-up calls, the unlink calls of the query, the query's banner,
    embedding call, search call and heading, what rendering does, and the
    save as the last call; it holds one search and one save. *)
Theorem C6_run_order (root : Node) (w' : World) :
  main (start root) = (Ok tt, w') ->
  exists w1 w2 w3,
    initVectorStore (start root) = (Ok tt, w1)
    /\ addItemsToVectorStore w1 = (Ok tt, w2)
    /\ textSimilaritySearch "Mammals" 1 w2 = (Ok tt, w3)
    /\ vectorStore_save vectorStorePath w3 = (Ok tt, w')
    /\ (exists us v rs,
          trace w'
          = (trace w2 ++ us
             ++ [EvLog "Performing text similarity search.";
                 EvEmbedText "Mammals"; EvSearch v 1;
                 EvLog "Similarity search results for text query: Mammals"]
             ++ rs ++ [EvSave vectorStorePath])%list
          /\ forallb (fun e => ingest_event e
                               || match e with EvLoad _ => true | _ => false end)
               (trace w2) = true
          /\ forallb is_unlink us = true
          /\ forallb render_event rs = true)
    /\ List.length (filter is_save (trace w')) = 1
    /\ List.length (filter is_search (trace w')) = 1.
Proof.
  unfold main. intros H.
  apply bind_ok in H as ([] & w1 & H1 & H).
  apply bind_ok in H as ([] & w2 & H2 & H).
  apply bind_ok in H as ([] & w3 & H3 & H4).
  exists w1, w2, w3. do 4 (split; [assumption|]).
  (* the calls made up to the end of the ingestion step *)
  assert (S2 : forallb (fun e => ingest_event e
                                 || match e with EvLoad _ => true | _ => false end)
                 (trace w2) = true).
  { rewrite initVectorStore_eq in H1. cbn [start fs vectorStore trace app] in H1.
    destruct (FS.exists_ vectorStorePath root) eqn:E.
    - cbn zeta in H1. destruct (FS.get _ root) as [n|]; [|discriminate].
      destruct (FaissStore_load n) as [st|e]; [|discriminate].
      injection H1 as <-. rewrite addItems_present in H2 by exact E.
      now injection H2 as <-.
    - injection H1 as <-.
      apply ingest_all in H2 as (_ & _ & _ & new & Htr & Hev & _); [|exact E].
      cbn [trace app] in Htr. rewrite Htr.
      apply forallb_forall. intros e He.
      rewrite forallb_forall in Hev. now rewrite (Hev e He). }
  (* the calls of the query and of the save *)
  apply textSimilaritySearch_trace in H3 as (_ & new & Htr & us & rest & -> & Hus & Hrest).
  destruct Hrest as [(e & He & _)|T]; [discriminate|].
  apply query_tail_ok in T as (v & rs & -> & Hrs).
  rewrite vectorStore_save_eq in H4. cbn zeta in H4.
  destruct (FaissStore_persist (vectorStore w3)) as [n|e]; [|discriminate].
  destruct (FS.place _ n (fs w3)) as [root'|]; [|discriminate].
  injection H4 as <-. cbn [trace]. rewrite Htr.
  match goal with
  | |- context [filter is_save ?t] =>
      assert (Shape : t
        = (trace w2 ++ us
           ++ [EvLog "Performing text similarity search."; EvEmbedText "Mammals";
               EvSearch v 1;
               EvLog "Similarity search results for text query: Mammals"]
           ++ rs ++ [EvSave vectorStorePath])%list)
        by (now rewrite <- !app_assoc)
  end.
  rewrite Shape. split; [|split].
  - exists us, v, rs. repeat split; assumption.
  - rewrite !filter_app.
    rewrite (filter_none _ is_save _ S2) by (intros []; cbn; congruence).
    rewrite (filter_none _ is_save _ Hus) by now intros [].
    rewrite (filter_none _ is_save _ Hrs) by now intros [].
    reflexivity.
  - rewrite !filter_app.
    rewrite (filter_none _ is_search _ S2) by (intros []; cbn; congruence).
    rewrite (filter_none _ is_search _ Hus) by now intros [].
    rewrite (filter_none _ is_search _ Hrs) by now intros [].
    reflexivity.
Qed.

(** C10. The handle and the ingestion step both look at the store path, and
    nothing in between changes the directory, so they agree: when the path
    exists the handle is the loaded store and the ingestion step leaves it
    as it is; when it does not the handle is a new empty store and an
    ingestion that completes has put the nine catalog documents in it. *)
Theorem C10_decisions_agree (w : World) :
  (FS.exists_ vectorStorePath (fs w) = true ->
     forall w1, initVectorStore w = (Ok tt, w1) ->
       fs w1 = fs w
       /\ (exists n, FS.get (FS.segments vectorStorePath) (fs w) = Some n
                     /\ FaissStore_load n = Ok (vectorStore w1))
       /\ addItemsToVectorStore w1 = (Ok tt, w1))
  /\ (FS.exists_ vectorStorePath (fs w) = false ->
       exists w1,
         initVectorStore w = (Ok tt, w1)
         /\ fs w1 = fs w
         /\ vectorStore w1 = []
         /\ forall w2, addItemsToVectorStore w1 = (Ok tt, w2) ->
              fs w2 = fs w
              /\ exists vs,
                   List.length vs = 9
                   /\ vectorStore w2 = combine vs (documentsFrom (fs w) catalog 0)
                   /\ map (fun d => id (metadata d)) (documentsFrom (fs w) catalog 0)
                      = [0; 1; 2; 3; 4; 5; 6; 7; 8]%Z).
Proof.
  split; intros E.
  - intros w1. rewrite initVectorStore_eq, E. cbn zeta.
    destruct (FS.get _ (fs w)) as [n|]; [|discriminate].
    destruct (FaissStore_load n) as [st|e] eqn:L; [|discriminate].
    intros [= <-]. cbn [fs vectorStore]. split; [reflexivity|]. split; [eauto|].
    now apply addItems_present.
  - rewrite initVectorStore_eq, E. eexists. split; [reflexivity|].
    cbn [fs vectorStore]. split; [reflexivity|]. split; [reflexivity|].
    intros w2 H. apply ingest_all in H as (Hfs & _ & Hst & _); [|exact E].
    cbn [fs vectorStore app] in *. split; [assumption|].
    destruct Hst as (v0 & v1 & v2 & v3 & v4 & v5 & v6 & v7 & v8 & Hst).
    exists [v0; v1; v2; v3; v4; v5; v6; v7; v8]. now repeat split.
Qed.

(** C9. On an output directory that exists, [clearDirectory] calls unlink
    on the directory's own entries, one by one in listing order, and goes no
    deeper.  It throws at the first entry that is a directory, and the
    query it belongs to throws with it: the files before that entry are
    gone, the entry, its contents and everything after it stay.  The
    directory ends up empty exactly when it held only files. *)
Theorem C9_clear_nonrecursive (w : World) (es : list (string * Node)) :
  FS.get (FS.segments "output") (fs w) = Some (Dir es) ->
  forallb FS.valid_name (map fst es) = true ->
  exists root',
    clearDirectory "output" w
    = (clear_result "output" es,
       {| fs := root'; vectorStore := vectorStore w;
          trace := (trace w
                    ++ map (fun k => EvUnlink (path_join "output" k)) (attempted es))%list |})
    /\ FS.modify (FS.segments "output") (fun _ => Some (Dir (survivors es))) (fs w)
       = Some root'
    /\ FS.readdir "output" root' = Ok (map fst (survivors es))
    /\ (forallb (fun e => FS.is_file (snd e)) es = true ->
        clear_result "output" es = Ok tt /\ FS.readdir "output" root' = Ok [])
    /\ (existsb (fun e => negb (FS.is_file (snd e))) es = true ->
        exists k sub rest,
          survivors es = (k, Dir sub) :: rest
          /\ clear_result "output" es = Err (IOError "EISDIR" (path_join "output" k))
          /\ (forall text n,
                fst (textSimilaritySearch text n w)
                = Err (IOError "EISDIR" (path_join "output" k)))
          /\ (forall p n,
                fst (imageSimilaritySearch p n w)
                = Err (IOError "EISDIR" (path_join "output" k)))).
Proof.
  intros G V. destruct (clearDirectory_run "output" es w G V) as (root' & Hm & Hrun).
  exists root'. split; [exact Hrun|]. split; [exact Hm|].
  assert (Hd : FS.readdir "output" root' = Ok (map fst (survivors es))).
  { unfold FS.readdir. now rewrite (modify_const_get _ _ _ _ Hm). }
  split; [exact Hd|]. split.
  - intros F. apply survivors_files in F. unfold clear_result.
    rewrite Hd, F. now split.
  - intros D. apply survivors_dir in D as (k & sub & rest & S).
    assert (C : clear_result "output" es
                = Err (IOError "EISDIR" (path_join "output" k)))
      by (unfold clear_result; now rewrite S).
    exists k, sub, rest. split; [exact S|]. split; [exact C|]. split.
    + intros text n. now rewrite textSimilaritySearch_eq, Hrun, C.
    + intros p n. now rewrite imageSimilaritySearch_eq, Hrun, C.
Qed.

(** C5. [printResults] goes through the results in the order given and
    stops at the first one that throws.  For each result it prints the
    metadata; for a "text" it then prints the text; for an "image" with a
    path it then decodes the base64 content and writes the bytes to the file
    of the output directory named by what follows the last slash of the
    path, where they are read back as written. *)
Theorem C5_rendering :
  (forall w : World, printResults [] w = (Ok tt, w))
  /\ (forall (item : Document * Score) rest (w : World),
        printResults (item :: rest) w
        = match rendered item w with
          | (Ok _, w1) => printResults rest w1
          | (Err e, w1) => (Err e, w1)
          end)
  /\ (forall (item : Document * Score) (w : World),
        mediaType (metadata (fst item)) = "text" ->
        rendered item w
        = (Ok tt,
           {| fs := fs w; vectorStore := vectorStore w;
              trace := (trace w
                        ++ [EvLog (JSON_stringify (metadata (fst item)));
                            EvLog ("Text: " ++ pageContent (fst item))])%list |}))
  /\ (forall (item : Document * Score) (w : World) p,
        mediaType (metadata (fst item)) = "image" ->
        path (metadata (fst item)) = Some p ->
        let file := "output/" ++ last_segment p in
        let bytes := Base64.decode (pageContent (fst item)) in
        let t := (trace w ++ [EvLog (JSON_stringify (metadata (fst item)));
                              EvWriteFile file bytes])%list in
        FS.no_slash (last_segment p) = true
        /\ (p = last_segment p \/ exists pre, p = pre ++ "/" ++ last_segment p)
        /\ match FS.writeFile file bytes (fs w) with
           | Ok root' =>
               rendered item w
               = (Ok tt, {| fs := root'; vectorStore := vectorStore w; trace := t |})
               /\ FS.readFile file root' = Ok bytes
           | Err e =>
               rendered item w
               = (Err e, {| fs := fs w; vectorStore := vectorStore w; trace := t |})
           end).
Proof.
  split; [reflexivity|]. split; [apply printResults_cons|]. split.
  - intros item w T. unfold rendered. cbn zeta. now rewrite T.
  - intros item w p T P. cbn zeta. split; [|split].
    + unfold last_segment.
      destruct (FSFacts.last_slash p) as [N|(pre & suf & -> & N)].
      * now rewrite FSFacts.split_no_slash.
      * rewrite FSFacts.split_slash_join, (FSFacts.split_no_slash suf N).
        now rewrite last_last.
    + unfold last_segment.
      destruct (FSFacts.last_slash p) as [N|(pre & suf & -> & N)].
      * left. now rewrite FSFacts.split_no_slash.
      * right. exists pre.
        rewrite FSFacts.split_slash_join, (FSFacts.split_no_slash suf N).
        now rewrite last_last.
    + unfold rendered. cbn zeta. rewrite T, P. cbn [String.eqb Ascii.eqb Bool.eqb].
      destruct (FS.writeFile _ _ (fs w)) as [root'|e] eqn:W; [|reflexivity].
      split; [reflexivity|]. now apply FSFacts.read_after_write in W.
Qed.

(** In the calls of a query, every unlink comes before everything else. *)
Lemma query_trace_order (banner : string) (emb : Event) (k : nat) (heading : string)
  (r : Result unit) (new : list Event) :
  is_unlink emb = false ->
  query_trace banner emb k heading r new ->
  exists us rest,
    new = (us ++ rest)%list
    /\ forallb is_unlink us = true
    /\ filter is_unlink rest = [].
Proof.
  intros He (us & rest & -> & Hus & Hrest).
  exists us, rest. split; [reflexivity|]. split; [assumption|].
  destruct Hrest as [(e & _ & ->)|T]; [reflexivity|].
  destruct T as [e|e|e v|r' v rs Hrs]; cbn [filter is_unlink app];
    rewrite ?He; try reflexivity.
  now rewrite (filter_none render_event is_unlink rs Hrs) by now intros [].
Qed.

Lemma attempted_files (es : list (string * Node)) :
  forallb (fun e => FS.is_file (snd e)) es = true -> attempted es = map fst es.
Proof.
  induction es as [|[f [b|sub]] r IH]; cbn; [reflexivity| |discriminate].
  intros F. now rewrite IH.
Qed.

(** [clearDirectory] on an output directory of files: every entry is
    unlinked and the directory is empty. *)
Lemma clearDirectory_files (w : World) (es : list (string * Node)) :
  FS.get (FS.segments "output") (fs w) = Some (Dir es) ->
  forallb FS.valid_name (map fst es) = true ->
  forallb (fun e => FS.is_file (snd e)) es = true ->
  exists root1,
    FS.modify (FS.segments "output") (fun _ => Some (Dir [])) (fs w) = Some root1
    /\ FS.readdir "output" root1 = Ok []
    /\ clearDirectory "output" w = (Ok tt, cleared root1 w es []).
Proof.
  intros G V F.
  destruct (clearDirectory_run "output" es w G V) as (root1 & Hm & Hrun).
  pose proof (survivors_files es F) as Hs. rewrite Hs in Hm.
  exists root1. split; [exact Hm|]. split.
  - unfold FS.readdir. now rewrite (modify_const_get _ _ _ _ Hm).
  - rewrite Hrun. unfold clear_result, cleared, unlink_calls.
    now rewrite Hs, (attempted_files es F), app_nil_r.
Qed.

(** C4. A query, text or image, starts by clearing the output directory.
    When "output" is not a directory the query throws at once and changes
    nothing: nothing is created, no embedding or search call is made.  In
    the calls of any query the unlink calls come first.  On an output
    directory of files the query is: unlink every entry, which leaves the
    directory empty; then, in that state, the banner, (for an image) the
    read, the embedding call, the search, the heading and the rendering.
    So when the results are all texts the query completes and the output
    directory holds no file. *)
Theorem C4_clear_first (w : World) :
  ((forall es, FS.get (FS.segments "output") (fs w) <> Some (Dir es)) ->
     forall text p k,
       (exists e, textSimilaritySearch text k w = (Err e, w))
       /\ (exists e, imageSimilaritySearch p k w = (Err e, w)))
  /\ (forall text k r w',
        textSimilaritySearch text k w = (r, w') ->
        exists us rest,
          trace w' = (trace w ++ us ++ rest)%list
          /\ forallb is_unlink us = true
          /\ filter is_unlink rest = []
          /\ query_trace "Performing text similarity search." (EvEmbedText text) k
               ("Similarity search results for text query: " ++ text) r
               (us ++ rest))
  /\ (forall p k r w',
        imageSimilaritySearch p k w = (r, w') ->
        exists us rest img,
          trace w' = (trace w ++ us ++ rest)%list
          /\ forallb is_unlink us = true
          /\ filter is_unlink rest = []
          /\ query_trace "Performing image similarity search." (EvEmbedImage img) k
               ("Similarity search results for image query: " ++ p) r
               (us ++ rest))
  /\ (forall es,
        FS.get (FS.segments "output") (fs w) = Some (Dir es) ->
        forallb FS.valid_name (map fst es) = true ->
        forallb (fun e => FS.is_file (snd e)) es = true ->
        exists root1,
          FS.modify (FS.segments "output") (fun _ => Some (Dir [])) (fs w)
            = Some root1
          /\ FS.readdir "output" root1 = Ok []
          /\ (forall text k,
                let banner := EvLog "Performing text similarity search." in
                let heading :=
                  EvLog ("Similarity search results for text query: " ++ text) in
                textSimilaritySearch text k w
                = match embedQuery (trace w ++ unlink_calls es ++ [banner]) text with
                  | Err e => (Err e, cleared root1 w es [banner; EvEmbedText text])
                  | Ok v =>
                      match similaritySearchVectorWithScore (vectorStore w) v k with
                      | Err e =>
                          (Err e, cleared root1 w es
                                    [banner; EvEmbedText text; EvSearch v k])
                      | Ok res =>
                          printResults res
                            (cleared root1 w es
                               [banner; EvEmbedText text; EvSearch v k; heading])
                      end
                  end)
          /\ (forall p k,
                let banner := EvLog "Performing image similarity search." in
                let heading :=
                  EvLog ("Similarity search results for image query: " ++ p) in
                imageSimilaritySearch p k w
                = match FS.readFile p root1 with
                  | Err e => (Err e, cleared root1 w es [banner])
                  | Ok img =>
                      match embedImageQuery (trace w ++ unlink_calls es ++ [banner])
                              img with
                      | Err e =>
                          (Err e, cleared root1 w es [banner; EvEmbedImage img])
                      | Ok v =>
                          match similaritySearchVectorWithScore (vectorStore w) v k with
                          | Err e =>
                              (Err e, cleared root1 w es
                                        [banner; EvEmbedImage img; EvSearch v k])
                          | Ok res =>
                              printResults res
                                (cleared root1 w es
                                   [banner; EvEmbedImage img; EvSearch v k; heading])
                          end
                      end
                  end)
          /\ (forall text k v res,
                embedQuery
                  (trace w ++ unlink_calls es
                   ++ [EvLog "Performing text similarity search."]) text = Ok v ->
                similaritySearchVectorWithScore (vectorStore w) v k = Ok res ->
                forallb is_text res = true ->
                exists w',
                  textSimilaritySearch text k w = (Ok tt, w')
                  /\ FS.readdir "output" (fs w') = Ok [])
          /\ (forall p k img v res,
                FS.readFile p root1 = Ok img ->
                embedImageQuery
                  (trace w ++ unlink_calls es
                   ++ [EvLog "Performing image similarity search."]) img = Ok v ->
                similaritySearchVectorWithScore (vectorStore w) v k = Ok res ->
                forallb is_text res = true ->
                exists w',
                  imageSimilaritySearch p k w = (Ok tt, w')
                  /\ FS.readdir "output" (fs w') = Ok [])).
Proof.
  split; [|split; [|split]].
  - intros G text p k. destruct (clearDirectory_missing "output" w G) as (e & C).
    split; exists e.
    + now rewrite textSimilaritySearch_eq, C.
    + now rewrite imageSimilaritySearch_eq, C.
  - intros text k r w' H.
    apply textSimilaritySearch_trace in H as (_ & new & Htr & Hq).
    destruct (query_trace_order _ (EvEmbedText text) _ _ _ _ eq_refl Hq)
      as (us & rest & -> & Hus & Hrest).
    exists us, rest. now repeat split.
  - intros p k r w' H.
    apply imageSimilaritySearch_trace in H as (_ & new & img & Htr & Hq).
    destruct (query_trace_order _ (EvEmbedImage img) _ _ _ _ eq_refl Hq)
      as (us & rest & -> & Hus & Hrest).
    exists us, rest, img. now repeat split.
  - intros es G V F.
    destruct (clearDirectory_files w es G V F) as (root1 & Hm & Hd & Hrun).
    assert (Ht : forall text k,
               let banner := EvLog "Performing text similarity search." in
               let heading :=
                 EvLog ("Similarity search results for text query: " ++ text) in
               textSimilaritySearch text k w
               = match embedQuery (trace w ++ unlink_calls es ++ [banner]) text with
                 | Err e => (Err e, cleared root1 w es [banner; EvEmbedText text])
                 | Ok v =>
                     match similaritySearchVectorWithScore (vectorStore w) v k with
                     | Err e =>
                         (Err e, cleared root1 w es
                                   [banner; EvEmbedText text; EvSearch v k])
                     | Ok res =>
                         printResults res
                           (cleared root1 w es
                              [banner; EvEmbedText text; EvSearch v k; heading])
                     end
                 end).
    { intros text k. cbn zeta. rewrite textSimilaritySearch_eq, Hrun.
      unfold cleared. cbn zeta. cbn [fs vectorStore trace].
      rewrite !app_nil_r, <- !app_assoc.
      destruct (embedQuery _ text) as [v|e]; [|reflexivity].
      rewrite search_report_eq. cbn [fs vectorStore trace].
      rewrite <- !app_assoc. reflexivity. }
    assert (Hi : forall p k,
               let banner := EvLog "Performing image similarity search." in
               let heading :=
                 EvLog ("Similarity search results for image query: " ++ p) in
               imageSimilaritySearch p k w
               = match FS.readFile p root1 with
                 | Err e => (Err e, cleared root1 w es [banner])
                 | Ok img =>
                     match embedImageQuery (trace w ++ unlink_calls es ++ [banner])
                             img with
                     | Err e =>
                         (Err e, cleared root1 w es [banner; EvEmbedImage img])
                     | Ok v =>
                         match similaritySearchVectorWithScore (vectorStore w) v k with
                         | Err e =>
                             (Err e, cleared root1 w es
                                       [banner; EvEmbedImage img; EvSearch v k])
                         | Ok res =>
                             printResults res
                               (cleared root1 w es
                                  [banner; EvEmbedImage img; EvSearch v k; heading])
                         end
                     end
                 end).
    { intros p k. cbn zeta. rewrite imageSimilaritySearch_eq, Hrun.
      unfold cleared. cbn zeta. cbn [fs vectorStore trace].
      rewrite !app_nil_r.
      destruct (FS.readFile p root1) as [img|e]; [|now rewrite <- !app_assoc].
      rewrite <- !app_assoc.
      destruct (embedImageQuery _ img) as [v|e]; [|reflexivity].
      rewrite search_report_eq. cbn [fs vectorStore trace].
      rewrite <- !app_assoc. reflexivity. }
    exists root1. split; [exact Hm|]. split; [exact Hd|].
    split; [exact Ht|]. split; [exact Hi|]. split.
    + intros text k v res Em Se T. rewrite Ht. cbn zeta. rewrite Em, Se.
      destruct (printResults_texts res T
                  (cleared root1 w es
                     [EvLog "Performing text similarity search."; EvEmbedText text;
                      EvSearch v k;
                      EvLog ("Similarity search results for text query: " ++ text)]))
        as (new & -> & _).
      eexists. split; [reflexivity|]. exact Hd.
    + intros p k img v res Re Em Se T. rewrite Hi. cbn zeta. rewrite Re, Em, Se.
      destruct (printResults_texts res T
                  (cleared root1 w es
                     [EvLog "Performing image similarity search."; EvEmbedImage img;
                      EvSearch v k;
                      EvLog ("Similarity search results for image query: " ++ p)]))
        as (new & -> & _).
      eexists. split; [reflexivity|]. exact Hd.
Qed.

(** The document stored for the j-th image. *)
Lemma stored_image (root : Node) (j : nat) (p : string) (v : Vector) (d : Document)
  (vs : list Vector) :
  nth_error images j = Some p ->
  nth_error (combine vs (documentsFrom root catalog 0)) j = Some (v, d) ->
  d = {| pageContent := Base64.encode (bytes_at root p);
         metadata := {| id := Z.of_nat j; mediaType := "image"; path := Some p |} |}.
Proof.
  intros Hp H. apply nth_error_combine_inv in H as [_ H].
  do 6 (destruct j as [|j]; [injection Hp as <-; now injection H as <-|]).
  destruct j; discriminate.
Qed.

(** The images of the catalog lie in "images", under names a directory can
    hold. *)
Lemma image_paths (j : nat) (p : string) :
  nth_error images j = Some p ->
  FS.valid_name (last_segment p) = true
  /\ exists name, FS.segments p = ["images"; name].
Proof.
  intros Hp.
  do 6 (destruct j as [|j]; [injection Hp as <-; split; [reflexivity|eexists; reflexivity]|]).
  destruct j; discriminate.
Qed.

(** C8.  As stated the round trip fails: it needs more of the embedding
    service and of the store than the script can give (see
    [C8_round_trip_counterexample]).  Amended.  Let X be a non-empty image
    of the catalog, stored by a completed ingestion into a new store, with
    an embedding service that maps X's bytes to one vector whenever asked,
    and a store whose answer to a K = 1 search with that vector is an entry
    stored under that vector, no entry of different content sharing it.
    Then the document the search returns decodes to X's bytes, and an image
    query with X on an output directory that holds only files completes and
    leaves those bytes in the output file named after the document's
    path. *)
Theorem C8_image_round_trip (w0 w1 : World) (i : nat) (p : string) (b : Bytes)
  (qv : Vector) (d : Document) (s : Score) :
  FS.exists_ vectorStorePath (fs w0) = false ->
  vectorStore w0 = [] ->
  addItemsToVectorStore w0 = (Ok tt, w1) ->
  nth_error images i = Some p ->
  FS.readFile p (fs w0) = Ok b ->
  b <> [] ->
  (forall h, embedImageQuery h b = Ok qv) ->
  similaritySearchVectorWithScore (vectorStore w1) qv 1 = Ok [(d, s)] ->
  In (qv, d) (vectorStore w1) ->
  (forall j d', nth_error (vectorStore w1) j = Some (qv, d') ->
     exists p', nth_error images j = Some p' /\ bytes_at (fs w0) p' = b) ->
  Base64.decode (pageContent d) = b
  /\ (forall es,
        FS.get (FS.segments "output") (fs w0) = Some (Dir es) ->
        forallb FS.valid_name (map fst es) = true ->
        forallb (fun e => FS.is_file (snd e)) es = true ->
        exists p' w2,
          path (metadata d) = Some p'
          /\ imageSimilaritySearch p 1 w1 = (Ok tt, w2)
          /\ FS.readFile ("output/" ++ last_segment p') (fs w2) = Ok b).
Proof.
  intros E St0 Hing Hp Hb Hne Hemb Hsearch Hin Hsep.
  destruct (ingest_all w0 w1 E Hing)
    as (Hfs & _ & (v0 & v1 & v2 & v3 & v4 & v5 & v6 & v7 & v8 & Hst) & _).
  rewrite St0 in Hst. cbn [app] in Hst.
  (* the returned document is the one stored for a copy of X *)
  apply In_nth_error in Hin as (j & Hj).
  destruct (Hsep j d Hj) as (p' & Hp' & Hb').
  rewrite Hst in Hj. pose proof (stored_image _ _ _ _ _ _ Hp' Hj) as Hd.
  rewrite Hb' in Hd. subst d. cbn [pageContent metadata mediaType path].
  assert (Hdec : Base64.decode (Base64.encode b) = b)
    by apply Base64Facts.decode_encode.
  split; [exact Hdec|].
  intros es G V F. exists p'.
  (* the query: clearing *)
  rewrite <- Hfs in G.
  destruct (clearDirectory_run "output" es w1 G V) as (root' & Hm & Hrun).
  pose proof (survivors_files es F) as Hs. rewrite Hs in Hm.
  pose proof (modify_const_get _ _ _ _ Hm) as Hout.
  (* X is still where it was *)
  destruct (image_paths i p Hp) as (_ & name & Sp).
  assert (Hread : FS.readFile p root' = Ok b).
  { unfold FS.readFile in *. rewrite Sp in *.
    change (FS.segments "output") with ["output"] in Hm.
    rewrite (FSFacts.get_modify_other _ _ _ _ _ _ _ Hm) by discriminate.
    now rewrite Hfs. }
  (* the write *)
  destruct (image_paths j p' Hp') as (Vn & _).
  destruct (FSFacts.writeFile_ok "output" (last_segment p') b root' [] Hout Vn)
    as (root2 & Hw); [discriminate|].
  eexists.
  split; [reflexivity|]. split.
  - rewrite imageSimilaritySearch_eq, Hrun. unfold clear_result. rewrite Hs.
    cbn zeta. cbn [fs vectorStore trace]. rewrite Hread, Hemb.
    rewrite search_report_eq. cbn [fs vectorStore trace]. rewrite Hsearch.
    rewrite printResults_cons. unfold rendered. cbn zeta. cbn [fst fs vectorStore trace].
    cbn [pageContent metadata mediaType path]. rewrite Hdec.
    cbn [String.eqb Ascii.eqb Bool.eqb].
    change ("output/" ++ last_segment p') with ("output" ++ "/" ++ last_segment p').
    rewrite Hw. reflexivity.
  - cbn [fs]. now apply FSFacts.read_after_write in Hw.
Qed.

End Specification.

Lemma C1_sequential_ids_witness :
  FS.exists_ vectorStorePath (fs (Demo.boot Demo.fresh)) = false
  /\ Demo.ingest (Demo.boot Demo.fresh)
     = (Ok tt, snd (Demo.ingest (Demo.boot Demo.fresh)))
  /\ exists added,
       vectorStore (snd (Demo.ingest (Demo.boot Demo.fresh)))
       = (vectorStore (Demo.boot Demo.fresh) ++ added)%list
       /\ map (fun e => id (metadata (snd e))) added = [0; 1; 2; 3; 4; 5; 6; 7; 8]%Z.
Proof.
  assert (E : FS.exists_ vectorStorePath (fs (Demo.boot Demo.fresh)) = false)
    by reflexivity.
  assert (H : Demo.ingest (Demo.boot Demo.fresh)
              = (Ok tt, snd (Demo.ingest (Demo.boot Demo.fresh))))
    by (vm_compute; reflexivity).
  split; [exact E|]. split; [exact H|].
  destruct (C1_sequential_ids _ _ _ E H) as (k & added & _ & Hk & Hst & Hids & _).
  exists added. split; [assumption|]. now rewrite (Hk eq_refl) in Hids.
Defined.

Lemma C7_abort_no_rollback_witness :
  FS.exists_ vectorStorePath (fs (Demo.boot Demo.no_parrot)) = false
  /\ Demo.ingest (Demo.boot Demo.no_parrot)
     = (Err (IOError "ENOENT" "images/parrot.jpg"),
        snd (Demo.ingest (Demo.boot Demo.no_parrot)))
  /\ exists k it vs new,
       nth_error catalog k = Some it
       /\ List.length vs = k
       /\ vectorStore (snd (Demo.ingest (Demo.boot Demo.no_parrot)))
          = (vectorStore (Demo.boot Demo.no_parrot)
             ++ combine vs (firstn k (documentsFrom (fs (Demo.boot Demo.no_parrot))
                                        catalog 0)))%list
       /\ trace (snd (Demo.ingest (Demo.boot Demo.no_parrot)))
          = (trace (Demo.boot Demo.no_parrot) ++ new)%list
       /\ (filter is_embed new
           = firstn k (map (embedCallOf (fs (Demo.boot Demo.no_parrot))) catalog)
           \/ filter is_embed new
              = firstn (S k) (map (embedCallOf (fs (Demo.boot Demo.no_parrot))) catalog)).
Proof.
  assert (E : FS.exists_ vectorStorePath (fs (Demo.boot Demo.no_parrot)) = false)
    by reflexivity.
  assert (H : Demo.ingest (Demo.boot Demo.no_parrot)
              = (Err (IOError "ENOENT" "images/parrot.jpg"),
                 snd (Demo.ingest (Demo.boot Demo.no_parrot))))
    by (vm_compute; reflexivity).
  split; [exact E|]. split; [exact H|].
  exact (proj2 (proj2 (proj2 (proj2 (C7_abort_no_rollback _ E)))) _ _ H).
Defined.

Lemma C2_idempotent_ingestion_witness :
  (exists w0, Demo.run w0 = (Ok tt, snd (Demo.run (Demo.boot Demo.fresh))))
  /\ FS.exists_ vectorStorePath (fs (snd (Demo.run (Demo.boot Demo.fresh)))) = true
  /\ Demo.ingest (snd (Demo.run (Demo.boot Demo.fresh)))
     = (Ok tt, snd (Demo.run (Demo.boot Demo.fresh))).
Proof.
  assert (H : exists w0, Demo.run w0 = (Ok tt, snd (Demo.run (Demo.boot Demo.fresh)))).
  { exists (Demo.boot Demo.fresh). vm_compute. reflexivity. }
  split; [exact H|].
  destruct (C2_idempotent_ingestion (R := Demo.runtime) _ (or_intror H))
    as (E & I & _).
  split; [exact E|exact I].
Defined.

Lemma C6_run_order_witness :
  Demo.run (Demo.boot Demo.fresh) = (Ok tt, snd (Demo.run (Demo.boot Demo.fresh)))
  /\ List.length (filter is_save (trace (snd (Demo.run (Demo.boot Demo.fresh))))) = 1
  /\ List.length (filter is_search (trace (snd (Demo.run (Demo.boot Demo.fresh))))) = 1.
Proof.
  assert (H : Demo.run (Demo.boot Demo.fresh)
              = (Ok tt, snd (Demo.run (Demo.boot Demo.fresh))))
    by (vm_compute; reflexivity).
  split; [exact H|].
  destruct (C6_run_order (R := Demo.runtime) _ _ H)
    as (w1 & w2 & w3 & _ & _ & _ & _ & _ & Hsave & Hsearch).
  split; [exact Hsave|exact Hsearch].
Defined.

Lemma C10_decisions_agree_witness :
  (FS.exists_ vectorStorePath (fs (Demo.boot Demo.seeded)) = true
   /\ Demo.init (Demo.boot Demo.seeded)
      = (Ok tt, snd (Demo.init (Demo.boot Demo.seeded)))
   /\ Demo.ingest (snd (Demo.init (Demo.boot Demo.seeded)))
      = (Ok tt, snd (Demo.init (Demo.boot Demo.seeded))))
  /\ (FS.exists_ vectorStorePath (fs (Demo.boot Demo.fresh)) = false
      /\ exists w1,
           Demo.init (Demo.boot Demo.fresh) = (Ok tt, w1)
           /\ vectorStore w1 = []).
Proof.
  assert (E1 : FS.exists_ vectorStorePath (fs (Demo.boot Demo.seeded)) = true)
    by reflexivity.
  assert (H1 : Demo.init (Demo.boot Demo.seeded)
               = (Ok tt, snd (Demo.init (Demo.boot Demo.seeded))))
    by (vm_compute; reflexivity).
  assert (E2 : FS.exists_ vectorStorePath (fs (Demo.boot Demo.fresh)) = false)
    by reflexivity.
  split.
  - split; [exact E1|]. split; [exact H1|].
    exact (proj2 (proj2 (proj1 (C10_decisions_agree (R := Demo.runtime) _) E1 _ H1))).
  - split; [exact E2|].
    destruct (proj2 (C10_decisions_agree (R := Demo.runtime) _) E2)
      as (w1 & Hi & _ & Hst & _).
    exists w1. split; [exact Hi|exact Hst].
Defined.

Lemma C9_clear_nonrecursive_witness :
  FS.get (FS.segments "output") (fs (Demo.boot Demo.nested_output))
  = Some (Dir [ ("a.png", File [x01]);
                ("keep", Dir [ ("b.png", File [x02]) ]);
                ("c.png", File [x03]) ])
  /\ exists root',
       clearDirectory "output" (Demo.boot Demo.nested_output)
       = (Err (IOError "EISDIR" "output/keep"),
          {| fs := root'; vectorStore := [];
             trace := [EvUnlink "output/a.png"; EvUnlink "output/keep"] |})
       /\ FS.readdir "output" root' = Ok ["keep"; "c.png"].
Proof.
  assert (G : FS.get (FS.segments "output") (fs (Demo.boot Demo.nested_output))
              = Some (Dir [ ("a.png", File [x01]);
                            ("keep", Dir [ ("b.png", File [x02]) ]);
                            ("c.png", File [x03]) ]))
    by reflexivity.
  split; [exact G|].
  destruct (C9_clear_nonrecursive (R := Demo.runtime) _ _ G eq_refl)
    as (root' & Hrun & _ & Hd & _).
  exists root'. split; [exact Hrun|exact Hd].
Defined.

Lemma C5_rendering_witness :
  mediaType (metadata (fst Demo.text_hit)) = "text"
  /\ mediaType (metadata (fst Demo.image_hit)) = "image"
  /\ path (metadata (fst Demo.image_hit)) = Some "images/cat.jpg"
  /\ @rendered _ _ Demo.runtime Demo.text_hit (Demo.boot Demo.fresh)
     = (Ok tt,
        {| fs := Demo.fresh; vectorStore := [];
           trace := [EvLog "text"; EvLog "Text: Dogs are domesticated mammals."] |})
  /\ FS.no_slash (last_segment "images/cat.jpg") = true.
Proof.
  assert (T : mediaType (metadata (fst Demo.text_hit)) = "text") by reflexivity.
  assert (I : mediaType (metadata (fst Demo.image_hit)) = "image") by reflexivity.
  assert (P : path (metadata (fst Demo.image_hit)) = Some "images/cat.jpg")
    by reflexivity.
  split; [exact T|]. split; [exact I|]. split; [exact P|].
  destruct (@C5_rendering _ _ Demo.runtime) as (_ & _ & Ht & Hi).
  split.
  - exact (Ht Demo.text_hit (Demo.boot Demo.fresh) T).
  - exact (proj1 (Hi Demo.image_hit (Demo.boot Demo.fresh) _ I P)).
Defined.

Lemma C4_clear_first_witness :
  (forall es, FS.get (FS.segments "output") (fs (Demo.boot Demo.bare)) <> Some (Dir es))
  /\ (exists e, Demo.text_query "Mammals" 1 (Demo.boot Demo.bare)
                = (Err e, Demo.boot Demo.bare))
  /\ (exists e, Demo.image_query "images/cat.jpg" 1 (Demo.boot Demo.bare)
                = (Err e, Demo.boot Demo.bare))
  /\ FS.get (FS.segments "output") (fs (snd (Demo.init (Demo.boot Demo.seeded))))
     = Some (Dir [ ("old.jpeg", File [xff]) ])
  /\ (exists w',
        Demo.text_query "Mammals" 1 (snd (Demo.init (Demo.boot Demo.seeded)))
        = (Ok tt, w')
        /\ FS.readdir "output" (fs w') = Ok [])
  /\ FS.get (FS.segments "output") (fs (snd (Demo.init (Demo.boot Demo.texts_only))))
     = Some (Dir [ ("old.jpeg", File [xff]) ])
  /\ (exists w',
        Demo.image_query "images/cat.jpg" 1
          (snd (Demo.init (Demo.boot Demo.texts_only)))
        = (Ok tt, w')
        /\ FS.readdir "output" (fs w') = Ok []).
Proof.
  assert (G0 : forall es,
             FS.get (FS.segments "output") (fs (Demo.boot Demo.bare)) <> Some (Dir es))
    by (intros es; discriminate).
  assert (G1 : FS.get (FS.segments "output")
                 (fs (snd (Demo.init (Demo.boot Demo.seeded))))
               = Some (Dir [ ("old.jpeg", File [xff]) ]))
    by reflexivity.
  assert (G2 : FS.get (FS.segments "output")
                 (fs (snd (Demo.init (Demo.boot Demo.texts_only))))
               = Some (Dir [ ("old.jpeg", File [xff]) ]))
    by reflexivity.
  split; [exact G0|]. split.
  { exact (proj1 (proj1 (C4_clear_first (R := Demo.runtime) _) G0
                    "Mammals" "images/cat.jpg" 1)). }
  split.
  { exact (proj2 (proj1 (C4_clear_first (R := Demo.runtime) _) G0
                    "Mammals" "images/cat.jpg" 1)). }
  split; [exact G1|]. split.
  { destruct (proj2 (proj2 (proj2 (C4_clear_first (R := Demo.runtime) _)))
                _ G1 eq_refl eq_refl)
      as (root1 & _ & _ & _ & _ & Htxt & _).
    eapply Htxt; reflexivity. }
  split; [exact G2|].
  destruct (proj2 (proj2 (proj2 (C4_clear_first (R := Demo.runtime) _)))
              _ G2 eq_refl eq_refl)
    as (root1 & Hm & _ & _ & _ & _ & Himg).
  vm_compute in Hm. injection Hm as Hm. subst root1.
  eapply Himg; reflexivity.
Defined.

Lemma C8_image_round_trip_witness :
  Demo.ingest (Demo.boot Demo.fresh)
  = (Ok tt, snd (Demo.ingest (Demo.boot Demo.fresh)))
  /\ FS.readFile "images/cat.jpg" Demo.fresh = Ok [x05; x06]
  /\ Base64.decode (pageContent (fst Demo.image_hit)) = [x05; x06]
  /\ exists p' w2,
       path (metadata (fst Demo.image_hit)) = Some p'
       /\ Demo.image_query "images/cat.jpg" 1 (snd (Demo.ingest (Demo.boot Demo.fresh)))
          = (Ok tt, w2)
       /\ FS.readFile ("output/" ++ last_segment p') (fs w2) = Ok [x05; x06].
Proof.
  assert (H : Demo.ingest (Demo.boot Demo.fresh)
              = (Ok tt, snd (Demo.ingest (Demo.boot Demo.fresh))))
    by (vm_compute; reflexivity).
  assert (Hb : FS.readFile "images/cat.jpg" (fs (Demo.boot Demo.fresh))
               = Ok [x05; x06])
    by reflexivity.
  split; [exact H|]. split; [exact Hb|].
  assert (T : Base64.decode (pageContent (fst Demo.image_hit)) = [x05; x06]
              /\ (forall es,
                    FS.get (FS.segments "output") (fs (Demo.boot Demo.fresh))
                    = Some (Dir es) ->
                    forallb FS.valid_name (map fst es) = true ->
                    forallb (fun e => FS.is_file (snd e)) es = true ->
                    exists p' w2,
                      path (metadata (fst Demo.image_hit)) = Some p'
                      /\ Demo.image_query "images/cat.jpg" 1
                           (snd (Demo.ingest (Demo.boot Demo.fresh))) = (Ok tt, w2)
                      /\ FS.readFile ("output/" ++ last_segment p') (fs w2)
                         = Ok [x05; x06])).
  { refine (C8_image_round_trip (R := Demo.runtime)
              (Demo.boot Demo.fresh) (snd (Demo.ingest (Demo.boot Demo.fresh)))
              1 "images/cat.jpg" [x05; x06] [0; 5; 6]%N
              (fst Demo.image_hit) (snd Demo.image_hit)
              eq_refl eq_refl H eq_refl Hb _ _ _ _ _).
    - discriminate.
    - intros h. reflexivity.
    - vm_compute. reflexivity.
    - vm_compute. right. left. reflexivity.
    - intros j d' Hj.
      do 9 (destruct j as [|j];
            [vm_compute in Hj; first [discriminate Hj
                                     | exists "images/cat.jpg"; split; reflexivity]|]).
      vm_compute in Hj. destruct j; discriminate Hj. }
  split; [exact (proj1 T)|].
  exact (proj2 T [ ("old.jpeg", File [xff]) ] eq_refl eq_refl eq_refl).
Defined.

(** C8, as stated, fails.  With an embedding service that gives every image
    the same vector, the ingestion completes, the picture of the cat is
    stored, and the K = 1 search with that same picture answers with the
    document of the dog: what it decodes to is not the cat's bytes, and the
    query writes the dog's picture. *)
Lemma C8_round_trip_counterexample :
  Demo.colliding_ingest (Demo.boot Demo.fresh)
  = (Ok tt, snd (Demo.colliding_ingest (Demo.boot Demo.fresh)))
  /\ FS.readFile "images/cat.jpg" Demo.fresh = Ok [x05; x06]
  /\ nth_error (vectorStore (snd (Demo.colliding_ingest (Demo.boot Demo.fresh)))) 1
     = Some ([0%N],
             {| pageContent := Base64.encode [x05; x06];
                metadata := {| id := 1; mediaType := "image";
                               path := Some "images/cat.jpg" |} |})
  /\ @embedImageQuery _ _ Demo.colliding [] [x05; x06] = Ok [0%N]
  /\ exists d s w2,
       @similaritySearchVectorWithScore _ _ Demo.colliding
         (vectorStore (snd (Demo.colliding_ingest (Demo.boot Demo.fresh)))) [0%N] 1
       = Ok [(d, s)]
       /\ path (metadata d) = Some "images/dog.jpeg"
       /\ Base64.decode (pageContent d) = [x01; x02; x03; x04]
       /\ Base64.decode (pageContent d) <> [x05; x06]
       /\ Demo.colliding_image_query "images/cat.jpg" 1
            (snd (Demo.colliding_ingest (Demo.boot Demo.fresh))) = (Ok tt, w2)
       /\ FS.readdir "output" (fs w2) = Ok ["dog.jpeg"].
Proof.
  split; [vm_compute; reflexivity|]. split; [reflexivity|].
  split; [vm_compute; reflexivity|]. split; [reflexivity|].
  eexists. eexists. eexists.
  split; [vm_compute; reflexivity|]. split; [reflexivity|].
  split; [vm_compute; reflexivity|]. split; [vm_compute; discriminate|].
  split; [vm_compute; reflexivity|]. vm_compute. reflexivity.
Qed.

(** * Further properties of the script *)

Section Rendering.

Context {Vector Score : Type} {R : @Runtime Vector Score}.
Local Abbreviation World := (@World Vector).
Local Abbreviation M := (@M Vector).
Local Abbreviation Event := (@Event Vector).

Lemma printResults_app (pre post : list (Document * Score)) :
  forall w : World,
  printResults (pre ++ post) w
  = match printResults pre w with
    | (Ok _, w1) => printResults post w1
    | (Err e, w1) => (Err e, w1)
    end.
Proof.
  induction pre as [|item pre IH]; intros w; [reflexivity|].
  cbn [app]. rewrite !printResults_cons.
  destruct (rendered item w) as [[u|e] w1]; [apply IH|reflexivity].
Qed.

Lemma printResults_no_image (results : list (Document * Score)) :
  forallb (fun item => negb (is_image item)) results = true ->
  forall w : World,
  printResults results w
  = (Ok tt, {| fs := fs w; vectorStore := vectorStore w;
               trace := (trace w ++ flat_map lines_of results)%list |}).
Proof.
  induction results as [|item rest IH]; intros N w.
  - cbn [flat_map]. now rewrite app_nil_r.
  - cbn [forallb] in N. apply andb_prop in N as [Ni Nr].
    apply negb_true_iff in Ni. unfold is_image in Ni.
    rewrite printResults_cons. unfold rendered. cbn zeta. rewrite Ni.
    cbn [flat_map]. unfold lines_of at 1. unfold is_text.
    destruct (mediaType (metadata (fst item)) =? "text");
      rewrite (IH Nr); cbn [fs vectorStore trace];
      now rewrite <- !app_assoc.
Qed.

(** X1. Results without an image among them, whatever their media types,
    are all printed: [printResults] completes, writes no file and leaves
    the directory and the store as they are; it prints the metadata of each
    result, followed by the text for a text. *)
Theorem X1_render_without_images (results : list (Document * Score)) (w : World) :
  forallb (fun item => negb (is_image item)) results = true ->
  printResults results w
  = (Ok tt, {| fs := fs w; vectorStore := vectorStore w;
               trace := (trace w ++ flat_map lines_of results)%list |})
  /\ forallb is_log (flat_map lines_of results) = true
  /\ List.length (flat_map lines_of results)
     = List.length results + List.length (filter is_text results).
Proof.
  intros N. split; [now apply printResults_no_image|]. clear N. split.
  - induction results as [|item rest IH]; [reflexivity|].
    cbn [flat_map]. rewrite forallb_app, IH. unfold lines_of.
    now destruct (is_text item).
  - induction results as [|item rest IH]; [reflexivity|].
    cbn [flat_map filter]. rewrite length_app, IH. unfold lines_of.
    destruct (is_text item); cbn [List.length]; lia.
Qed.

(** X2. An image result without a path makes [printResults] throw a
    TypeError right after printing that result's metadata: with no image
    before it, the results before it are printed in full, no result after
    it is printed, and nothing is written. *)
Theorem X2_render_image_without_path (pre post : list (Document * Score))
  (item : Document * Score) (w : World) :
  forallb (fun it => negb (is_image it)) pre = true ->
  mediaType (metadata (fst item)) = "image" ->
  path (metadata (fst item)) = None ->
  printResults (pre ++ item :: post) w
  = (Err TypeError,
     {| fs := fs w; vectorStore := vectorStore w;
        trace := (trace w ++ flat_map lines_of pre
                  ++ [EvLog (JSON_stringify (metadata (fst item)))])%list |}).
Proof.
  intros N I P. rewrite printResults_app, (printResults_no_image pre N).
  rewrite printResults_cons. unfold rendered. cbn zeta. rewrite I, P.
  cbn [String.eqb Ascii.eqb Bool.eqb fs vectorStore trace].
  now rewrite <- app_assoc.
Qed.

End Rendering.

Lemma X1_render_without_images_witness :
  forallb (fun item => negb (is_image item)) [Demo.text_hit; Demo.audio_hit] = true
  /\ Demo.print [Demo.text_hit; Demo.audio_hit] (Demo.boot Demo.fresh)
     = (Ok tt,
        {| fs := Demo.fresh; vectorStore := [];
           trace := [EvLog "text"; EvLog "Text: Dogs are domesticated mammals.";
                     EvLog "audio"] |}).
Proof.
  assert (N : forallb (fun item => negb (is_image item))
                [Demo.text_hit; Demo.audio_hit] = true) by reflexivity.
  split; [exact N|].
  exact (proj1 (X1_render_without_images (R := Demo.runtime) _ (Demo.boot Demo.fresh) N)).
Defined.

Lemma X2_render_image_without_path_witness :
  forallb (fun it => negb (is_image it)) [Demo.text_hit] = true
  /\ mediaType (metadata (fst Demo.pathless_hit)) = "image"
  /\ path (metadata (fst Demo.pathless_hit)) = None
  /\ Demo.print [Demo.text_hit; Demo.pathless_hit; Demo.image_hit] (Demo.boot Demo.fresh)
     = (Err TypeError,
        {| fs := Demo.fresh; vectorStore := [];
           trace := [EvLog "text"; EvLog "Text: Dogs are domesticated mammals.";
                     EvLog "image"] |}).
Proof.
  assert (N : forallb (fun it => negb (is_image it)) [Demo.text_hit] = true)
    by reflexivity.
  assert (I : mediaType (metadata (fst Demo.pathless_hit)) = "image") by reflexivity.
  assert (P : path (metadata (fst Demo.pathless_hit)) = None) by reflexivity.
  split; [exact N|]. split; [exact I|]. split; [exact P|].
  exact (X2_render_image_without_path (R := Demo.runtime)
           [Demo.text_hit] [Demo.image_hit] Demo.pathless_hit
           (Demo.boot Demo.fresh) N I P).
Defined.

Section OutputDirectory.

Context {Vector Score : Type} {R : @Runtime Vector Score}.
Local Abbreviation World := (@World Vector).
Local Abbreviation M := (@M Vector).
Local Abbreviation Event := (@Event Vector).

(** Only the empty byte list encodes to the empty string. *)
Lemma encode_nonempty (bs : Bytes) : bs <> [] -> Base64.encode bs <> EmptyString.
Proof.
  destruct bs as [|a [|b [|c rest]]]; [congruence| | |]; intros _; discriminate.
Qed.

(** Writing a file into a directory: the directory afterwards. *)
Lemma writeFile_dir (dir name : string) (data : Bytes) (root : Node)
  (es : list (string * Node)) :
  FS.get (FS.segments dir) root = Some (Dir es) ->
  FS.valid_name name = true ->
  (forall sub, FS.find_entry name es <> Some (Dir sub)) ->
  exists root',
    FS.writeFile (dir ++ "/" ++ name) data root = Ok root'
    /\ FS.get (FS.segments dir) root'
       = Some (Dir (FS.put_entry name (File data) es)).
Proof.
  intros G V N. unfold FS.writeFile.
  rewrite FSFacts.segments_join, FSFacts.parent_and_name_snoc by assumption.
  match goal with
  | |- context [FS.modify _ ?f root] =>
      destruct (FSFacts.modify_get (FS.segments dir) f root (Dir es)
                  (Dir (FS.put_entry name (File data) es)) G) as (root' & -> & G')
  end.
  - destruct (FS.find_entry name es) as [[b|sub]|] eqn:E; try reflexivity.
    now destruct (N sub).
  - eauto.
Qed.

Lemma last_segment_no_slash (p : string) : FS.no_slash (last_segment p) = true.
Proof.
  unfold last_segment.
  destruct (FSFacts.last_slash p) as [N|(pre & suf & -> & N)].
  - now rewrite FSFacts.split_no_slash.
  - rewrite FSFacts.split_slash_join, (FSFacts.split_no_slash suf N).
    now rewrite last_last.
Qed.

(** Where a write below "output" can land. *)
Lemma output_target (name : string) :
  FS.no_slash name = true ->
  FS.segments ("output/" ++ name) = []
  \/ FS.segments ("output/" ++ name) = ["output"]
  \/ FS.segments ("output/" ++ name) = ["output"; name].
Proof.
  intros N. unfold FS.segments.
  change ("output/" ++ name) with ("output" ++ String "/" name).
  rewrite FSFacts.split_slash_join, (FSFacts.split_no_slash name N).
  cbn. destruct (name =? EmptyString); [auto|].
  destruct (name =? "."); [auto|]. destruct (name =? ".."); auto.
Qed.

Lemma writeFile_outside (name : string) (data : Bytes) (root root' : Node)
  (t : string) (q : list string) :
  FS.no_slash name = true ->
  FS.writeFile ("output/" ++ name) data root = Ok root' ->
  t <> "output" ->
  FS.get (t :: q) root' = FS.get (t :: q) root.
Proof.
  intros N W D. unfold FS.writeFile in W.
  destruct (output_target name N) as [S|[S|S]]; rewrite S in W;
    cbn [FS.parent_and_name rev app] in W.
  - discriminate.
  - destruct (FS.modify [] _ root) as [r1|] eqn:M.
    + injection W as <-. cbn [FS.modify] in M.
      destruct root as [b|es]; [discriminate|].
      destruct (FS.find_entry "output" es) as [[b|sub]|]; try discriminate;
        injection M as <-; cbn [FS.get];
        rewrite FSFacts.find_put_other by congruence; reflexivity.
    + destruct (FS.get ["output"] root) as [[b|sub]|]; discriminate.
  - destruct (FS.modify ["output"] _ root) as [r1|] eqn:M.
    + injection W as <-.
      exact (FSFacts.get_modify_other _ _ _ _ _ _ _ M (not_eq_sym D)).
    + destruct (FS.get ["output"; name] root) as [[b|sub]|]; discriminate.
Qed.

Lemma rendered_outside (item : Document * Score) (w : World)
  (t : string) (q : list string) :
  t <> "output" ->
  FS.get (t :: q) (fs (snd (rendered item w))) = FS.get (t :: q) (fs w).
Proof.
  intros D. unfold rendered. cbn zeta.
  destruct (mediaType (metadata (fst item)) =? "text"); [reflexivity|].
  destruct (mediaType (metadata (fst item)) =? "image"); [|reflexivity].
  destruct (path (metadata (fst item))) as [p|]; [|reflexivity].
  destruct (FS.writeFile _ _ (fs w)) as [root'|e] eqn:W; [|reflexivity].
  cbn [snd fs]. eapply writeFile_outside; eauto using last_segment_no_slash.
Qed.

Lemma printResults_outside (results : list (Document * Score))
  (t : string) (q : list string) :
  t <> "output" ->
  forall w : World,
  FS.get (t :: q) (fs (snd (printResults results w))) = FS.get (t :: q) (fs w).
Proof.
  intros D. induction results as [|item rest IH]; intros w; [reflexivity|].
  rewrite printResults_cons.
  pose proof (rendered_outside item w t q D) as H.
  destruct (rendered item w) as [[u|e] w1]; cbn [snd] in *.
  - now rewrite IH.
  - exact H.
Qed.

Lemma clearDirectory_outside (w : World) (t : string) (q : list string) :
  (forall es, FS.get (FS.segments "output") (fs w) = Some (Dir es) ->
              forallb FS.valid_name (map fst es) = true) ->
  t <> "output" ->
  FS.get (t :: q) (fs (snd (clearDirectory "output" w))) = FS.get (t :: q) (fs w).
Proof.
  intros V D.
  destruct (FS.get (FS.segments "output") (fs w)) as [[b|es]|] eqn:G.
  - destruct (clearDirectory_missing "output" w) as (e & ->); [|reflexivity].
    intros es. rewrite G. discriminate.
  - destruct (clearDirectory_run "output" es w G (V es eq_refl))
      as (root' & Hm & ->).
    cbn [snd fs]. change (FS.segments "output") with ["output"] in Hm.
    exact (FSFacts.get_modify_other _ _ _ _ _ _ _ Hm (not_eq_sym D)).
  - destruct (clearDirectory_missing "output" w) as (e & ->); [|reflexivity].
    intros es. rewrite G. discriminate.
Qed.

Lemma search_report_outside (v : Vector) (k : nat) (heading : string) (w : World)
  (t : string) (q : list string) :
  t <> "output" ->
  FS.get (t :: q)
    (fs (snd (bind (vectorStore_similaritySearchVectorWithScore v k)
                (fun res => report heading res) w)))
  = FS.get (t :: q) (fs w).
Proof.
  intros D. rewrite search_report_eq.
  destruct (similaritySearchVectorWithScore _ _ _) as [res|e]; [|reflexivity].
  now rewrite printResults_outside.
Qed.

(** X3. A query, text or image, whatever it returns and however it ends,
    changes nothing outside the output directory: every path that does not
    start with "output" resolves afterwards to what it resolved to before.
    In particular the images and the persisted store are never deleted or
    overwritten by a query. *)
Theorem X3_query_stays_in_output (w : World) (path : string)
  (t : string) (q : list string) :
  (forall es, FS.get (FS.segments "output") (fs w) = Some (Dir es) ->
              forallb FS.valid_name (map fst es) = true) ->
  FS.segments path = t :: q ->
  t <> "output" ->
  (forall text k,
     FS.get (FS.segments path) (fs (snd (textSimilaritySearch text k w)))
     = FS.get (FS.segments path) (fs w))
  /\ (forall p k,
       FS.get (FS.segments path) (fs (snd (imageSimilaritySearch p k w)))
       = FS.get (FS.segments path) (fs w)).
Proof.
  intros V -> D.
  pose proof (clearDirectory_outside w t q V D) as C.
  split.
  - intros text k. rewrite textSimilaritySearch_eq.
    destruct (clearDirectory "output" w) as [[u|e] w1]; cbn [snd] in *;
      [|exact C].
    cbn zeta. destruct (embedQuery _ text) as [v|e]; [|exact C].
    now rewrite search_report_outside.
  - intros p k. rewrite imageSimilaritySearch_eq.
    destruct (clearDirectory "output" w) as [[u|e] w1]; cbn [snd] in *;
      [|exact C].
    cbn zeta. destruct (FS.readFile p (fs w1)) as [img|e]; [|exact C].
    destruct (embedImageQuery _ img) as [v|e]; [|exact C].
    now rewrite search_report_outside.
Qed.

(** X4. An image query whose query image lies in the output directory
    cannot succeed: the directory is cleared before the image is read, so
    on a directory of files the read fails with ENOENT, the directory is
    left empty and no embedding or search call is made. *)
Theorem X4_query_image_in_output (name : string) (k : nat) (w : World)
  (es : list (string * Node)) :
  FS.get (FS.segments "output") (fs w) = Some (Dir es) ->
  forallb FS.valid_name (map fst es) = true ->
  forallb (fun e => FS.is_file (snd e)) es = true ->
  FS.valid_name name = true ->
  exists root',
    imageSimilaritySearch ("output/" ++ name) k w
    = (Err (IOError "ENOENT" ("output/" ++ name)),
       {| fs := root'; vectorStore := vectorStore w;
          trace := (trace w
                    ++ map (fun f => EvUnlink (path_join "output" f)) (map fst es)
                    ++ [EvLog "Performing image similarity search."])%list |})
    /\ FS.readdir "output" root' = Ok [].
Proof.
  intros G V F Vn.
  destruct (clearDirectory_run "output" es w G V) as (root' & Hm & Hrun).
  pose proof (survivors_files es F) as Hs. rewrite Hs in Hm.
  pose proof (modify_const_get _ _ _ _ Hm) as Hout.
  assert (Ha : attempted es = map fst es).
  { clear -F. induction es as [|[f [b|sub]] r IH]; cbn in *;
      [reflexivity| |discriminate]. now rewrite IH. }
  exists root'. split.
  - rewrite imageSimilaritySearch_eq, Hrun. unfold clear_result. rewrite Hs, Ha.
    cbn zeta. cbn [fs vectorStore trace].
    assert (Hr : FS.readFile ("output/" ++ name) root'
                 = Err (IOError "ENOENT" ("output/" ++ name))).
    { unfold FS.readFile.
      change ("output/" ++ name) with ("output" ++ "/" ++ name) at 1.
      rewrite FSFacts.segments_join, FSFacts.get_app, Hout by assumption.
      reflexivity. }
    rewrite Hr. now rewrite <- app_assoc.
  - unfold FS.readdir. now rewrite Hout.
Qed.

(** X5. Two image results whose paths end in the same file name are
    written to the same output file: after [printResults] the file holds
    the bytes of the second result and the directory is what it would be
    had the first result not been there. *)
Theorem X5_same_name_overwrites (first second : Document * Score)
  (p1 p2 : string) (w : World) (es : list (string * Node)) :
  mediaType (metadata (fst first)) = "image" ->
  path (metadata (fst first)) = Some p1 ->
  mediaType (metadata (fst second)) = "image" ->
  path (metadata (fst second)) = Some p2 ->
  last_segment p1 = last_segment p2 ->
  FS.valid_name (last_segment p2) = true ->
  FS.get (FS.segments "output") (fs w) = Some (Dir es) ->
  (forall sub, FS.find_entry (last_segment p2) es <> Some (Dir sub)) ->
  exists w',
    printResults [first; second] w = (Ok tt, w')
    /\ FS.readFile ("output/" ++ last_segment p2) (fs w')
       = Ok (Base64.decode (pageContent (fst second)))
    /\ FS.get (FS.segments "output") (fs w')
       = Some (Dir (FS.put_entry (last_segment p2)
                      (File (Base64.decode (pageContent (fst second)))) es)).
Proof.
  intros I1 P1 I2 P2 Same Vn G N.
  destruct (writeFile_dir "output" (last_segment p2)
              (Base64.decode (pageContent (fst first))) (fs w) es G Vn N)
    as (root1 & W1 & G1).
  destruct (writeFile_dir "output" (last_segment p2)
              (Base64.decode (pageContent (fst second))) root1 _ G1 Vn)
    as (root2 & W2 & G2).
  { intros sub. rewrite FSFacts.find_put_same. discriminate. }
  rewrite FSFacts.put_put in G2.
  eexists. split; [|split].
  - rewrite printResults_cons. unfold rendered at 1. cbn zeta.
    rewrite I1, P1, Same. cbn [String.eqb Ascii.eqb Bool.eqb].
    change ("output/" ++ last_segment p2) with ("output" ++ "/" ++ last_segment p2).
    rewrite W1.
    rewrite printResults_cons. unfold rendered at 1. cbn zeta.
    rewrite I2, P2. cbn [String.eqb Ascii.eqb Bool.eqb fs vectorStore trace].
    change ("output/" ++ last_segment p2) with ("output" ++ "/" ++ last_segment p2).
    rewrite W2. reflexivity.
  - cbn [fs]. now apply FSFacts.read_after_write in W2.
  - exact G2.
Qed.

(** X6. What [addImage] stores, [printResults] gives back: the document
    added for a non-empty image file, rendered as a search result into an
    output directory that has no subdirectory of the file's name, leaves in
    "output" a file of that name with exactly the bytes [addImage] read. *)
Theorem X6_store_then_render (p : string) (c : Z) (w w1 w2 : World) (s : Score)
  (es : list (string * Node)) :
  addImage p c w = (Ok tt, w1) ->
  FS.readFile p (fs w) <> Ok [] ->
  FS.valid_name (last_segment p) = true ->
  FS.get (FS.segments "output") (fs w2) = Some (Dir es) ->
  (forall sub, FS.find_entry (last_segment p) es <> Some (Dir sub)) ->
  exists v d img w3,
    FS.readFile p (fs w) = Ok img
    /\ img <> []
    /\ vectorStore w1 = (vectorStore w ++ [(v, d)])%list
    /\ pageContent d <> EmptyString
    /\ printResults [(d, s)] w2 = (Ok tt, w3)
    /\ FS.readFile ("output/" ++ last_segment p) (fs w3) = Ok img.
Proof.
  intros H Hne Vn G N. rewrite addImage_eq in H.
  destruct (FS.readFile p (fs w)) as [img|e]; [|discriminate].
  assert (Hi : img <> []) by (intros ->; now apply Hne).
  cbn zeta in H. destruct (embedImageQuery (trace w) img) as [v|e]; [|discriminate].
  destruct (faiss_accepts _ _ _); [|discriminate].
  injection H as <-. cbn [vectorStore].
  destruct (writeFile_dir "output" (last_segment p) img (fs w2) es G Vn N)
    as (root' & W & _).
  exists v. eexists. exists img. eexists.
  split; [reflexivity|]. split; [exact Hi|]. split; [reflexivity|]. split.
  { cbn [pageContent]. now apply encode_nonempty. }
  split.
  - rewrite printResults_cons. unfold rendered. cbn zeta.
    cbn [fst pageContent metadata mediaType path String.eqb Ascii.eqb Bool.eqb].
    rewrite Base64Facts.decode_encode.
    change ("output/" ++ last_segment p) with ("output" ++ "/" ++ last_segment p).
    rewrite W. reflexivity.
  - cbn [fs]. now apply FSFacts.read_after_write in W.
Qed.

End OutputDirectory.

Section WholeRun.

Context {Vector Score : Type} {R : @Runtime Vector Score}.
Local Abbreviation World := (@World Vector).
Local Abbreviation M := (@M Vector).
Local Abbreviation Event := (@Event Vector).

(** Ingestion, however it ends, leaves the directory alone and makes
    embedding, add and log calls only. *)
Lemma ingest_quiet (w : World) (r : Result unit) (w' : World) :
  FS.exists_ vectorStorePath (fs w) = false ->
  addItemsToVectorStore w = (r, w') ->
  fs w' = fs w
  /\ exists new, trace w' = (trace w ++ new)%list
                 /\ forallb ingest_event new = true.
Proof.
  intros E H. rewrite addItems_absent in H by assumption.
  apply ingest_run in H as (k & _ & Hfs & _ & _ & (new & extra & Htr & Hev & _)).
  split; [assumption|]. now exists new.
Qed.

Lemma place_get (n root root' : Node) :
  FS.place (FS.segments vectorStorePath) n root = Some root' ->
  FS.get (FS.segments vectorStorePath) root' = Some n.
Proof.
  change (FS.segments vectorStorePath) with ["vector_store"].
  cbn [FS.place FS.get]. destruct root as [b|es]; [discriminate|].
  destruct (FS.find_entry "vector_store" es) as [c|].
  - destruct c as [b|sub]; [discriminate|]. intros [= <-].
    now rewrite FSFacts.find_put_same.
  - intros [= <-]. now rewrite FSFacts.find_put_same.
Qed.

(** X7. When ingestion fails, the run fails with the same error in the
    same state and never reaches the query or the save: the directory is
    as the run found it, with no store at the store path, so the documents
    embedded before the failure are lost and the next run starts the
    ingestion over. *)
Theorem X7_failed_ingestion_not_saved (root : Node) (e : Error) (w' : World) :
  FS.exists_ vectorStorePath root = false ->
  addItemsToVectorStore (start root) = (Err e, w') ->
  main (start root) = (Err e, w')
  /\ fs w' = root
  /\ FS.exists_ vectorStorePath (fs w') = false
  /\ forallb ingest_event (trace w') = true.
Proof.
  intros E H.
  destruct (ingest_quiet (start root) _ _ E H) as (Hfs & new & Htr & Hev).
  cbn [start fs trace app] in Hfs, Htr.
  split; [|split; [|split]].
  - unfold main. unfold bind at 1. rewrite initVectorStore_eq.
    cbn [start fs vectorStore trace]. rewrite E.
    unfold bind at 1.
    change {| fs := root; vectorStore := []; trace := [] |} with (@start Vector root).
    now rewrite H.
  - exact Hfs.
  - now rewrite Hfs.
  - now rewrite Htr.
Qed.

(** X8. Without an output directory no run completes: the query throws,
    the save is never reached, and the directory is left exactly as it
    was.  When the ingestion itself completed, the run ends in the state
    the ingestion left, the nine documents in memory and nothing on
    disk. *)
Theorem X8_missing_output_fails_run (root : Node) :
  (forall es, FS.get (FS.segments "output") root <> Some (Dir es)) ->
  exists e w',
    main (start root) = (Err e, w')
    /\ fs w' = root
    /\ filter is_save (trace w') = []
    /\ (FS.exists_ vectorStorePath root = false ->
        forall w1, addItemsToVectorStore (start root) = (Ok tt, w1) -> w' = w1).
Proof.
  intros G.
  assert (Q : forall w1 : World, fs w1 = root ->
                exists e, textSimilaritySearch "Mammals" 1 w1 = (Err e, w1)).
  { intros w1 Hfs. rewrite <- Hfs in G.
    destruct (clearDirectory_missing "output" w1 G) as (e & C).
    exists e. now rewrite textSimilaritySearch_eq, C. }
  unfold main, bind. rewrite initVectorStore_eq.
  cbn [start fs vectorStore trace app].
  destruct (FS.exists_ vectorStorePath root) eqn:E.
  - cbn zeta.
    destruct (FS.get (FS.segments vectorStorePath) root) as [n|].
    + destruct (FaissStore_load n) as [st|e].
      * rewrite addItems_present by exact E.
        destruct (Q {| fs := root; vectorStore := st;
                       trace := [EvLoad vectorStorePath] |} eq_refl) as (e & ->).
        exists e. eexists. split; [reflexivity|].
        repeat split. discriminate.
      * exists e. eexists. split; [reflexivity|]. repeat split. discriminate.
    + eexists. eexists. split; [reflexivity|]. repeat split. discriminate.
  - change {| fs := root; vectorStore := []; trace := [] |} with (@start Vector root).
    destruct (addItemsToVectorStore (start root)) as [[[]|e] w1] eqn:H;
      destruct (ingest_quiet (start root) _ _ E H) as (Hfs & new & Htr & Hev);
      cbn [start fs trace app] in Hfs, Htr.
    + destruct (Q w1 Hfs) as (e & ->).
      exists e, w1. split; [reflexivity|]. split; [exact Hfs|]. split.
      * rewrite Htr. apply (filter_none ingest_event is_save new Hev).
        now intros [].
      * now intros _ w2 [= <-].
    + exists e, w1. split; [reflexivity|]. split; [exact Hfs|]. split.
      * rewrite Htr. apply (filter_none ingest_event is_save new Hev).
        now intros [].
      * intros _ w2. discriminate.
Qed.

(** X9. The query never changes the store.  In a run that completes, the
    store that is saved is the one the ingestion step left: the store
    loaded from the store path when there was one, the nine catalog
    documents otherwise; and what lies at the store path afterwards is the
    persisted form of that store. *)
Theorem X9_saved_store (root : Node) (w' : World) :
  main (start root) = (Ok tt, w') ->
  (exists n', FaissStore_persist (vectorStore w') = Ok n'
              /\ FS.get (FS.segments vectorStorePath) (fs w') = Some n')
  /\ (FS.exists_ vectorStorePath root = true ->
      exists n, FS.get (FS.segments vectorStorePath) root = Some n
                /\ FaissStore_load n = Ok (vectorStore w'))
  /\ (FS.exists_ vectorStorePath root = false ->
      exists vs, List.length vs = 9
                 /\ vectorStore w' = combine vs (documentsFrom root catalog 0)).
Proof.
  unfold main. intros H.
  apply bind_ok in H as ([] & w1 & H1 & H).
  apply bind_ok in H as ([] & w2 & H2 & H).
  apply bind_ok in H as ([] & w3 & H3 & H4).
  apply textSimilaritySearch_trace in H3 as (Hst3 & _).
  rewrite vectorStore_save_eq in H4. cbn zeta in H4.
  destruct (FaissStore_persist (vectorStore w3)) as [n'|e] eqn:P; [|discriminate].
  destruct (FS.place _ n' (fs w3)) as [root'|] eqn:Pl; [|discriminate].
  injection H4 as <-. cbn [fs vectorStore].
  split; [|split].
  - exists n'. split; [exact P|]. now apply place_get in Pl.
  - intros E. rewrite initVectorStore_eq in H1. cbn [start fs vectorStore trace] in H1.
    rewrite E in H1. cbn zeta in H1.
    destruct (FS.get _ root) as [n|]; [|discriminate].
    destruct (FaissStore_load n) as [st|e] eqn:L; [|discriminate].
    injection H1 as <-. rewrite addItems_present in H2 by exact E.
    injection H2 as <-. cbn [vectorStore] in Hst3. exists n. split; [reflexivity|].
    now rewrite Hst3.
  - intros E. rewrite initVectorStore_eq in H1. cbn [start fs vectorStore trace] in H1.
    rewrite E in H1. injection H1 as <-.
    apply ingest_all in H2 as (_ & _ & Hst & _); [|exact E].
    cbn [fs vectorStore app] in Hst.
    destruct Hst as (v0 & v1 & v2 & v3 & v4 & v5 & v6 & v7 & v8 & Hst).
    exists [v0; v1; v2; v3; v4; v5; v6; v7; v8]. split; [reflexivity|].
    now rewrite Hst3.
Qed.

Lemma addItem_logs (it : Item) (c : Z) (w : World) (r : Result unit) (w' : World) :
  addItem it c w = (r, w') ->
  exists new,
    trace w' = (trace w ++ new)%list
    /\ match r with
       | Ok _ =>
           filter is_log new = [addedLineOf it]
           /\ List.length (vectorStore w') = S (List.length (vectorStore w))
       | Err _ =>
           filter is_log new = []
           /\ List.length (vectorStore w') = List.length (vectorStore w)
       end.
Proof.
  destruct it as [p|t]; cbn [addItem addedLineOf].
  - rewrite addImage_eq.
    destruct (FS.readFile p (fs w)) as [img|e].
    + cbn zeta. destruct (embedImageQuery (trace w) img) as [v|e].
      * destruct (faiss_accepts _ _ _); intros [= <- <-];
          cbn [vectorStore trace]; eexists; (split; [reflexivity|]).
        -- rewrite length_app. cbn. split; [reflexivity|lia].
        -- now split.
      * intros [= <- <-]; cbn [vectorStore trace]. eexists.
        split; [reflexivity|]. now split.
    + intros [= <- <-]. exists []. rewrite app_nil_r. now repeat split.
  - rewrite addText_eq. cbn zeta.
    destruct (embedQuery (trace w) t) as [v|e].
    + destruct (faiss_accepts _ _ _); intros [= <- <-];
        cbn [vectorStore trace]; eexists; (split; [reflexivity|]).
      * rewrite length_app. cbn. split; [reflexivity|lia].
      * now split.
    + intros [= <- <-]; cbn [vectorStore trace]. eexists.
      split; [reflexivity|]. now split.
Qed.

Lemma ingest_logs (xs : list Item) :
  forall (c : Z) (w : World) (r : Result unit) (w' : World),
  for_counting addItem xs c w = (r, w') ->
  exists k new,
    k <= List.length xs
    /\ (r = Ok tt -> k = List.length xs)
    /\ trace w' = (trace w ++ new)%list
    /\ filter is_log new = firstn k (map addedLineOf xs)
    /\ List.length (vectorStore w') = List.length (vectorStore w) + k.
Proof.
  induction xs as [|x xs IH]; intros c w r w'.
  - cbn [for_counting]. intros [= <- <-]. exists 0, [].
    rewrite app_nil_r. repeat split; cbn; lia.
  - cbn [for_counting]. unfold bind.
    destruct (addItem x c w) as [r1 w1] eqn:E1.
    apply addItem_logs in E1 as (new1 & Htr1 & Hcase).
    destruct r1 as [u|e].
    + destruct Hcase as (Hlog1 & Hlen1). intros H.
      apply IH in H as (k & new & Hk & Hok & Htr & Hlog & Hlen).
      exists (S k), (new1 ++ new)%list. repeat split.
      * cbn. lia.
      * intros Hr. cbn. now rewrite (Hok Hr).
      * now rewrite Htr, Htr1, app_assoc.
      * rewrite filter_app, Hlog1, Hlog. reflexivity.
      * lia.
    + destruct Hcase as (Hlog1 & Hlen1). intros [= <- <-].
      exists 0, new1. repeat split; cbn; try lia; try assumption.
      discriminate.
Qed.

(** X10. During ingestion the log and the store go together: the lines
    logged are the "added." lines of the first k catalog items, in order,
    and the store has grown by exactly k documents, whether the ingestion
    completes (k = 9) or throws.  An item that fails is never reported as
    added. *)
Theorem X10_one_line_per_document (w : World) (r : Result unit) (w' : World) :
  FS.exists_ vectorStorePath (fs w) = false ->
  addItemsToVectorStore w = (r, w') ->
  exists k new,
    k <= 9
    /\ (r = Ok tt -> k = 9)
    /\ trace w' = (trace w ++ new)%list
    /\ filter is_log new = firstn k (map addedLineOf catalog)
    /\ List.length (vectorStore w') = List.length (vectorStore w) + k.
Proof.
  intros E H. rewrite addItems_absent in H by assumption.
  now apply ingest_logs in H.
Qed.

End WholeRun.

Lemma X3_query_stays_in_output_witness :
  (forall es,
     FS.get (FS.segments "output") (fs (Demo.boot Demo.fresh)) = Some (Dir es) ->
     forallb FS.valid_name (map fst es) = true)
  /\ FS.segments "images/dog.jpeg" = ["images"; "dog.jpeg"]
  /\ "images" <> "output"
  /\ FS.get (FS.segments "images/dog.jpeg")
       (fs (snd (Demo.text_query "Mammals" 1 (Demo.boot Demo.fresh))))
     = FS.get (FS.segments "images/dog.jpeg") (fs (Demo.boot Demo.fresh)).
Proof.
  assert (V : forall es,
            FS.get (FS.segments "output") (fs (Demo.boot Demo.fresh)) = Some (Dir es) ->
            forallb FS.valid_name (map fst es) = true).
  { intros es H. vm_compute in H. injection H as <-. reflexivity. }
  assert (S : FS.segments "images/dog.jpeg" = ["images"; "dog.jpeg"]) by reflexivity.
  assert (D : "images" <> "output") by discriminate.
  split; [exact V|]. split; [exact S|]. split; [exact D|].
  exact (proj1 (X3_query_stays_in_output (R := Demo.runtime)
                  (Demo.boot Demo.fresh) "images/dog.jpeg" _ _ V S D) "Mammals" 1).
Defined.

Lemma X4_query_image_in_output_witness :
  FS.get (FS.segments "output") (fs (Demo.boot Demo.fresh))
  = Some (Dir [ ("old.jpeg", File [xff]) ])
  /\ FS.valid_name "old.jpeg" = true
  /\ fst (Demo.image_query "output/old.jpeg" 1 (Demo.boot Demo.fresh))
     = Err (IOError "ENOENT" "output/old.jpeg").
Proof.
  assert (G : FS.get (FS.segments "output") (fs (Demo.boot Demo.fresh))
              = Some (Dir [ ("old.jpeg", File [xff]) ])) by reflexivity.
  assert (Vn : FS.valid_name "old.jpeg" = true) by reflexivity.
  split; [exact G|]. split; [exact Vn|].
  destruct (X4_query_image_in_output (R := Demo.runtime) "old.jpeg" 1
              (Demo.boot Demo.fresh) _ G eq_refl eq_refl Vn) as (root' & H & _).
  exact (f_equal fst H).
Defined.

Lemma X5_same_name_overwrites_witness :
  last_segment "images/cat.jpg" = last_segment "backup/cat.jpg"
  /\ FS.get (FS.segments "output") (fs (Demo.boot Demo.fresh))
     = Some (Dir [ ("old.jpeg", File [xff]) ])
  /\ exists w',
       Demo.print [Demo.image_hit; Demo.other_cat_hit] (Demo.boot Demo.fresh)
       = (Ok tt, w')
       /\ FS.readFile "output/cat.jpg" (fs w') = Ok [x07]
       /\ FS.get (FS.segments "output") (fs w')
          = Some (Dir [ ("old.jpeg", File [xff]); ("cat.jpg", File [x07]) ]).
Proof.
  assert (Same : last_segment "images/cat.jpg" = last_segment "backup/cat.jpg")
    by reflexivity.
  assert (G : FS.get (FS.segments "output") (fs (Demo.boot Demo.fresh))
              = Some (Dir [ ("old.jpeg", File [xff]) ])) by reflexivity.
  split; [exact Same|]. split; [exact G|].
  refine (X5_same_name_overwrites (R := Demo.runtime)
            Demo.image_hit Demo.other_cat_hit "images/cat.jpg" "backup/cat.jpg"
            (Demo.boot Demo.fresh) _ eq_refl eq_refl eq_refl eq_refl Same eq_refl G _).
  intros sub. discriminate.
Defined.

Lemma X6_store_then_render_witness :
  Demo.add_image "images/cat.jpg" 1 (Demo.boot Demo.fresh)
  = (Ok tt, snd (Demo.add_image "images/cat.jpg" 1 (Demo.boot Demo.fresh)))
  /\ FS.readFile "images/cat.jpg" (fs (Demo.boot Demo.fresh)) <> Ok []
  /\ FS.valid_name (last_segment "images/cat.jpg") = true
  /\ exists v d img w3,
       FS.readFile "images/cat.jpg" (fs (Demo.boot Demo.fresh)) = Ok img
       /\ img <> []
       /\ vectorStore (snd (Demo.add_image "images/cat.jpg" 1 (Demo.boot Demo.fresh)))
          = (vectorStore (Demo.boot Demo.fresh) ++ [(v, d)])%list
       /\ pageContent d <> EmptyString
       /\ Demo.print [(d, 0%N)] (Demo.boot Demo.fresh) = (Ok tt, w3)
       /\ FS.readFile ("output/" ++ last_segment "images/cat.jpg") (fs w3) = Ok img.
Proof.
  assert (H : Demo.add_image "images/cat.jpg" 1 (Demo.boot Demo.fresh)
              = (Ok tt, snd (Demo.add_image "images/cat.jpg" 1 (Demo.boot Demo.fresh))))
    by (vm_compute; reflexivity).
  assert (Hne : FS.readFile "images/cat.jpg" (fs (Demo.boot Demo.fresh)) <> Ok [])
    by discriminate.
  assert (Vn : FS.valid_name (last_segment "images/cat.jpg") = true) by reflexivity.
  split; [exact H|]. split; [exact Hne|]. split; [exact Vn|].
  refine (X6_store_then_render (R := Demo.runtime) "images/cat.jpg" 1
            (Demo.boot Demo.fresh) _ (Demo.boot Demo.fresh) 0%N
            [ ("old.jpeg", File [xff]) ] H Hne Vn eq_refl _).
  intros sub. discriminate.
Defined.

Lemma X7_failed_ingestion_not_saved_witness :
  FS.exists_ vectorStorePath Demo.no_parrot = false
  /\ Demo.ingest (Demo.boot Demo.no_parrot)
     = (Err (IOError "ENOENT" "images/parrot.jpg"),
        snd (Demo.ingest (Demo.boot Demo.no_parrot)))
  /\ Demo.run (Demo.boot Demo.no_parrot)
     = (Err (IOError "ENOENT" "images/parrot.jpg"),
        snd (Demo.ingest (Demo.boot Demo.no_parrot)))
  /\ fs (snd (Demo.ingest (Demo.boot Demo.no_parrot))) = Demo.no_parrot.
Proof.
  assert (E : FS.exists_ vectorStorePath Demo.no_parrot = false) by reflexivity.
  assert (H : Demo.ingest (Demo.boot Demo.no_parrot)
              = (Err (IOError "ENOENT" "images/parrot.jpg"),
                 snd (Demo.ingest (Demo.boot Demo.no_parrot))))
    by (vm_compute; reflexivity).
  split; [exact E|]. split; [exact H|].
  destruct (X7_failed_ingestion_not_saved (R := Demo.runtime) _ _ _ E H)
    as (Hm & Hfs & _).
  split; [exact Hm|exact Hfs].
Defined.

Lemma X8_missing_output_fails_run_witness :
  (forall es, FS.get (FS.segments "output") Demo.no_output <> Some (Dir es))
  /\ exists e w',
       Demo.run (Demo.boot Demo.no_output) = (Err e, w')
       /\ fs w' = Demo.no_output
       /\ List.length (vectorStore w') = 9.
Proof.
  assert (G : forall es,
            FS.get (FS.segments "output") Demo.no_output <> Some (Dir es)).
  { intros es H. vm_compute in H. discriminate H. }
  split; [exact G|].
  destruct (X8_missing_output_fails_run (R := Demo.runtime) _ G)
    as (e & w' & Hm & Hfs & _ & Hlast).
  exists e, w'. split; [exact Hm|]. split; [exact Hfs|].
  rewrite (Hlast eq_refl (snd (Demo.ingest (Demo.boot Demo.no_output)))).
  - vm_compute. reflexivity.
  - vm_compute. reflexivity.
Defined.

Lemma X9_saved_store_witness :
  Demo.run (Demo.boot Demo.fresh) = (Ok tt, snd (Demo.run (Demo.boot Demo.fresh)))
  /\ FS.get (FS.segments vectorStorePath) (fs (snd (Demo.run (Demo.boot Demo.fresh))))
     = Some Demo.persisted
  /\ List.length (vectorStore (snd (Demo.run (Demo.boot Demo.fresh)))) = 9.
Proof.
  assert (H : Demo.run (Demo.boot Demo.fresh)
              = (Ok tt, snd (Demo.run (Demo.boot Demo.fresh))))
    by (vm_compute; reflexivity).
  split; [exact H|].
  destruct (X9_saved_store (R := Demo.runtime) _ _ H)
    as ((n' & Hp & Hg) & _ & Hfresh).
  split.
  - rewrite Hg. cbn in Hp. now injection Hp as <-.
  - destruct (Hfresh eq_refl) as (vs & Hlen & ->).
    rewrite length_combine, Hlen. reflexivity.
Defined.

Lemma X10_one_line_per_document_witness :
  FS.exists_ vectorStorePath (fs (Demo.boot Demo.fresh)) = false
  /\ fst (Demo.flaky_ingest (Demo.boot Demo.fresh)) = Err EmbeddingError
  /\ exists k new,
       k <= 9
       /\ trace (snd (Demo.flaky_ingest (Demo.boot Demo.fresh)))
          = (trace (Demo.boot Demo.fresh) ++ new)%list
       /\ filter is_log new = firstn k (map addedLineOf catalog)
       /\ List.length (vectorStore (snd (Demo.flaky_ingest (Demo.boot Demo.fresh))))
          = List.length (vectorStore (Demo.boot Demo.fresh)) + k.
Proof.
  assert (E : FS.exists_ vectorStorePath (fs (Demo.boot Demo.fresh)) = false)
    by reflexivity.
  assert (H : Demo.flaky_ingest (Demo.boot Demo.fresh)
              = (Err EmbeddingError, snd (Demo.flaky_ingest (Demo.boot Demo.fresh))))
    by (vm_compute; reflexivity).
  split; [exact E|]. split; [now rewrite H|].
  destruct (X10_one_line_per_document (R := Demo.flaky) _ _ _ E H)
    as (k & new & Hk & _ & Htr & Hlog & Hlen).
  exists k, new. repeat split; assumption.
Defined.

Section OutputContents.

Context {Vector Score : Type} {R : @Runtime Vector Score}.
Local Abbreviation World := (@World Vector).
Local Abbreviation M := (@M Vector).
Local Abbreviation Event := (@Event Vector).

Lemma put_entry_names (name k : string) (n : Node) (es : list (string * Node)) :
  In k (map fst (FS.put_entry name n es)) <-> k = name \/ In k (map fst es).
Proof.
  induction es as [|[f m] r IH]; cbn.
  - intuition congruence.
  - destruct (f =? name) eqn:E; cbn.
    + apply String.eqb_eq in E. subst f. intuition congruence.
    + rewrite IH. intuition.
Qed.

(** A write below "output" that succeeds while "output" is a directory has
    put a file of that name into it. *)
Lemma writeFile_output_inv (name : string) (data : Bytes) (root root' : Node)
  (es : list (string * Node)) :
  FS.no_slash name = true ->
  FS.get ["output"] root = Some (Dir es) ->
  FS.writeFile ("output/" ++ name) data root = Ok root' ->
  FS.get ["output"] root' = Some (Dir (FS.put_entry name (File data) es)).
Proof.
  intros N G W. unfold FS.writeFile in W.
  destruct (output_target name N) as [S|[S|S]]; rewrite S in W;
    cbn [FS.parent_and_name rev app] in W.
  - discriminate.
  - cbn [FS.modify] in W. destruct root as [b|res]; [discriminate|].
    cbn [FS.get] in G, W.
    destruct (FS.find_entry "output" res) as [[b|sub]|]; discriminate.
  - destruct (FS.modify ["output"] _ root) as [r1|] eqn:M.
    + injection W as <-. apply FSFacts.modify_inv in M as (m & m' & Gm & F & G').
      rewrite G in Gm. injection Gm as <-.
      destruct (FS.find_entry name es) as [[b|sub]|]; try discriminate;
        injection F as <-; exact G'.
    + destruct (FS.get ["output"; name] root) as [[b|sub]|]; discriminate.
Qed.

(** The output directory after rendering: what it held, plus the files
    the write calls name. *)
Lemma printResults_contents (results : list (Document * Score)) :
  forall (w w' : World) (es : list (string * Node)),
  FS.get ["output"] (fs w) = Some (Dir es) ->
  printResults results w = (Ok tt, w') ->
  exists es' new,
    FS.get ["output"] (fs w') = Some (Dir es')
    /\ trace w' = (trace w ++ new)%list
    /\ forallb render_event new = true
    /\ forall k, In k (map fst es')
                 <-> In k (map fst es)
                     \/ exists bytes, In (EvWriteFile ("output/" ++ k) bytes) new.
Proof.
  induction results as [|item rest IH]; intros w w' es G.
  - intros [= <-]. exists es, []. rewrite app_nil_r.
    repeat split; try assumption; try tauto.
    intros [H|(bytes & [])]. exact H.
  - rewrite printResults_cons. unfold rendered. cbn zeta.
    destruct (mediaType (metadata (fst item)) =? "text").
    { intros H. apply IH with (es := es) in H; [|exact G].
      destruct H as (es' & new & G' & Htr & Hev & Hn). cbn [trace] in Htr.
      exists es'. eexists. split; [exact G'|]. split.
      { rewrite Htr, <- app_assoc. reflexivity. }
      split; [cbn; exact Hev|].
      intros k. rewrite Hn. cbn [app In].
      split; [intros [H|(b & H)]; eauto|].
      intros [H|(b & [H|[H|H]])]; eauto; discriminate. }
    destruct (mediaType (metadata (fst item)) =? "image").
    + destruct (path (metadata (fst item))) as [p|]; [|discriminate].
      destruct (FS.writeFile _ _ (fs w)) as [root'|e] eqn:W; [|discriminate].
      pose proof (writeFile_output_inv _ _ _ _ _ (last_segment_no_slash p) G W) as G1.
      intros H. apply IH with (es := FS.put_entry (last_segment p)
                                       (File (Base64.decode (pageContent (fst item)))) es)
        in H; [|exact G1].
      destruct H as (es' & new & G' & Htr & Hev & Hn). cbn [trace] in Htr.
      exists es'. eexists. split; [exact G'|]. split.
      { rewrite Htr, <- app_assoc. reflexivity. }
      split; [cbn; exact Hev|].
      intros k. rewrite Hn, put_entry_names. cbn [app In].
      split.
      * intros [[->|H]|(b & H)]; eauto.
      * intros [H|(b & [H|[H|H]])]; eauto; try discriminate.
        injection H as H _. left. left. now symmetry.
    + intros H. apply IH with (es := es) in H; [|exact G].
      destruct H as (es' & new & G' & Htr & Hev & Hn). cbn [trace] in Htr.
      exists es'. eexists. split; [exact G'|]. split.
      { rewrite Htr, <- app_assoc. reflexivity. }
      split; [cbn; exact Hev|].
      intros k. rewrite Hn. cbn [app In].
      split; [intros [H|(b & H)]; eauto|].
      intros [H|(b & [H|H])]; eauto; discriminate.
Qed.

Lemma render_after_clear (results : list (Document * Score)) (w w4 w' : World)
  (pre : list Event) :
  FS.get ["output"] (fs w4) = Some (Dir []) ->
  trace w4 = (trace w ++ pre)%list ->
  (forall f b, ~ In (EvWriteFile f b) pre) ->
  printResults results w4 = (Ok tt, w') ->
  exists names new,
    FS.readdir "output" (fs w') = Ok names
    /\ trace w' = (trace w ++ new)%list
    /\ forall f, In f names
                 <-> exists bytes, In (EvWriteFile ("output/" ++ f) bytes) new.
Proof.
  intros G Htr Hpre H.
  apply printResults_contents with (es := []) in H; [|exact G].
  destruct H as (es' & newp & G' & Htr' & _ & Hn).
  exists (map fst es'), (pre ++ newp)%list. split; [|split].
  - unfold FS.readdir. change (FS.segments "output") with ["output"].
    now rewrite G'.
  - now rewrite Htr', Htr, app_assoc.
  - intros f. rewrite Hn. cbn [map In]. split.
    + intros [[]|(b & Hb)]. exists b. apply in_or_app. now right.
    + intros (b & Hb). apply in_app_or in Hb as [Hb|Hb]; [|eauto].
      now destruct (Hpre _ _ Hb).
Qed.

(** X11. After a query that completes, the output directory holds exactly
    the files that query wrote: a name is listed in "output" if and only
    if the query made a write call for "output/" followed by that name.
    Nothing of an earlier query is left, and every write is there. *)
Theorem X11_output_reflects_query (w w' : World) (es : list (string * Node)) :
  FS.get (FS.segments "output") (fs w) = Some (Dir es) ->
  forallb FS.valid_name (map fst es) = true ->
  (exists text k, textSimilaritySearch text k w = (Ok tt, w'))
  \/ (exists p k, imageSimilaritySearch p k w = (Ok tt, w')) ->
  exists names new,
    FS.readdir "output" (fs w') = Ok names
    /\ trace w' = (trace w ++ new)%list
    /\ forall f, In f names
                 <-> exists bytes, In (EvWriteFile ("output/" ++ f) bytes) new.
Proof.
  intros G V H.
  destruct (clearDirectory_run "output" es w G V) as (root' & Hm & Hrun).
  assert (Hu : forall f b,
             ~ In (EvWriteFile f b)
                 (map (fun k : string => @EvUnlink Vector ("output" ++ "/" ++ k))
                    (attempted es))).
  { intros f b Hin. apply in_map_iff in Hin as (x & Hx & _). discriminate. }
  destruct H as [(text & k & H)|(p & k & H)].
  - rewrite textSimilaritySearch_eq, Hrun in H. unfold clear_result in H.
    destruct (survivors es) as [|[k0 n0] rest] eqn:S; [|discriminate].
    pose proof (modify_const_get _ _ _ _ Hm) as Hout.
    cbn zeta in H. cbn [fs vectorStore trace] in H.
    destruct (embedQuery _ text) as [v|e]; [|discriminate].
    rewrite search_report_eq in H. cbn [fs vectorStore trace] in H.
    destruct (similaritySearchVectorWithScore _ v k) as [res|e]; [|discriminate].
    eapply render_after_clear in H; [exact H|exact Hout| |].
    + cbn [trace]. rewrite <- !app_assoc. reflexivity.
    + intros f b Hin. apply in_app_or in Hin as [Hin|Hin];
        [now apply (Hu f b)|].
      cbn in Hin. intuition discriminate.
  - rewrite imageSimilaritySearch_eq, Hrun in H. unfold clear_result in H.
    destruct (survivors es) as [|[k0 n0] rest] eqn:S; [|discriminate].
    pose proof (modify_const_get _ _ _ _ Hm) as Hout.
    cbn zeta in H. cbn [fs vectorStore trace] in H.
    destruct (FS.readFile p root') as [img|e]; [|discriminate].
    destruct (embedImageQuery _ img) as [v|e]; [|discriminate].
    rewrite search_report_eq in H. cbn [fs vectorStore trace] in H.
    destruct (similaritySearchVectorWithScore _ v k) as [res|e]; [|discriminate].
    eapply render_after_clear in H; [exact H|exact Hout| |].
    + cbn [trace]. rewrite <- !app_assoc. reflexivity.
    + intros f b Hin. apply in_app_or in Hin as [Hin|Hin];
        [now apply (Hu f b)|].
      cbn in Hin. intuition discriminate.
Qed.

End OutputContents.

Lemma X11_output_reflects_query_witness :
  FS.get (FS.segments "output") (fs (snd (Demo.ingest (Demo.boot Demo.fresh))))
  = Some (Dir [ ("old.jpeg", File [xff]) ])
  /\ Demo.image_query "images/cat.jpg" 1 (snd (Demo.ingest (Demo.boot Demo.fresh)))
     = (Ok tt, snd (Demo.image_query "images/cat.jpg" 1
                      (snd (Demo.ingest (Demo.boot Demo.fresh)))))
  /\ FS.readdir "output"
       (fs (snd (Demo.image_query "images/cat.jpg" 1
                   (snd (Demo.ingest (Demo.boot Demo.fresh))))))
     = Ok ["cat.jpg"]
  /\ exists names (new : list (@Event Demo.Vec)),
       FS.readdir "output"
         (fs (snd (Demo.image_query "images/cat.jpg" 1
                     (snd (Demo.ingest (Demo.boot Demo.fresh))))))
       = Ok names
       /\ forall f, In f names
                    <-> exists bytes, In (EvWriteFile ("output/" ++ f) bytes) new.
Proof.
  assert (G : FS.get (FS.segments "output")
                (fs (snd (Demo.ingest (Demo.boot Demo.fresh))))
              = Some (Dir [ ("old.jpeg", File [xff]) ]))
    by (vm_compute; reflexivity).
  assert (Q : Demo.image_query "images/cat.jpg" 1
                (snd (Demo.ingest (Demo.boot Demo.fresh)))
              = (Ok tt, snd (Demo.image_query "images/cat.jpg" 1
                               (snd (Demo.ingest (Demo.boot Demo.fresh))))))
    by (vm_compute; reflexivity).
  split; [exact G|]. split; [exact Q|]. split; [vm_compute; reflexivity|].
  destruct (X11_output_reflects_query (R := Demo.runtime) _ _ _ G eq_refl
              (or_intror (ex_intro _ "images/cat.jpg" (ex_intro _ 1 Q))))
    as (names & new & Hd & _ & Hn).
  exists names, new. split; [exact Hd|exact Hn].
Defined.
